(** * Lima-Medic: the booking application [app.py]

    A shallow embedding of [generate_slots],
    [get_horarios_disponibles], the Excel helpers and the routes
    [seleccionar_hora], [pago] and [marcar_atendido] of [app.py],
    together with the properties the specification states about them;
    then of the other routes ([registro], [login], [logout],
    [seleccionar_medico], [confirmar_cita], [citas_pendientes],
    [boleta_download] with [generate_boleta_pdf], the dashboards,
    [historial]) and of further properties of the code.  [index] and
    [reserva] are not embedded: they sort the specialties of the
    doctors sheet, cells of any type, with [sorted].

    Conventions of the embedding:
    - a Python [dict] is a [gmap string value]; an absent key of a row of
      a sheet stands for an empty cell;
    - a route is a function from the request and the state of the
      process (session, flashed messages, the Excel files, the in-memory
      list [citas_pendientes_mem]) to a [result] and the new state: the
      result is a response, or the exception that escapes the route;
    - the outside world (is pandas importable, does a write to disk
      succeed, the clock, the bytes drawn from [secrets]) is an explicit
      argument [env];
    - the [while] loop of [generate_slots] runs on fuel; every statement
      that it returns says which fuel is enough;
    - the Flask session is a signed cookie: the field [sess] of the
      state a route starts from is the session the request carries, and
      the [sess] of the state it ends in is the session the answer
      sends back; a later request carries the session its client
      chooses to send, the latest or an earlier one;
    - an Excel file is the frame [pd.read_excel] reads from it, and the
      statements relate, within one request, the frame read to the
      frame handed to [to_excel].  [read_excel] infers the type of
      every column again (a text of digits comes back as a number, an
      empty text as an empty cell); that is not part of the embedding,
      and no statement depends on the cells of a row that is read back
      after it was written (the second call of C4 reads back cells that
      were read from a file before, and the text "Atendido");
    - whether pandas accepts an assignment [df.loc[mask, c] = v]
      depends on its version and on the types it read: it is an
      argument, like the success of a write. *)

From Stdlib Require Import ZArith List String Ascii Lia Bool.
From Stdlib Require Strings.Byte.
From stdpp Require Import base option gmap strings list pretty.

Open Scope string_scope.
Open Scope Z_scope.

(* ===================================================================== *)
(** ** Python values, exceptions, results *)
(* ===================================================================== *)

Module Py.

  (** The cell and dictionary values the routes handle. [VNaN] is the
      empty cell of a sheet as pandas reads it. *)
Inductive value :=
  | VNone
  | VNaN
  | VInt (z : Z)
  | VStr (s : string).

#[global] Instance value_eq_dec : EqDecision value.
Proof. solve_decision. Defined.

Inductive exn :=
  | ValueError
  | TypeError
  | OverflowError
  | KeyError
  | AttributeError
  | IndexError
  | RuntimeError
  | OSError.

  (** What running a piece of code gives: a value, an exception, or the
      loop fuel of the model ran out ([NoFuel] is not an exception and no
      [except] clause catches it). *)
Inductive result (A : Type) :=
  | Ok (a : A)
  | Raise (e : exn)
  | NoFuel.
Arguments Ok {A} a.
Arguments Raise {A} e.
Arguments NoFuel {A}.

Definition bind {A B} (r : result A) (k : A -> result B) : result B :=
    match r with
    | Ok a => k a
    | Raise e => Raise e
    | NoFuel => NoFuel
    end.

  (** [try: body  except Exception: handler] *)
Definition try_except {A} (body : result A) (handler : exn -> result A)
    : result A :=
    match body with
    | Raise e => handler e
    | r => r
    end.

  (** Truthiness of a value, as in [if not medico_id:] *)
Definition truthy (v : value) : bool :=
    match v with
    | VNone => false
    | VNaN => true
    | VInt z => negb (z =? 0)
    | VStr s => negb (String.eqb s "")
    end.

End Py.
Import Py.

#[global] Instance result_ret : MRet result := @Ok.
#[global] Instance result_bind : MBind result := fun A B k r => Py.bind r k.

(* ===================================================================== *)
(** ** Text helpers: decimal digits, [%H:%M], hexadecimal *)
(* ===================================================================== *)

Module Text.

Definition is_digit (c : ascii) : bool :=
    let n := N_of_ascii c in ((48 <=? n) && (n <=? 57))%N.

Definition digit_val (c : ascii) : Z := Z.of_N (N_of_ascii c) - 48.

  (** The character of a digit [0..9] (and of a hexadecimal digit
      [0..15], lower case as [bytes.hex] prints it). *)
Definition digit_char (d : Z) : ascii :=
    ascii_of_N (Z.to_N (48 + d)).

Definition hex_char (d : Z) : ascii :=
    if d <? 10 then ascii_of_N (Z.to_N (48 + d))
    else ascii_of_N (Z.to_N (87 + d)).

Definition is_hex (c : ascii) : bool :=
    let n := N_of_ascii c in
    (((48 <=? n) && (n <=? 57)) || ((97 <=? n) && (n <=? 102)))%N.

Fixpoint string_forall (p : ascii -> bool) (s : string) : bool :=
    match s with
    | EmptyString => true
    | String c s' => p c && string_forall p s'
    end.

  (** Two decimal digits, zero padded: [%02d] for [0 <= n < 100]. *)
Definition two_digits (n : Z) : string :=
    String (digit_char (n / 10)) (String (digit_char (n mod 10)) EmptyString).

End Text.

(* ===================================================================== *)
(** ** [datetime]: [strptime], [strftime] and [timedelta] for "%H:%M" *)
(* ===================================================================== *)

Module Clock.
Import Text.

  (** A [datetime] whose seconds are zero is the number of minutes since
      1900-01-01 00:00, the date [strptime] gives to a time without a
      date.  [datetime.min] is 0001-01-01 00:00 and [datetime.max] is
      9999-12-31 23:59:59.999999: 693595 days before and 2958463 days
      after that origin. *)
Definition datetime := Z.

Definition min_minute : Z := - (693595 * 1440).
Definition max_minute : Z := 2958463 * 1440 + 1439.

  (** [cur + timedelta(minutes=n)]: [OverflowError] outside the range of
      [datetime] (a [timedelta] too large to build is out of that range
      as well and raises the same exception). *)
Definition add_minutes (cur : datetime) (n : Z) : result datetime :=
    let t := cur + n in
    if (min_minute <=? t) && (t <=? max_minute) then Ok t
    else Raise OverflowError.

  (** A Python [str] is written here as its UTF-8 encoding.
      [next_char] reads the character at the head of a text: its code
      point and the rest of the text ([None] at the end of the text, or
      on bytes that are not the UTF-8 encoding of a character, which no
      [str] gives). *)
Definition continuation (c : ascii) : option N :=
    let b := N_of_ascii c in
    if ((128 <=? b) && (b <? 192))%N then Some (b - 128)%N else None.

  (** A code point that the sequence read encodes in the shortest way
      and that is not a surrogate. *)
Definition scalar (lo hi cp : N) : option N :=
    if ((lo <=? cp) && (cp <=? hi)
        && negb ((55296 <=? cp) && (cp <=? 57343)))%N
    then Some cp else None.

Definition next_char (s : string) : option (N * string) :=
    match s with
    | EmptyString => None
    | String c0 s1 =>
        let b0 := N_of_ascii c0 in
        if (b0 <? 128)%N then Some (b0, s1)
        else if ((192 <=? b0) && (b0 <? 224))%N then
          match s1 with
          | String c1 s2 =>
              x1 ← continuation c1;
              cp ← scalar 128 2047 ((b0 - 192) * 64 + x1)%N;
              Some (cp, s2)
          | _ => None
          end
        else if ((224 <=? b0) && (b0 <? 240))%N then
          match s1 with
          | String c1 (String c2 s3) =>
              x1 ← continuation c1;
              x2 ← continuation c2;
              cp ← scalar 2048 65535 (((b0 - 224) * 64 + x1) * 64 + x2)%N;
              Some (cp, s3)
          | _ => None
          end
        else if ((240 <=? b0) && (b0 <? 248))%N then
          match s1 with
          | String c1 (String c2 (String c3 s4)) =>
              x1 ← continuation c1;
              x2 ← continuation c2;
              x3 ← continuation c3;
              cp ← scalar 65536 1114111
                     ((((b0 - 240) * 64 + x1) * 64 + x2) * 64 + x3)%N;
              Some (cp, s4)
          | _ => None
          end
        else None
    end.

  (** The decimal digits of Unicode (category Nd), which [\d] matches
      in a regular expression on [str] and [int] reads: the digits of a
      script are ten consecutive code points, listed here by their
      zero (Unicode 14.0, the character database of CPython 3.11). *)
Definition decimal_zeros : list N :=
    [48; 1632; 1776; 1984; 2406; 2534; 2662; 2790; 2918; 3046; 3174; 3302;
     3430; 3558; 3664; 3792; 3872; 4160; 4240; 6112; 6160; 6470; 6608;
     6784; 6800; 6992; 7088; 7232; 7248; 42528; 43216; 43264; 43472;
     43504; 43600; 44016; 65296; 66720; 68912; 69734; 69872; 69942;
     70096; 70384; 70736; 70864; 71248; 71360; 71472; 71904; 72016;
     72784; 73040; 73120; 92768; 92864; 93008; 120782; 120792; 120802;
     120812; 120822; 123200; 123632; 125264; 130032]%N.

  (** [\d], with the value [int] gives to the digit. *)
Definition decimal_value (cp : N) : option Z :=
    z ← List.find (fun z => ((z <=? cp) && (cp <=? z + 9))%N) decimal_zeros;
    Some (Z.of_N (cp - z)).

  (** [[0-k]]: an ASCII digit up to [k]. *)
Definition digit_upto (k cp : N) : option Z :=
    if ((48 <=? cp) && (cp <=? 48 + k))%N then Some (Z.of_N (cp - 48))
    else None.

  (** The minute field of "%H:%M": the regular expression
      [[0-5]\d|\d], after which the text must end. *)
Definition parse_minute (s : string) : option Z :=
    '(m1, s1) ← next_char s;
    match s1 with
    | EmptyString => decimal_value m1
    | _ =>
        '(m2, s2) ← next_char s1;
        match s2 with
        | EmptyString =>
            d1 ← digit_upto 5 m1;
            d2 ← decimal_value m2;
            Some (10 * d1 + d2)
        | _ => None
        end
    end.

  (** The hour field, [2[0-3]|[0-1]\d|\d], followed by a colon (code
      point 58) and the minute field. *)
Definition parse_hour2 (h1 h2 : N) : option Z :=
    match (if (h1 =? 50)%N then digit_upto 3 h2 else None) with
    | Some d => Some (20 + d)
    | None =>
        d1 ← digit_upto 1 h1;
        d2 ← decimal_value h2;
        Some (10 * d1 + d2)
    end.

Definition parse_hhmm (s : string) : option Z :=
    '(h1, s1) ← next_char s;
    '(c2, s2) ← next_char s1;
    if (c2 =? 58)%N then
      h ← decimal_value h1;
      m ← parse_minute s2;
      Some (60 * h + m)
    else
      '(c3, s3) ← next_char s2;
      if (c3 =? 58)%N then
        h ← parse_hour2 h1 c2;
        m ← parse_minute s3;
        Some (60 * h + m)
      else None.

  (** [datetime.strptime(x, "%H:%M")]: [TypeError] when [x] is not a
      string, [ValueError] when it does not match the format. *)
Definition strptime (x : value) : result datetime :=
    match x with
    | VStr s =>
        match parse_hhmm s with
        | Some t => Ok t
        | None => Raise ValueError
        end
    | _ => Raise TypeError
    end.

  (** [d.strftime("%H:%M")]: the time of day of [d]. *)
Definition strftime (d : datetime) : string :=
    let t := d mod 1440 in
    (two_digits (t / 60) +:+ ":" +:+ two_digits (t mod 60))%string.

End Clock.

(* ===================================================================== *)
(** ** Utilities: [generate_slots], [get_horarios_disponibles] *)
(* ===================================================================== *)

Module Slots.
Import Clock.

  (** The loop of [generate_slots]:
<<
    while cur + timedelta(minutes=int(slot_minutes)) <= end:
        slots.append(cur.strftime(fmt))
        cur += timedelta(minutes=int(slot_minutes))
>>
      The test is evaluated on every entry, also when the fuel is spent. *)
Fixpoint slots_loop (fuel : nat) (end_ : datetime) (slot_minutes : Z)
      (cur : datetime) (slots : list string) : result (list string) :=
    nxt ← add_minutes cur slot_minutes;
    if nxt <=? end_ then
      match fuel with
      | O => NoFuel
      | S fuel' =>
          slots_loop fuel' end_ slot_minutes nxt (slots ++ [strftime cur])
      end
    else Ok slots.

Definition generate_slots (fuel : nat) (start_time_str end_time_str : value)
      (slot_minutes : Z) : result (list string) :=
    start ← strptime start_time_str;
    end_ ← strptime end_time_str;
    slots_loop fuel end_ slot_minutes start [].

Definition default_horarios : list string :=
    ["09:00"; "09:30"; "10:00"; "10:30"; "11:00"].

  (** [medico.get(key, default)] *)
Definition dict_get (d : gmap string value) (key : string)
      (default : value) : value :=
    match d !! key with
    | Some v => v
    | None => default
    end.

Definition get_horarios_disponibles (fuel : nat)
      (medico : gmap string value) : result (list string) :=
    try_except
      (let inicio := dict_get medico "start_time" (VStr "09:00") in
       let fin := dict_get medico "end_time" (VStr "17:00") in
       generate_slots fuel inicio fin 30)
      (fun _ => Ok default_horarios).

End Slots.

(* ===================================================================== *)
(** ** Code that changes a state and may raise *)
(* ===================================================================== *)

Module St.

  (** A computation over a state [S]: the state survives an exception,
      so an [except] clause runs in the state the [try] body left. *)
Definition ST (S A : Type) : Type := S -> result A * S.

Definition ret {S A} (a : A) : ST S A := fun s => (Ok a, s).

Definition bind {S A B} (m : ST S A) (k : A -> ST S B) : ST S B :=
    fun s =>
      match m s with
      | (Ok a, s') => k a s'
      | (Raise e, s') => (Raise e, s')
      | (NoFuel, s') => (NoFuel, s')
      end.

Definition raise {S A} (e : exn) : ST S A := fun s => (Raise e, s).

  (** A computation that does not touch the state. *)
Definition pure {S A} (r : result A) : ST S A := fun s => (r, s).

Definition get {S} : ST S S := fun s => (Ok s, s).
Definition modify {S} (f : S -> S) : ST S unit := fun s => (Ok tt, f s).

  (** [try: body  except Exception: handler] *)
Definition try_except {S A} (body : ST S A) (handler : exn -> ST S A)
    : ST S A :=
    fun s =>
      match body s with
      | (Raise e, s') => handler e s'
      | r => r
      end.

  (** Run a computation on a component of a larger state. *)
Definition zoom {S T A} (proj : T -> S) (upd : S -> T -> T)
      (m : ST S A) : ST T A :=
    fun t => let '(r, s') := m (proj t) in (r, upd s' t).

End St.
Import St.

#[global] Instance st_ret {S} : MRet (ST S) := fun A => @St.ret S A.
#[global] Instance st_bind {S} : MBind (ST S) :=
  fun A B k m => @St.bind S A B m k.

(* ===================================================================== *)
(** ** The Excel files and the pandas operations the routes use *)
(* ===================================================================== *)

Module Excel.

  (** A row of a sheet, and also [df.to_dict(orient="records")[i]] and
      the [cita] dictionary: column name to cell. *)
Abbreviation row := (gmap string value).

  (** A [DataFrame]: its columns and its rows in order.  A column that a
      row has no entry for is an empty cell ([VNaN]) of that row. *)
Record frame := Frame { columns : gset string; rows : list row }.

  (** What is at a path: nothing, a file [pd.read_excel] fails on, or a
      sheet. *)
Inductive file :=
  | Absent
  | Unreadable
  | Sheet (df : frame).

Inductive path := CIT_F | PATI_F | MED_F.

Record disk := Disk { cit_f : file; pati_f : file; med_f : file }.

Definition disk_get (p : path) (d : disk) : file :=
    match p with
    | CIT_F => cit_f d
    | PATI_F => pati_f d
    | MED_F => med_f d
    end.

Definition disk_set (p : path) (f : file) (d : disk) : disk :=
    match p with
    | CIT_F => Disk f (pati_f d) (med_f d)
    | PATI_F => Disk (cit_f d) f (med_f d)
    | MED_F => Disk (cit_f d) (pati_f d) f
    end.

  (** The rows a readable sheet holds (none for a missing or unreadable
      file). *)
Definition stored_rows (f : file) : list row :=
    match f with
    | Sheet df => rows df
    | _ => []
    end.

  (** [os.path.exists(path)] *)
Definition exists_ (f : file) : bool :=
    match f with
    | Absent => false
    | _ => true
    end.

  (** [pd.DataFrame(columns=cols)] *)
Definition empty_frame (cols : list string) : frame :=
    Frame (list_to_set cols) [].

  (** [df.empty]: one of the two axes has length 0. *)
Definition df_empty (df : frame) : bool :=
    match rows df with
    | [] => true
    | _ => bool_decide (columns df = ∅)
    end.

  (** The cell of row [r] in column [c]. *)
Definition cell (r : row) (c : string) : value :=
    match r !! c with
    | Some v => v
    | None => VNaN
    end.

  (** One comparison of [df[c] == v]: numbers with numbers, strings with
      strings; an empty cell or [None] equals nothing. *)
Definition cell_eq (x v : value) : bool :=
    match x, v with
    | VInt a, VInt b => a =? b
    | VStr a, VStr b => String.eqb a b
    | _, _ => false
    end.

  (** [df[c] == v], the boolean mask: [KeyError] without the column. *)
Definition col_eq (df : frame) (c : string) (v : value)
    : result (row -> bool) :=
    if bool_decide (c ∈ columns df)
    then Ok (fun r => cell_eq (cell r c) v)
    else Raise KeyError.

  (** [df[mask]] *)
Definition df_filter (df : frame) (mask : row -> bool) : frame :=
    Frame (columns df) (List.filter mask (rows df)).

  (** [df.iloc[0]]: [IndexError] on a frame without rows. *)
Definition iloc0 (df : frame) : result row :=
    match rows df with
    | r :: _ => Ok r
    | [] => Raise IndexError
    end.

  (** [series[c]] on a row of [df]: [KeyError] without the column. *)
Definition row_getitem (df : frame) (r : row) (c : string) : result value :=
    if bool_decide (c ∈ columns df) then Ok (cell r c) else Raise KeyError.

  (** [series.to_dict()]: every column of the frame is a key. *)
Definition to_dict (df : frame) (r : row) : row :=
    r ∪ gset_to_gmap VNaN (columns df).

  (** The frame an accepted [df.loc[mask, c] = v] leaves: the cell is
      set in the rows the mask selects; the column is added when the
      frame lacks it.  ([loc_setitem] below is the assignment.) *)
Definition loc_set (df : frame) (mask : row -> bool) (c : string)
      (v : value) : frame :=
    Frame ({[c]} ∪ columns df)
          (List.map (fun r => if mask r then <[c := v]> r else r) (rows df)).

  (** [pd.concat([df, pd.DataFrame([r])], ignore_index=True)] *)
Definition concat_row (df : frame) (r : row) : frame :=
    Frame (columns df ∪ dom r) (rows df ++ [r]).

  (** The part of the outside world the Excel helpers depend on:
      whether [import pandas] worked, whether a write to a path
      succeeds when it is attempted, and whether pandas accepts an
      assignment [df.loc[mask, c] = v].  pandas refuses a value the
      column cannot hold: from pandas 3 on a text assigned to a column
      it read as numbers or as empty cells raises [TypeError], where
      earlier versions widen the column. *)
Record io := Io {
    pandas : bool;
    writable : path -> bool;
    loc_accepts : frame -> (row -> bool) -> string -> value -> bool
  }.

Section WithIo.
Variable (w : io).

    (** [df.loc[mask, c] = v] *)
Definition loc_setitem (df : frame) (mask : row -> bool) (c : string)
        (v : value) : result frame :=
      if loc_accepts w df mask c v then Ok (loc_set df mask c v)
      else Raise TypeError.

    (** [df.to_excel(path, index=False)] *)
Definition to_excel (p : path) (df : frame) : ST disk unit :=
      fun d =>
        if writable w p then (Ok tt, disk_set p (Sheet df) d)
        else (Raise OSError, d).

    (** [pd.read_excel(path)] *)
Definition read_excel (p : path) : ST disk frame :=
      fun d =>
        match disk_get p d with
        | Sheet df => (Ok df, d)
        | _ => (Raise OSError, d)
        end.

Definition _ensure_excel_file (p : path) (cols : list string)
      : ST disk bool :=
      if negb (pandas w) then mret false
      else
        d ← St.get;
        if negb (exists_ (disk_get p d)) then
          _ ← to_excel p (empty_frame cols);
          mret true
        else mret true.

    (** [excel_read(path, default_cols)]; the result [None] is Python's
        [None], returned when pandas is missing. *)
Definition excel_read (p : path) (default_cols : list string)
      : ST disk (option frame) :=
      if negb (pandas w) then mret None
      else
        d ← St.get;
        _ ← (if negb (exists_ (disk_get p d))
             then _ensure_excel_file p default_cols
             else mret true);
        St.try_except
          (df ← read_excel p; mret (Some df))
          (fun _ =>
             _ ← _ensure_excel_file p default_cols;
             mret (Some (empty_frame default_cols))).

Definition excel_append_row (p : path) (r : row)
        (default_cols : list string) : ST disk bool :=
      if negb (pandas w) then St.raise RuntimeError
      else
        odf ← excel_read p default_cols;
        match odf with
        | None => St.raise TypeError  (* not reached: pandas is there *)
        | Some df =>
            _ ← to_excel p (concat_row df r);
            mret true
        end.

End WithIo.

End Excel.

(* ===================================================================== *)
(** ** The routes of [app.py] *)
(* ===================================================================== *)

Module App.
Import Text Clock Slots Excel.

(** *** State of the process and of a request *)

(** [session["user"]], built by [login] with exactly these four keys. *)
Record user_info := UserInfo {
  username : value;
  nombre : value;
  rol : value;
  email : value
}.

(** The Flask session: the logged-in user and the booking draft
    [session["reserva_temp"]] (a dictionary), each present or not.  The
    application uses Flask's default session, a signed cookie the
    client keeps: a request brings its session and the answer sends
    back the new one. *)
Record session := Session {
  user : option user_info;
  reserva_temp : option row
}.

(** What a route starts from and ends in: the session of the request
    (on the way out, of the answer), and the state of the process. *)
Record world := World {
  sess : session;
  flashes : list (string * string);       (* message, category *)
  files : disk;
  citas_pendientes_mem : list row;        (* the module-level list *)
  qr_dir : gmap string string;            (* file name to encoded text *)
  stdout : list (string * exn)
}.

Inductive http_method := GET | POST.

Record request := Request {
  method : http_method;
  form : gmap string string;
  referrer : option string
}.

Inductive endpoint :=
| ep_index
| ep_login
| ep_seleccionar_medico
| ep_seleccionar_hora
| ep_confirmar_cita
| ep_citas_pendientes.

(** [url_for(endpoint)], from the [@app.route] decorators. *)
Definition url_for (ep : endpoint) : string :=
  match ep with
  | ep_index => "/"
  | ep_login => "/login"
  | ep_seleccionar_medico => "/seleccionar_medico"
  | ep_seleccionar_hora => "/seleccionar_hora"
  | ep_confirmar_cita => "/confirmar_cita"
  | ep_citas_pendientes => "/citas_pendientes"
  end.

Inductive response :=
| Redirect (location : string)
| RenderTemplate (template : string) (horarios : list string).

(** The functions [app.py] tries to import from [utils_excel]; [None]
    is the value the [except] branch of the import gives them.  The
    module is not part of the repository: what it does is a parameter,
    a computation on the Excel files. *)
Record utils_excel := UtilsExcel {
  get_medico_by_id : option (value -> ST disk row);
  save_cita : option (row -> ST disk unit);
  marcar_cita_atendida : option (Z -> ST disk bool)
}.

Definition no_utils : utils_excel := UtilsExcel None None None.

(** Everything a request reads from outside the process state. *)
Record env := Env {
  xl : io;
  utils : utils_excel;
  QR_AVAILABLE : bool;
  qr_save_ok : bool;                  (* does [img.save(path)] succeed *)
  qr_placeholder : bool;              (* does the placeholder image exist *)
  utcnow_timestamp : Z;               (* [int(datetime.utcnow().timestamp())] *)
  urandom : nat -> list Byte.byte;    (* the bytes [secrets.token_hex] draws *)
  randbelow : Z -> Z                  (* [secrets.randbelow] *)
}.

(** *** Small pieces *)

Definition on_files {A} (m : ST disk A) : ST world A :=
  St.zoom files
    (fun d w => World (sess w) (flashes w) d (citas_pendientes_mem w)
                      (qr_dir w) (stdout w))
    m.

Definition flash (message category : string) : ST world unit :=
  St.modify (fun w =>
    World (sess w) (flashes w ++ [(message, category)]) (files w)
          (citas_pendientes_mem w) (qr_dir w) (stdout w)).

Definition set_session (s : session) : ST world unit :=
  St.modify (fun w =>
    World s (flashes w) (files w) (citas_pendientes_mem w) (qr_dir w)
          (stdout w)).

(** [citas_pendientes_mem.append(cita)] *)
Definition mem_append (cita : row) : ST world unit :=
  St.modify (fun w =>
    World (sess w) (flashes w) (files w) (citas_pendientes_mem w ++ [cita])
          (qr_dir w) (stdout w)).

Definition print (message : string) (e : exn) : ST world unit :=
  St.modify (fun w =>
    World (sess w) (flashes w) (files w) (citas_pendientes_mem w)
          (qr_dir w) (stdout w ++ [(message, e)])).

Definition save_qr (filename text : string) : ST world unit :=
  St.modify (fun w =>
    World (sess w) (flashes w) (files w) (citas_pendientes_mem w)
          (<[filename := text]> (qr_dir w)) (stdout w)).

(** ["user" not in session or session["user"].get("rol") != "paciente"] *)
Definition not_paciente (s : session) : bool :=
  match user s with
  | None => true
  | Some u => negb (bool_decide (rol u = VStr "paciente"))
  end.

(** [session.get("reserva_temp", {})] *)
Definition get_temp (s : session) : row :=
  match reserva_temp s with
  | Some t => t
  | None => ∅
  end.

(** [key in d] *)
Definition has_key (d : row) (key : string) : bool :=
  bool_decide (is_Some (d !! key)).

(** [d.get(key)] *)
Definition get_or_none (d : row) (key : string) : value :=
  dict_get d key VNone.

(** [request.form.get(key)] as a value: [None] without the field. *)
Definition form_get (req : request) (key : string) : value :=
  match form req !! key with
  | Some s => VStr s
  | None => VNone
  end.

(** [str(x)] inside an f-string. *)
Definition str (x : value) : string :=
  match x with
  | VNone => "None"
  | VNaN => "nan"
  | VInt z => pretty z
  | VStr s => s
  end.

(** Two lower-case hexadecimal digits of a byte. *)
Definition hex_of_byte (b : Byte.byte) : string :=
  let n := Z.of_N (Byte.to_N b) in
  String (hex_char (n / 16)) (String (hex_char (n mod 16)) EmptyString).

Fixpoint hex_of_bytes (bs : list Byte.byte) : string :=
  match bs with
  | [] => EmptyString
  | b :: bs' => (hex_of_byte b +:+ hex_of_bytes bs')%string
  end.

(** [secrets.token_hex(n)] *)
Definition token_hex (e : env) (n : nat) : string :=
  hex_of_bytes (urandom e n).

(** [s.rjust(width, "0")] for a string of digits. *)
Definition zfill (width : nat) (s : string) : string :=
  (string_of_list_ascii
     (List.repeat "0"%char (width - String.length s)) +:+ s)%string.

(** [f"{n:06d}"]: the sign comes first, the zeros after it. *)
Definition format_06d (n : Z) : string :=
  if n <? 0 then ("-" +:+ zfill 5 (pretty (- n)))%string
  else zfill 6 (pretty n).

(** *** [generate_qr_image] *)

Definition generate_qr_image (e : env) (text filename : string)
  : ST world (option string) :=
  if QR_AVAILABLE e then
    if qr_save_ok e then
      _ ← save_qr filename text;
      mret (Some filename)
    else St.raise OSError
  else
    mret (if qr_placeholder e then Some "static/img/qr_placeholder.png"
          else None).

(** *** [seleccionar_hora] *)

(** The fuel the route gives to [get_horarios_disponibles]: a day has
    48 half hours (see [generate_slots_30_fuel] below). *)
Definition slot_fuel : nat := 48.

(** The [try] block of [seleccionar_hora] that finds the doctor. *)
Definition find_medico (e : env) (temp : row) : ST world row :=
  St.try_except
    (match get_medico_by_id (utils e) with
     | Some hook => on_files (hook (cell temp "medico_id"))
     | None =>
         omed ← on_files (excel_read (xl e) MED_F []);
         match omed with
         | None => St.raise AttributeError
         | Some med_df =>
             if negb (df_empty med_df) then
               mask ← St.pure (col_eq med_df "id" (cell temp "medico_id"));
               r ← St.pure (iloc0 (df_filter med_df mask));
               mret (to_dict med_df r)
             else
               mret (<["id" := cell temp "medico_id"]>
                       (<["nombre" := VStr "Medico"]> ∅))
         end
     end)
    (fun _ =>
       mret (<["id" := get_or_none temp "medico_id"]>
               (<["nombre" := VStr "Médico"]> ∅))).

Definition seleccionar_hora (e : env) (req : request) : ST world response :=
  w ← St.get;
  let temp := get_temp (sess w) in
  if negb (has_key temp "medico_id") then
    _ ← flash "Selecciona un médico antes de elegir hora" "error";
    mret (Redirect (url_for ep_seleccionar_medico))
  else
    medico ← find_medico e temp;
    horarios ← St.pure (get_horarios_disponibles slot_fuel medico);
    match method req with
    | POST =>
        let hora := form_get req "hora" in
        if negb (truthy hora) then
          _ ← flash "Selecciona una hora" "error";
          mret (Redirect (url_for ep_seleccionar_hora))
        else
          _ ← set_session
                (Session (user (sess w)) (Some (<["hora" := hora]> temp)));
          mret (Redirect (url_for ep_confirmar_cita))
    | GET => mret (RenderTemplate "seleccionar_hora.html" horarios)
    end.

(** *** [pago] *)

Definition cita_columns : list string :=
  ["id"; "usuario"; "nombre_paciente"; "especialidad"; "medico_id";
   "medico_nombre"; "fecha"; "hora"; "estado"; "metodo_pago"; "referencia"].

(** The dictionary literal [cita = {...}] of [pago]. *)
Definition new_cita (e : env) (u : user_info) (temp : row) (metodo : string)
  : row :=
  list_to_map
    [("id", VInt (utcnow_timestamp e));
     ("usuario", username u);
     ("nombre_paciente", nombre u);
     ("especialidad", get_or_none temp "especialidad");
     ("medico_id", get_or_none temp "medico_id");
     ("medico_nombre", VStr "");
     ("fecha", get_or_none temp "fecha");
     ("hora", get_or_none temp "hora");
     ("estado", VStr (if String.eqb metodo "QR" then "Pagado" else "Pendiente"));
     ("metodo_pago", VStr metodo);
     ("referencia", VStr "")].

(** The [try] block that fills [cita["medico_nombre"]]; an exception
    leaves the dictionary as it was. *)
Definition with_medico_nombre (e : env) (cita : row) : ST world row :=
  St.try_except
    (match get_medico_by_id (utils e) with
     | Some hook =>
         m ← on_files (hook (cell cita "medico_id"));
         mret (<["medico_nombre" := dict_get m "nombre" (VStr "")]> cita)
     | None =>
         omed ← on_files (excel_read (xl e) MED_F []);
         match omed with
         | None => St.raise AttributeError
         | Some med_df =>
             if negb (df_empty med_df) then
               mask ← St.pure (col_eq med_df "id" (cell cita "medico_id"));
               let found := df_filter med_df mask in
               if negb (df_empty found) then
                 r ← St.pure (iloc0 found);
                 v ← St.pure (row_getitem found r "nombre");
                 mret (<["medico_nombre" := v]> cita)
               else mret cita
             else mret cita
         end
     end)
    (fun _ => mret cita).

(** The reference, and the QR image when the method is "QR". *)
Definition with_referencia (e : env) (metodo : string) (cita : row)
  : ST world row :=
  if String.eqb metodo "QR" then
    let ref := token_hex e 6 in
    let cita' := <["referencia" := VStr ref]> cita in
    let qr_text :=
      ("LimaMedic|ref:" +:+ ref +:+ "|id:" +:+ str (cell cita' "id"))%string in
    _ ← generate_qr_image e qr_text (ref +:+ ".png")%string;
    mret cita'
  else
    let code := format_06d (randbelow e (10 ^ 6)) in
    mret (<["referencia" := VStr code]> cita).

(** The body of the [try] block that persists the appointment. *)
Definition persist_body (e : env) (cita : row) : ST world unit :=
  match save_cita (utils e) with
  | Some hook => on_files (hook cita)
  | None =>
      _ ← on_files (excel_append_row (xl e) CIT_F cita cita_columns);
      mret tt
  end.

(** The [try] block and its fallback, the in-memory list. *)
Definition persist_cita (e : env) (cita : row) : ST world unit :=
  St.try_except
    (persist_body e cita)
    (fun err =>
       _ ← mem_append cita;
       print "Error al persistir en Excel:" err).

(** The appointment [pago] builds before it persists it: the literal,
    the name of the doctor, the reference. *)
Definition build_cita (e : env) (u : user_info) (temp : row)
    (metodo : string) : ST world row :=
  cita ← with_medico_nombre e (new_cita e u temp metodo);
  with_referencia e metodo cita.

(** [request.form.get("metodo", "EFECTIVO")] *)
Definition form_metodo (req : request) : string :=
  match form req !! "metodo" with
  | Some m => m
  | None => "EFECTIVO"
  end.

Definition pago (e : env) (req : request) : ST world response :=
  w ← St.get;
  if not_paciente (sess w) then
    _ ← flash "Inicia sesión como paciente para pagar" "error";
    mret (Redirect (url_for ep_login))
  else
    let temp := get_temp (sess w) in
    if bool_decide (temp = ∅) || negb (has_key temp "hora") then
      _ ← flash "Selecciona hora antes de pagar" "error";
      mret (Redirect (url_for ep_seleccionar_hora))
    else
      match method req with
      | POST =>
          let metodo := form_metodo req in
          match user (sess w) with
          | None => St.raise KeyError
          | Some u =>
              cita ← build_cita e u temp metodo;
              _ ← persist_cita e cita;
              w' ← St.get;
              _ ← set_session (Session (user (sess w')) None);
              _ ← flash
                    "Cita registrada correctamente. Revisa tus citas pendientes."
                    "success";
              mret (Redirect (url_for ep_citas_pendientes))
          end
      | GET => mret (RenderTemplate "pago.html" [])
      end.

(** *** [marcar_atendido] *)

(** The [try] block of [marcar_atendido]: the value of [ok]. *)
Definition marcar_try (e : env) (cita_id : Z) : ST world bool :=
  St.try_except
    (match marcar_cita_atendida (utils e) with
     | Some hook => on_files (hook cita_id)
     | None =>
         odf ← on_files (excel_read (xl e) CIT_F []);
         match odf with
         | Some df =>
             if negb (df_empty df) then
               mask ← St.pure (col_eq df "id" (VInt cita_id));
               df' ← St.pure
                       (loc_setitem (xl e) df mask "estado" (VStr "Atendido"));
               _ ← on_files (to_excel (xl e) CIT_F df');
               mret true
             else mret false
         | None => mret false
         end
     end)
    (fun _ => mret false).

Definition marcar_atendido (e : env) (req : request) (cita_id : Z)
  : ST world response :=
  ok ← marcar_try e cita_id;
  _ ← flash (if ok : bool then "Cita marcada como atendida"
             else "No se pudo actualizar")
            (if ok then "success" else "error");
  mret (Redirect
          (match referrer req with
           | Some r => if String.eqb r "" then url_for ep_index else r
           | None => url_for ep_index
           end)).

(** *** The process: one request after another *)

(** One request served.  The three routes above are embedded in full;
    every other route of [app.py] ([index], [registro], [login],
    [logout], [reserva], [seleccionar_medico], [confirmar_cita],
    [citas_pendientes], [boleta_download], the dashboards, [historial])
    only reads [citas_pendientes_mem]: whatever else they do, they leave
    the list as it is. *)
Inductive step : world -> world -> Prop :=
| step_seleccionar_hora e req w :
    step w (seleccionar_hora e req w).2
| step_pago e req w :
    step w (pago e req w).2
| step_marcar_atendido e req cita_id w :
    step w (marcar_atendido e req cita_id w).2
| step_other w w' :
    citas_pendientes_mem w' = citas_pendientes_mem w ->
    step w w'.

(** The states the process can reach from [w]. *)
Inductive reachable (w : world) : world -> Prop :=
| reach_refl : reachable w w
| reach_step w1 w2 : reachable w w1 -> step w1 w2 -> reachable w w2.

End App.

(* ===================================================================== *)
(** ** More routes: the wizard, the listings, the dashboards *)
(* ===================================================================== *)

Module Views.
Import Text Clock Slots Excel App.

(** What a route of this part answers: a redirect, or a template with
    the lists and dictionaries it is given. *)
Inductive context :=
| CtxPlain
| CtxCitas (citas : list row)
| CtxMedicos (medicos : list row) (temp : row)
| CtxReserva (reserva : row)
| CtxSecretaria (citas medicos : list row)
| CtxFarmacia (inventario proveedores : list row).

Inductive reply :=
| Go (location : string)
| Show (template : string) (ctx : context).

(** The other functions [app.py] tries to import from [utils_excel]
    ([None] when the import fails), again computations on the Excel
    files. *)
Record utils_more := UtilsMore {
  medicos_by_especialidad : option (value -> ST disk (list row));
  list_citas_for_user : option (value -> ST disk (list row));
  citas_por_medico : option (value -> ST disk (list row))
}.

Definition no_utils_more : utils_more := UtilsMore None None None.

(** What these routes read from outside: the environment of the other
    routes, the remaining imports, and Python's [int] on a string. *)
Record deps := Deps {
  base : env;
  more : utils_more;
  py_int : string -> result Z
}.

(** Paths of the routes [url_for] is asked for in this part. *)
Inductive route :=
| r_reserva
| r_pago
| r_dashboard_paciente.

Definition url_of (r : route) : string :=
  match r with
  | r_reserva => "/reserva"
  | r_pago => "/pago"
  | r_dashboard_paciente => "/dashboard/paciente"
  end.

Definition medico_columns : list string :=
  ["id"; "username"; "nombre"; "especialidad"; "start_time"; "end_time";
   "sede"].

(** [df.to_dict(orient="records")] *)
Definition records (df : frame) : list row :=
  List.map (to_dict df) (rows df).

(** Python's [==] on two values of a dictionary: [None == None] holds,
    a NaN equals nothing. *)
Definition py_eq (a b : value) : bool :=
  match a, b with
  | VNone, VNone => true
  | VInt x, VInt y => x =? y
  | VStr x, VStr y => String.eqb x y
  | _, _ => false
  end.

(** [[c for c in citas_pendientes_mem if c.get("usuario") == username]] *)
Definition mem_of (username : value) (w : world) : list row :=
  List.filter (fun c => py_eq (get_or_none c "usuario") username)
              (citas_pendientes_mem w).

(** ["user" not in session or session["user"].get("rol") != r] *)
Definition not_rol (r : string) (s : session) : bool :=
  match user s with
  | None => true
  | Some u => negb (bool_decide (rol u = VStr r))
  end.

(** *** [logout] *)

Definition logout : ST world reply :=
  w ← St.get;
  _ ← set_session (Session None (reserva_temp (sess w)));
  _ ← flash "Sesión cerrada" "success";
  mret (Go (url_for ep_index)).

(** *** [seleccionar_medico] *)

(** The [try] block that lists the doctors of the specialty. *)
Definition med_list_of (d : deps) (temp : row) : ST world (list row) :=
  St.try_except
    (match medicos_by_especialidad (more d) with
     | Some hook =>
         on_files (hook (dict_get temp "especialidad" (VStr "")))
     | None =>
         omed ← on_files (excel_read (xl (base d)) MED_F medico_columns);
         match omed with
         | None => St.raise TypeError
         | Some med_df =>
             mask ← St.pure (col_eq med_df "especialidad"
                               (dict_get temp "especialidad" (VStr "")));
             mret (records (df_filter med_df mask))
         end
     end)
    (fun _ => mret []).

Definition seleccionar_medico (d : deps) (req : request) : ST world reply :=
  w ← St.get;
  match user (sess w), reserva_temp (sess w) with
  | Some _, Some temp =>
      med_list ← med_list_of d temp;
      match method req with
      | POST =>
          let medico_id := form_get req "medico_id" in
          if negb (truthy medico_id) then
            _ ← flash "Selecciona un médico" "error";
            mret (Go (url_for ep_seleccionar_medico))
          else
            z ← St.pure (py_int d (str medico_id));
            _ ← set_session
                  (Session (user (sess w))
                           (Some (<["medico_id" := VInt z]> temp)));
            mret (Go (url_for ep_seleccionar_hora))
      | GET =>
          mret (Show "seleccionar_medico.html" (CtxMedicos med_list temp))
      end
  | _, _ =>
      _ ← flash "Selecciona especialidad primero" "error";
      mret (Go (url_of r_reserva))
  end.

(** *** [confirmar_cita] *)

Definition confirmar_cita (req : request) : ST world reply :=
  w ← St.get;
  let temp := get_temp (sess w) in
  match method req with
  | POST => mret (Go (url_of r_pago))
  | GET => mret (Show "confirmar_reserva.html" (CtxReserva temp))
  end.

(** *** [citas_pendientes] *)

Definition citas_pendientes (d : deps) : ST world reply :=
  w ← St.get;
  match user (sess w) with
  | None =>
      _ ← flash "Inicia sesión" "error";
      mret (Go (url_for ep_login))
  | Some u =>
      citas ← St.try_except
        (match list_citas_for_user (more d) with
         | Some hook => on_files (hook (username u))
         | None =>
             odf ← on_files (excel_read (xl (base d)) CIT_F []);
             match odf with
             | None => St.raise AttributeError
             | Some df =>
                 if negb (df_empty df) then
                   mask ← St.pure (col_eq df "usuario" (username u));
                   mret (records (df_filter df mask))
                 else
                   w' ← St.get;
                   mret (mem_of (username u) w')
             end
         end)
        (fun ex =>
           _ ← print "Error cargando citas:" ex;
           w' ← St.get;
           mret (mem_of (username u) w'));
      _ ← match citas with
          | [] => flash "No tienes citas pendientes." "info"
          | _ => mret tt
          end;
      mret (Show "citas_pendientes.html" (CtxCitas citas))
  end.

(** *** The dashboards and [historial] *)

Definition dashboard_paciente (d : deps) : ST world reply :=
  w ← St.get;
  if not_paciente (sess w) then
    _ ← flash "Inicia sesión como paciente" "error";
    mret (Go (url_for ep_login))
  else
    match user (sess w) with
    | None => St.raise KeyError
    | Some u =>
        citas ← St.try_except
          (match list_citas_for_user (more d) with
           | Some hook => on_files (hook (username u))
           | None =>
               odf ← on_files (excel_read (xl (base d)) CIT_F []);
               match odf with
               | None => mret []
               | Some df =>
                   mask ← St.pure (col_eq df "usuario" (username u));
                   mret (records (df_filter df mask))
               end
           end)
          (fun _ => w' ← St.get; mret (mem_of (username u) w'));
        mret (Show "dashboard_paciente.html" (CtxCitas citas))
    end.

Definition historial (d : deps) : ST world reply :=
  w ← St.get;
  match user (sess w) with
  | None => mret (Go (url_for ep_login))
  | Some u =>
      hist ← St.try_except
        (odf ← on_files (excel_read (xl (base d)) CIT_F []);
         match odf with
         | None => mret []
         | Some df =>
             mask ← St.pure (col_eq df "usuario" (username u));
             mret (records (df_filter df mask))
         end)
        (fun _ => mret []);
      mret (Show "historial.html" (CtxCitas hist))
  end.

(** The two [try] blocks of [dashboard_medico]: the id of the doctor
    who is logged in, then the appointments. *)
Definition medico_id_of (d : deps) (u : user_info) : ST world value :=
  St.try_except
    (omed ← on_files (excel_read (xl (base d)) MED_F []);
     match omed with
     | None => mret VNone
     | Some med_df =>
         mask ← St.pure (col_eq med_df "username" (username u));
         let med := df_filter med_df mask in
         if negb (df_empty med) then
           r ← St.pure (iloc0 med);
           St.pure (row_getitem med r "id")
         else mret VNone
     end)
    (fun _ => mret VNone).

Definition dashboard_medico (d : deps) : ST world reply :=
  w ← St.get;
  if not_rol "medico" (sess w) then
    _ ← flash "Inicia sesión como médico" "error";
    mret (Go (url_for ep_login))
  else
    match user (sess w) with
    | None => St.raise KeyError
    | Some u =>
        medico_id ← medico_id_of d u;
        citas ← St.try_except
          (match citas_por_medico (more d) with
           | Some hook =>
               if truthy medico_id then on_files (hook medico_id)
               else mret []
           | None => mret []
           end)
          (fun _ => mret []);
        mret (Show "dashboard_medico.html" (CtxCitas citas))
    end.

Definition dashboard_secretaria (d : deps) : ST world reply :=
  w ← St.get;
  if not_rol "secretaria" (sess w) then
    _ ← flash "Inicia sesión como secretaria" "error";
    mret (Go (url_for ep_login))
  else
    citas ← St.try_except
      (odf ← on_files (excel_read (xl (base d)) CIT_F []);
       match odf with
       | None => mret []
       | Some df => mret (records df)
       end)
      (fun _ => w' ← St.get; mret (citas_pendientes_mem w'));
    medicos ← St.try_except
      (omed ← on_files (excel_read (xl (base d)) MED_F []);
       match omed with
       | None => mret []
       | Some med => mret (records med)
       end)
      (fun _ => mret []);
    mret (Show "dashboard_secretaria.html" (CtxSecretaria citas medicos)).

Definition dashboard_farmacia : ST world reply :=
  w ← St.get;
  if not_rol "farmacia" (sess w) then
    _ ← flash "Inicia sesión como farmacia" "error";
    mret (Go (url_for ep_login))
  else
    mret (Show "dashboard_farmacia.html" (CtxFarmacia [] [])).

End Views.

(* ===================================================================== *)
(** ** Accounts and receipts: [registro], [login], [boleta_download] *)
(* ===================================================================== *)

Module Desk.
Import Text Clock Slots Excel App Views.

(** What [generate_boleta_pdf] gives to reportlab: the logo when its
    file is there, and the three tables, a label and a value per line. *)
Record boleta := Boleta {
  logo : bool;
  data_paciente : list (string * value);
  data_cita : list (string * value);
  data_pago : list (string * value)
}.

(** The process and the directory [PDF_DIR]: file name to document. *)
Record site := Site {
  proc : world;
  pdf_dir : gmap string boleta
}.

(** What [authenticate] answers: [(False, message)] or [(True, user)]. *)
Inductive auth :=
| Denied (message : string)
| Granted (user : row).

(** What these routes read from outside, besides [deps]: the remaining
    imports from [utils_excel] ([None] when the import fails), whether
    [import reportlab] worked, whether the logo file exists, whether
    [doc.build] succeeds, and two operations of Python the model takes
    as they are: [str.strip] and the text [str(e)] of an exception. *)
Record desk := DeskEnv {
  views : deps;
  create_user :
    option (string -> string -> string -> string -> string -> string ->
            string -> ST disk (bool * string));
  authenticate : option (string -> string -> string -> ST disk auth);
  util_generate_boleta_pdf :
    option (row -> row -> string -> ST (gmap string boleta) bool);
  REPORTLAB_AVAILABLE : bool;
  logo_exists : bool;
  pdf_build_ok : bool;
  strip : string -> string;
  exn_text : exn -> string
}.

Definition pati_columns : list string :=
  ["username"; "nombre"; "email"; "telefono"; "rol"; "password";
   "documento"].

(** [request.form.get(key, default)] *)
Definition form_str (req : request) (key default : string) : string :=
  match form req !! key with
  | Some s => s
  | None => default
  end.

(** Truthiness of a string. *)
Definition nonempty (s : string) : bool := negb (String.eqb s "").

(** *** [registro] *)

(** The dictionary literal [row = {...}] of [registro]. *)
Definition new_paciente (username nombre email telefono rol password
    documento : string) : row :=
  list_to_map
    [("username", VStr username); ("nombre", VStr nombre);
     ("email", VStr email); ("telefono", VStr telefono);
     ("rol", VStr rol); ("password", VStr password);
     ("documento", VStr documento)].

Definition registro (k : desk) (req : request) : ST world reply :=
  match method req with
  | POST =>
      let username := strip k (form_str req "username" "") in
      let nombre := strip k (form_str req "nombre" "") in
      let email := strip k (form_str req "email" "") in
      let telefono := strip k (form_str req "telefono" "") in
      let rol := form_str req "rol" "paciente" in
      let password := form_str req "password" "" in
      let documento := form_str req "documento" "" in
      ok_res ← St.try_except
        (match create_user k with
         | Some hook =>
             on_files (hook username nombre email telefono rol password
                            documento)
         | None =>
             _ ← on_files
                   (excel_append_row (xl (base (views k))) PATI_F
                      (new_paciente username nombre email telefono rol
                                    password documento)
                      pati_columns);
             mret (true, "Registrado OK (fallback)")
         end)
        (fun ex => mret (false, "Error al registrar: " +:+ exn_text k ex));
      if negb ok_res.1 then
        _ ← flash ok_res.2 "error";
        mret (Show "registro.html" CtxPlain)
      else
        _ ← flash "Registro exitoso. Por favor inicia sesión." "success";
        mret (Go (url_for ep_login))
  | GET => mret (Show "registro.html" CtxPlain)
  end.

(** *** [login] *)

(** The fallback of [login]: look the identifier up in the patients
    sheet, by user name or by e-mail. *)
Definition login_fallback (k : desk) (identifier password rol : string)
  : ST world auth :=
  odf ← on_files (excel_read (xl (base (views k))) PATI_F pati_columns);
  if nonempty identifier && nonempty password then
    match odf with
    | None => St.raise TypeError
    | Some df =>
        by_username ← St.pure (col_eq df "username" (VStr identifier));
        by_email ← St.pure (col_eq df "email" (VStr identifier));
        let row := df_filter df (fun r => by_username r || by_email r) in
        if df_empty row then
          mret (Denied "Credenciales inválidas (fallback)")
        else
          r ← St.pure (iloc0 row);
          pw ← St.pure (row_getitem row r "password");
          if negb (py_eq pw (VStr password)) then
            mret (Denied "Credenciales inválidas (fallback)")
          else
            r' ← St.pure (iloc0 row);
            rl ← St.pure (row_getitem row r' "rol");
            if negb (py_eq rl (VStr rol)) then
              mret (Denied "Credenciales inválidas (fallback)")
            else
              r'' ← St.pure (iloc0 row);
              mret (Granted (to_dict row r''))
    end
  else mret (Denied "Proporciona credenciales").

(** Where [login] sends a user of each role. *)
Definition home_of (rol : string) : string :=
  if String.eqb rol "paciente" then "/dashboard/paciente"
  else if String.eqb rol "medico" then "/dashboard/medico"
  else if String.eqb rol "secretaria" then "/dashboard/secretaria"
  else if String.eqb rol "farmacia" then "/dashboard/farmacia"
  else url_for ep_index.

Definition login (k : desk) (req : request) : ST world reply :=
  match method req with
  | POST =>
      let identifier := strip k (form_str req "identifier" "") in
      let password := form_str req "password" "" in
      let rol := form_str req "rol" "paciente" in
      ok_res ← St.try_except
        (match authenticate k with
         | Some hook => on_files (hook identifier password rol)
         | None => login_fallback k identifier password rol
         end)
        (fun ex =>
           mret (Denied ("Error autenticación: " +:+ exn_text k ex)));
      match ok_res with
      | Denied res =>
          _ ← flash res "error";
          mret (Show "login.html" CtxPlain)
      | Granted user =>
          w ← St.get;
          _ ← set_session
                (Session
                   (Some (UserInfo (get_or_none user "username")
                                   (get_or_none user "nombre")
                                   (VStr rol)
                                   (get_or_none user "email")))
                   (reserva_temp (sess w)));
          mret (Go (home_of rol))
      end
  | GET => mret (Show "login.html" CtxPlain)
  end.

(** *** [generate_boleta_pdf] *)

Definition on_proc {A} (m : ST world A) : ST site A :=
  St.zoom proc (fun w s => Site w (pdf_dir s)) m.

Definition on_pdfs {A} (m : ST (gmap string boleta) A) : ST site A :=
  St.zoom pdf_dir (fun p s => Site (proc s) p) m.

(** The tables of the document, from the two dictionaries. *)
Definition story (k : desk) (cita paciente : row) : boleta :=
  Boleta (logo_exists k)
    [("Nombre:",
      dict_get paciente "nombre"
        (dict_get paciente "nombre_paciente" (VStr "")));
     ("DNI:",
      dict_get paciente "documento" (dict_get paciente "dni" (VStr "")));
     ("Correo:", dict_get paciente "email" (VStr ""));
     ("Teléfono:", dict_get paciente "telefono" (VStr "—"))]
    [("Especialidad:", dict_get cita "especialidad" (VStr ""));
     ("Médico:", dict_get cita "medico_nombre" (VStr ""));
     ("Fecha:", dict_get cita "fecha" (VStr ""));
     ("Hora:", dict_get cita "hora" (VStr ""));
     ("Estado:", dict_get cita "estado" (VStr ""));
     ("Código:", VStr (str (dict_get cita "id" (VStr ""))))]
    [("Método:", dict_get cita "metodo_pago" (VStr "—"));
     ("Referencia:", dict_get cita "referencia" (VStr "—"))].

Definition generate_boleta_pdf (k : desk) (cita paciente : row)
    (filename : string) : ST site bool :=
  match util_generate_boleta_pdf k with
  | Some hook => on_pdfs (hook cita paciente filename)
  | None =>
      if negb (REPORTLAB_AVAILABLE k) then mret false
      else if pdf_build_ok k then
        _ ← on_pdfs (St.modify (fun p => <[filename := story k cita paciente]> p));
        mret true
      else St.raise OSError
  end.

(** *** [boleta_download] *)

Inductive download :=
| Back (location : string)
| SendFile (download_name : string) (content : boleta).

(** [f"boleta_{reserva_id}.pdf"] *)
Definition pdf_name_of (reserva_id : Z) : string :=
  "boleta_" +:+ pretty reserva_id +:+ ".pdf".

(** [send_file(path, ...)]: the file must be there. *)
Definition send_file (name : string) : ST site download :=
  s ← St.get;
  match pdf_dir s !! name with
  | Some b => mret (SendFile name b)
  | None => St.raise OSError
  end.

(** [d[key]] on a dictionary *)
Definition dict_getitem (d : row) (key : string) : result value :=
  match d !! key with
  | Some v => Ok v
  | None => Raise KeyError
  end.

(** The patient of the receipt: the first row of the patients sheet
    with the user name of the appointment, or only the name the
    appointment carries. *)
Definition paciente_of (k : desk) (cita_row : row) : ST site row :=
  df_p ← on_proc (on_files (excel_read (xl (base (views k))) PATI_F []));
  user_row ← match df_p with
             | Some df_p =>
                 usuario ← St.pure (dict_getitem cita_row "usuario");
                 mask ← St.pure (col_eq df_p "username" usuario);
                 mret (Some (df_filter df_p mask))
             | None => mret None
             end;
  match user_row with
  | Some user_row =>
      if negb (df_empty user_row) then
        r ← St.pure (iloc0 user_row);
        mret (to_dict user_row r)
      else
        mret {["nombre" := dict_get cita_row "nombre_paciente" (VStr "")]}
  | None =>
      mret {["nombre" := dict_get cita_row "nombre_paciente" (VStr "")]}
  end.

Definition boleta_body (k : desk) (reserva_id : Z) : ST site download :=
  let pdf_name := pdf_name_of reserva_id in
  s ← St.get;
  if bool_decide (is_Some (pdf_dir s !! pdf_name)) then send_file pdf_name
  else
    df_c ← on_proc (on_files (excel_read (xl (base (views k))) CIT_F []));
    match df_c with
    | None =>
        _ ← on_proc (flash "No hay datos de citas." "error");
        mret (Back (url_of r_dashboard_paciente))
    | Some df_c =>
        if df_empty df_c then
          _ ← on_proc (flash "No hay datos de citas." "error");
          mret (Back (url_of r_dashboard_paciente))
        else
          mask ← St.pure (col_eq df_c "id" (VInt reserva_id));
          let row := df_filter df_c mask in
          if df_empty row then
            _ ← on_proc (flash "Cita no encontrada." "error");
            mret (Back (url_of r_dashboard_paciente))
          else
            r ← St.pure (iloc0 row);
            let cita_row := to_dict row r in
            paciente ← paciente_of k cita_row;
            ok ← generate_boleta_pdf k cita_row paciente pdf_name;
            if negb ok then
              _ ← on_proc
                    (flash
                       "No se pudo generar la boleta (falta reportlab o función externa)."
                       "error");
              mret (Back (url_of r_dashboard_paciente))
            else send_file pdf_name
    end.

Definition boleta_download (k : desk) (reserva_id : Z) : ST site download :=
  St.try_except
    (boleta_body k reserva_id)
    (fun ex =>
       _ ← on_proc
             (flash ("Error al generar boleta: " +:+ exn_text k ex) "error");
       mret (Back (url_of r_dashboard_paciente))).

End Desk.

(* ===================================================================== *)
(** ** Vocabulary of the statements *)
(* ===================================================================== *)

Module Vocab.
Import Text Clock Slots Excel App.

(** Every minute of the day, as a list to compute over. *)
Definition day_minutes : list Z := List.map Z.of_nat (List.seq 0 1440).

Definition reads_back (t : Z) : bool :=
  match parse_hhmm (strftime t) with
  | Some t' => t' =? t
  | None => false
  end.

(** [k] times spaced [n] minutes apart, from [cur] on. *)
Fixpoint slot_times (cur n : Z) (k : nat) : list Z :=
  match k with
  | O => []
  | S k' => cur :: slot_times (cur + n) n k'
  end.

(** The largest slot length that cannot overflow a [datetime] when it
    is added to a time of the day. *)
Definition max_slot_minutes : Z := max_minute - 1439.

(** The frame a write to a file starts from: the sheet it holds, or an
    empty frame with the default columns. *)
Definition frame_or_empty (cols : list string) (f : file) : frame :=
  match f with
  | Sheet df => df
  | _ => empty_frame cols
  end.

(** A computation relates the in-memory list before it to the list
    after it by [R] (equality: it leaves the list alone; prefix: it only
    appends). *)
Definition mem_rel (R : relation (list row)) {A} (m : ST world A) : Prop :=
  forall w, R (citas_pendientes_mem w) (citas_pendientes_mem (m w).2).

(** Data of the examples. *)
Definition ana : user_info :=
  UserInfo (VStr "ana") (VStr "Ana Ruiz") (VStr "paciente")
           (VStr "ana@example.org").

Definition draft : row :=
  <["especialidad" := VStr "Cardiology"]>
    (<["fecha" := VStr "2024-05-01"]>
       (<["medico_id" := VInt 3]> (<["hora" := VStr "09:30"]> ∅))).

(** An appointment already booked for the doctor, day and time of
    [draft]. *)
Definition booked : row :=
  <["id" := VInt 1714000000]>
    (<["usuario" := VStr "luis"]>
       (<["medico_id" := VInt 3]>
          (<["fecha" := VStr "2024-05-01"]>
             (<["hora" := VStr "09:30"]>
                (<["estado" := VStr "Pendiente"]> ∅))))).

Definition attended : row := <["estado" := VStr "Atendido"]> booked.

Definition citas_sheet (rs : list row) : file :=
  Sheet (Frame (list_to_set cita_columns) rs).

Definition world_of (draft : option row) (store : file) : world :=
  World (Session (Some ana) draft) [] (Disk store Absent Absent) [] ∅ [].

(** A pandas that refuses a text in a column without text, as pandas 3
    does: [loc] accepts when the frame lacks the column or a cell of
    the column holds a text. *)
Definition text_column (df : frame) (c : string) : bool :=
  existsb (fun r => match cell r c with
                    | VStr _ | VNone => true
                    | _ => false
                    end) (rows df).

Definition strict_loc (df : frame) (mask : row -> bool) (c : string)
    (v : value) : bool :=
  negb (bool_decide (c ∈ columns df)) || text_column df c.

Definition env_of (has_pandas can_write : bool) : env :=
  Env (Io has_pandas (fun _ => can_write) strict_loc) no_utils false false false
      1714550000 (fun n => List.repeat Byte.xa7 n) (fun _ => 4821).

Definition post (fields : gmap string string) : request :=
  Request POST fields None.

(** The appointment built from [draft] for a cash payment when pandas
    is missing, and the state after building it. *)
Definition cash_cita : row :=
  match (build_cita (env_of false true) ana draft "EFECTIVO"
           (world_of (Some draft) Absent)).1 with
  | Ok c => c
  | _ => ∅
  end.

Definition cash_world : world :=
  (build_cita (env_of false true) ana draft "EFECTIVO"
     (world_of (Some draft) Absent)).2.

(** The state with the appointments file replaced. *)
Definition set_cit (f : file) (w : world) : world :=
  World (sess w) (flashes w) (disk_set CIT_F f (files w))
        (citas_pendientes_mem w) (qr_dir w) (stdout w).

(** The mask [df["id"] == cita_id] of [marcar_atendido]. *)
Definition has_id (cita_id : Z) (r : row) : bool :=
  cell_eq (cell r "id") (VInt cita_id).

(** The sheet [marcar_atendido] writes back. *)
Definition marked (cita_id : Z) (df : frame) : frame :=
  loc_set df (has_id cita_id) "estado" (VStr "Atendido").

(** The slot property as the specification words it, at one input:
    the call returns a sequence whose first element is the start time,
    whose elements are [n] minutes apart and whose last element plus
    [n] does not exceed the end time. *)
Definition slots_as_specified (s e : string) (n : Z) : Prop :=
  exists (fuel : nat) (slots : list string) (a b : Z),
    strptime (VStr s) = Ok a /\ strptime (VStr e) = Ok b /\
    generate_slots fuel (VStr s) (VStr e) n = Ok slots /\
    head slots = Some s /\
    (forall (i : nat) x y, slots !! i = Some x -> slots !! (S i) = Some y ->
       exists tx ty, strptime (VStr x) = Ok tx /\ strptime (VStr y) = Ok ty
                     /\ ty = tx + n) /\
    (exists z tz, last slots = Some z /\ strptime (VStr z) = Ok tz
                  /\ tz + n <= b).

End Vocab.

Module MoreVocab.
Import Text Clock Slots Excel App Vocab.

(** The half hours from 09:00 to 16:30: the slots of a working day from
    09:00 to 17:00. *)
Definition office_hours : list string :=
  ["09:00"; "09:30"; "10:00"; "10:30"; "11:00"; "11:30"; "12:00"; "12:30";
   "13:00"; "13:30"; "14:00"; "14:30"; "15:00"; "15:30"; "16:00"; "16:30"].

(** The state with another session. *)
Definition set_sess (s : session) (w : world) : world :=
  World s (flashes w) (files w) (citas_pendientes_mem w) (qr_dir w)
        (stdout w).

(** The state with one more flashed message. *)
Definition flashed (message category : string) (w : world) : world :=
  World (sess w) (flashes w ++ [(message, category)]) (files w)
        (citas_pendientes_mem w) (qr_dir w) (stdout w).

(** An environment with pandas, writable files and a QR encoder that
    is there or not and whose [save] works or not. *)
Definition env_qr (available save_ok : bool) : env :=
  Env (Io true (fun _ => true) strict_loc) no_utils available save_ok false
      1714550000 (fun n => List.repeat Byte.xa7 n) (fun _ => 4821).

(** The text [pago] encodes in the QR image. *)
Definition qr_payload (e : env) : string :=
  ("LimaMedic|ref:" +:+ token_hex e 6 +:+ "|id:"
   +:+ pretty (utcnow_timestamp e))%string.

(** A sheet of doctors. *)
Definition dr_vega : row :=
  <["id" := VInt 3]>
    (<["nombre" := VStr "Dra. Vega"]>
       (<["especialidad" := VStr "Cardiology"]>
          (<["start_time" := VStr "09:00"]>
             (<["end_time" := VStr "10:30"]> ∅)))).

Definition medicos_sheet (rs : list row) : file :=
  Sheet (Frame (list_to_set ["id"; "username"; "nombre"; "especialidad";
                             "start_time"; "end_time"; "sede"]) rs).

End MoreVocab.

Module ViewsVocab.
Import Text Clock Slots Excel App Views Vocab MoreVocab.

(** An [int] for the examples: it reads a string of decimal digits. *)
Fixpoint digits_value (acc : Z) (s : string) : option Z :=
  match s with
  | EmptyString => Some acc
  | String c s' =>
      if is_digit c then digits_value (10 * acc + digit_val c) s' else None
  end.

Definition digits_int (s : string) : result Z :=
  match s with
  | EmptyString => Raise ValueError
  | _ => match digits_value 0 s with
         | Some z => Ok z
         | None => Raise ValueError
         end
  end.

Definition deps_of (e : env) : deps := Deps e no_utils_more digits_int.

(** The rows of a sheet that belong to a user, as the listings show
    them. *)
Definition citas_of (df : frame) (username : value) : list row :=
  records (df_filter df (fun r => cell_eq (cell r "usuario") username)).

(** Two more users of the examples, and a state seen by a user. *)
Definition luis : user_info :=
  UserInfo (VStr "luis") (VStr "Luis") (VStr "paciente") VNone.

Definition vega : user_info :=
  UserInfo (VStr "vega") (VStr "Dra. Vega") (VStr "medico") VNone.

Definition as_user (u : user_info) (w : world) : world :=
  set_sess (Session (Some u) (reserva_temp (sess w))) w.

End ViewsVocab.

Module DeskVocab.
Import Text Clock Slots Excel App Views Desk Vocab MoreVocab ViewsVocab.

(** The state of a site seen from a request: same session, same
    in-memory list, same rows of the appointments sheet. *)
Definition same_records (s s' : site) : Prop :=
  sess (proc s') = sess (proc s) /\
  citas_pendientes_mem (proc s') = citas_pendientes_mem (proc s) /\
  stored_rows (cit_f (files (proc s'))) = stored_rows (cit_f (files (proc s))).

Definition site_flashed (message category : string) (s : site) : site :=
  Site (flashed message category (proc s)) (pdf_dir s).

(** What holds after every request to [boleta_download]. *)
Definition boleta_post (reserva_id : Z) (s : site)
    (x : result download * site) : Prop :=
  exists a s',
    x = (Ok a, s') /\
    same_records s s' /\
    (forall n, n <> pdf_name_of reserva_id ->
       pdf_dir s' !! n = pdf_dir s !! n) /\
    match a with
    | SendFile n b =>
        n = pdf_name_of reserva_id /\
        pdf_dir s' !! pdf_name_of reserva_id = Some b /\
        flashes (proc s') = flashes (proc s)
    | Back l =>
        l = "/dashboard/paciente" /\ pdf_dir s' = pdf_dir s /\
        exists message,
          flashes (proc s') = (flashes (proc s) ++ [(message, "error")])%list
    end.

(** The mask of [login]: the identifier is the user name or the e-mail
    of the row. *)
Definition identifies (identifier : string) (r : row) : bool :=
  cell_eq (cell r "username") (VStr identifier)
  || cell_eq (cell r "email") (VStr identifier).

(** The state with the patients file replaced. *)
Definition set_pati (f : file) (w : world) : world :=
  World (sess w) (flashes w) (disk_set PATI_F f (files w))
        (citas_pendientes_mem w) (qr_dir w) (stdout w).

(** Data of the examples: [str.strip] on a text whose white space is
    ASCII, a text for each exception, a clinic with one appointment and
    one patient. *)
Definition is_space (c : ascii) : bool :=
  let n := nat_of_ascii c in
  ((9 <=? n) && (n <=? 13))%nat || (n =? 32)%nat.

Fixpoint lstrip (l : list ascii) : list ascii :=
  match l with
  | c :: l' => if is_space c then lstrip l' else l
  | [] => []
  end.

Definition ascii_strip (s : string) : string :=
  string_of_list_ascii
    (List.rev (lstrip (List.rev (lstrip (list_ascii_of_string s))))).

Definition exn_name (ex : exn) : string :=
  match ex with
  | ValueError => "ValueError"
  | TypeError => "TypeError"
  | OverflowError => "OverflowError"
  | KeyError => "KeyError"
  | AttributeError => "AttributeError"
  | IndexError => "IndexError"
  | RuntimeError => "RuntimeError"
  | OSError => "OSError"
  end.

Definition desk_of (e : env) (reportlab build_ok : bool) : desk :=
  DeskEnv (deps_of e) None None None reportlab false build_ok
          ascii_strip exn_name.

(** The patient of [booked], as the patients sheet holds them. *)
Definition luis_row : row :=
  <["username" := VStr "luis"]>
    (<["nombre" := VStr "Luis Soto"]>
       (<["email" := VStr "luis@example.org"]>
          (<["rol" := VStr "paciente"]>
             (<["password" := VStr "s3creta"]> ∅)))).

Definition pacientes_df : frame := Frame (list_to_set pati_columns) [luis_row].

Definition citas_df : frame := Frame (list_to_set cita_columns) [booked].

Definition clinic : site :=
  Site (World (Session None None) []
              (Disk (Sheet citas_df) (Sheet pacientes_df) Absent) [] ∅ [])
       ∅.

Definition login_form : gmap string string :=
  <["identifier" := " luis "]> (<["password" := "s3creta"]> ∅).

Definition registro_form : gmap string string :=
  <["username" := "luis"]> (<["password" := "otra"]>
     (<["rol" := "secretaria"]> ∅)).

End DeskVocab.

(* ===================================================================== *)
(** * Properties *)
(* ===================================================================== *)

Import Text Clock Slots Excel App Vocab.

(** ** Times of day *)

Section TimeFacts.

Lemma is_digit_val c : is_digit c = true -> 0 <= digit_val c <= 9.
Proof.
  unfold is_digit, digit_val. intros H.
  apply andb_prop in H as [H1 H2].
  apply N.leb_le in H1. apply N.leb_le in H2. lia.
Qed.

Lemma decimal_value_range cp d : decimal_value cp = Some d -> 0 <= d <= 9.
Proof.
  unfold decimal_value. intros H.
  apply bind_Some in H as (z & Hf & [= <-]).
  apply List.find_some in Hf as [_ Hz].
  apply andb_prop in Hz as [H1 H2].
  apply N.leb_le in H1. apply N.leb_le in H2. lia.
Qed.

Lemma digit_upto_range k cp d :
  digit_upto k cp = Some d -> 0 <= d <= Z.of_N k.
Proof.
  unfold digit_upto.
  destruct ((48 <=? cp) && (cp <=? 48 + k))%N eqn:E; [|discriminate].
  intros [= <-]. apply andb_prop in E as [H1 H2].
  apply N.leb_le in H1. apply N.leb_le in H2. lia.
Qed.

Lemma parse_minute_range s m : parse_minute s = Some m -> 0 <= m < 60.
Proof.
  unfold parse_minute. intros H.
  apply bind_Some in H as ([m1 s1] & _ & H).
  destruct s1 as [|c s1'].
  - apply decimal_value_range in H. lia.
  - apply bind_Some in H as ([m2 s2] & _ & H).
    destruct s2; [|discriminate].
    apply bind_Some in H as (d1 & H1 & H).
    apply bind_Some in H as (d2 & H2 & [= <-]).
    apply digit_upto_range in H1. apply decimal_value_range in H2. lia.
Qed.

Lemma parse_hour2_range h1 h2 h : parse_hour2 h1 h2 = Some h -> 0 <= h <= 23.
Proof.
  unfold parse_hour2.
  destruct (if (h1 =? 50)%N then digit_upto 3 h2 else None) as [d|] eqn:E.
  - intros [= <-]. destruct (h1 =? 50)%N; [|discriminate].
    apply digit_upto_range in E. lia.
  - intros H. apply bind_Some in H as (d1 & H1 & H).
    apply bind_Some in H as (d2 & H2 & [= <-]).
    apply digit_upto_range in H1. apply decimal_value_range in H2. lia.
Qed.

(** A string [strptime] accepts is a time of the day. *)
Lemma parse_hhmm_range s t : parse_hhmm s = Some t -> 0 <= t < 1440.
Proof.
  unfold parse_hhmm. intros H.
  apply bind_Some in H as ([h1 s1] & _ & H).
  apply bind_Some in H as ([c2 s2] & _ & H).
  destruct (c2 =? 58)%N.
  - apply bind_Some in H as (h & Hh & H).
    apply bind_Some in H as (m & Hm & [= <-]).
    apply decimal_value_range in Hh. apply parse_minute_range in Hm. lia.
  - apply bind_Some in H as ([c3 s3] & _ & H).
    destruct (c3 =? 58)%N; [|discriminate].
    apply bind_Some in H as (h & Hh & H).
    apply bind_Some in H as (m & Hm & [= <-]).
    apply parse_hour2_range in Hh. apply parse_minute_range in Hm. lia.
Qed.

(** [strptime] on digits that are not ASCII: [\d] takes any decimal
    digit, the classes [[0-1]], [[0-3]] and [[0-5]] only ASCII ones. *)
Example strptime_mixed_digits :
  strptime (VStr "0٩:00") = Ok 540 /\ strptime (VStr "9:5٩") = Ok 599 /\
  strptime (VStr "2٣:00") = Raise ValueError /\
  strptime (VStr "9:٥٩") = Raise ValueError.
Proof. vm_compute. repeat split. Qed.

Lemma strptime_range x t : strptime x = Ok t -> 0 <= t < 1440.
Proof.
  destruct x; simpl; try discriminate.
  destruct (parse_hhmm s) eqn:P; [|discriminate].
  intros [= <-]. eauto using parse_hhmm_range.
Qed.

Lemma day_minutes_all t : 0 <= t < 1440 -> In t day_minutes.
Proof.
  intros H. unfold day_minutes. apply in_map_iff.
  exists (Z.to_nat t). split; [lia|]. apply in_seq. lia.
Qed.

(** What [strftime] prints, [strptime] reads back. *)
Lemma strptime_strftime t :
  0 <= t < 1440 -> strptime (VStr (strftime t)) = Ok t.
Proof.
  intros H.
  assert (A : forallb reads_back day_minutes = true) by (vm_compute; reflexivity).
  rewrite forallb_forall in A. specialize (A t (day_minutes_all t H)).
  unfold reads_back in A. unfold strptime.
  destruct (parse_hhmm (strftime t)); [|discriminate].
  apply Z.eqb_eq in A. congruence.
Qed.

Lemma add_minutes_ok cur n :
  min_minute <= cur + n <= max_minute -> add_minutes cur n = Ok (cur + n).
Proof.
  intros [H1 H2]. unfold add_minutes.
  apply Z.leb_le in H1. apply Z.leb_le in H2. by rewrite H1, H2.
Qed.

End TimeFacts.

(** ** The slot generator *)

Section SlotFacts.

Lemma slot_times_length cur n k : length (slot_times cur n k) = k.
Proof. revert cur. induction k; intros; simpl; auto. Qed.

Lemma slot_times_lookup cur n k (i : nat) :
  (i < k)%nat -> slot_times cur n k !! i = Some (cur + Z.of_nat i * n).
Proof.
  revert cur i. induction k as [|k IH]; intros cur i Hi; [lia|].
  destruct i as [|i]; simpl.
  - f_equal. lia.
  - rewrite IH by lia. f_equal. lia.
Qed.

(** The loop, for a positive slot length: it runs [k] times, where
    [cur + k * n <= end < cur + (k + 1) * n], and appends the [k] times
    from [cur] on. *)
Lemma slots_loop_run (end_ n : Z) (k : nat) :
  0 < n ->
  forall (fuel : nat) (cur : Z) (acc : list string),
    min_minute <= cur ->
    cur + (Z.of_nat k + 1) * n <= max_minute ->
    cur + Z.of_nat k * n <= end_ < cur + (Z.of_nat k + 1) * n ->
    (k <= fuel)%nat ->
    slots_loop fuel end_ n cur acc
    = Ok (acc ++ List.map strftime (slot_times cur n k))%list.
Proof.
  intros Hn. induction k as [|k IH]; intros fuel cur acc Hmin Hmax Hb Hf.
  - assert (E : add_minutes cur n = Ok (cur + n)) by (apply add_minutes_ok; lia).
    destruct fuel; simpl; rewrite E; simpl;
      (destruct (cur + n <=? end_) eqn:L; [apply Z.leb_le in L; lia|]);
      by rewrite app_nil_r.
  - assert (E : add_minutes cur n = Ok (cur + n)) by (apply add_minutes_ok; lia).
    destruct fuel as [|fuel]; [lia|]. simpl. rewrite E. simpl.
    destruct (cur + n <=? end_) eqn:L; [|apply Z.leb_gt in L; lia].
    rewrite IH by lia. by rewrite <- app_assoc.
Qed.

(** The number of slots that fit. *)
Lemma slots_count a b n :
  0 < n -> a <= b ->
  let k := Z.to_nat ((b - a) / n) in
  a + Z.of_nat k * n <= b < a + (Z.of_nat k + 1) * n.
Proof.
  intros Hn Hab k.
  assert (0 <= (b - a) / n) by (apply Z.div_pos; lia).
  pose proof (Z.div_mod (b - a) n ltac:(lia)).
  pose proof (Z.mod_pos_bound (b - a) n Hn).
  subst k. rewrite Z2Nat.id by lia. nia.
Qed.

End SlotFacts.

Section SlotTheorems.

Lemma slots_loop_stop (end_ n cur : Z) (fuel : nat) (acc : list string) :
  min_minute <= cur + n <= max_minute -> end_ < cur + n ->
  slots_loop fuel end_ n cur acc = Ok acc.
Proof.
  intros Hr Hlt. pose proof (add_minutes_ok cur n Hr) as E.
  destruct fuel; simpl; rewrite E; simpl;
    destruct (cur + n <=? end_) eqn:L; try reflexivity;
    apply Z.leb_le in L; lia.
Qed.

Lemma generate_slots_unfold fuel x y a b n :
  strptime x = Ok a -> strptime y = Ok b ->
  generate_slots fuel x y n = slots_loop fuel b n a [].
Proof. intros Ha Hb. unfold generate_slots. by rewrite Ha, Hb. Qed.

Lemma generate_slots_raise_start fuel x y ex n :
  strptime x = Raise ex -> generate_slots fuel x y n = Raise ex.
Proof. intros Ha. unfold generate_slots. by rewrite Ha. Qed.

Lemma generate_slots_raise_end fuel x y a ex n :
  strptime x = Ok a -> strptime y = Raise ex ->
  generate_slots fuel x y n = Raise ex.
Proof. intros Ha Hb. unfold generate_slots. by rewrite Ha, Hb. Qed.

Lemma strptime_cases x :
  (exists t, strptime x = Ok t) \/ (exists ex, strptime x = Raise ex).
Proof.
  destruct x; simpl; eauto. destruct (parse_hhmm s); eauto.
Qed.

Lemma min_minute_neg : min_minute < 0.
Proof. reflexivity. Qed.

Lemma max_minute_big : 2 * 1440 <= max_minute.
Proof. vm_compute. discriminate. Qed.

(** With the slot length 30 of [get_horarios_disponibles], the fuel of
    the routes is enough: the function always returns a list. *)
Lemma get_horarios_disponibles_total (medico : row) :
  exists horarios,
    get_horarios_disponibles slot_fuel medico = Ok horarios.
Proof.
  unfold get_horarios_disponibles.
  set (inicio := dict_get medico "start_time" (VStr "09:00")).
  set (fin := dict_get medico "end_time" (VStr "17:00")).
  destruct (strptime_cases inicio) as [[a Ha]|[ex Ha]].
  2:{ rewrite (generate_slots_raise_start _ _ _ _ _ Ha). simpl. eauto. }
  destruct (strptime_cases fin) as [[b Hb]|[ex Hb]].
  2:{ rewrite (generate_slots_raise_end _ _ _ _ _ _ Ha Hb). simpl. eauto. }
  rewrite (generate_slots_unfold _ _ _ _ _ _ Ha Hb).
  apply strptime_range in Ha, Hb.
  pose proof max_minute_big. pose proof min_minute_neg.
  destruct (Z_le_gt_dec a b) as [Hab|Hab].
  - pose proof (slots_count a b 30 ltac:(lia) Hab) as Hk. simpl in Hk.
    assert ((b - a) / 30 < 48) by (apply Z.div_lt_upper_bound; lia).
    assert (0 <= (b - a) / 30) by (apply Z.div_pos; lia).
    rewrite (slots_loop_run b 30 (Z.to_nat ((b - a) / 30)));
      [simpl; eauto | lia | lia | lia | lia | unfold slot_fuel; lia].
  - rewrite slots_loop_stop; [simpl; eauto | lia | lia].
Qed.

(** C2 (as amended).  For times [strptime] accepts and a positive slot
    length [n] with [start + n <= end], [generate_slots] returns, with
    any fuel of at least [(end - start) / n], the [(end - start) / n]
    slots [start, start + n, start + 2n, ...] printed as "HH:MM": the
    list is not empty, its first element is the start time, element [i]
    reads back as [start + i * n], the last slot plus [n] does not
    exceed the end and one more slot would.  When [start < end] but
    [start + n > end] the result is the empty list as long as
    [start + n] is a date [datetime] can hold (not after 9999-12-31
    23:59); for a longer slot the first addition raises
    [OverflowError].  The example of the specification: "09:00",
    "10:30", 30 gives 09:00, 09:30, 10:00. *)
Theorem generate_slots_spaced :
  (forall (s e : string) (a b n : Z),
     strptime (VStr s) = Ok a -> strptime (VStr e) = Ok b ->
     0 < n -> a + n <= b ->
     forall fuel : nat,
       (Z.to_nat ((b - a) / n) <= fuel)%nat ->
       exists (k : nat) (slots : list string),
         generate_slots fuel (VStr s) (VStr e) n = Ok slots /\
         k = Z.to_nat ((b - a) / n) /\
         (1 <= k)%nat /\
         slots = List.map strftime (slot_times a n k) /\
         length slots = k /\
         head slots = Some (strftime a) /\
         (forall i : nat, (i < k)%nat ->
            exists x, slots !! i = Some x /\
                      strptime (VStr x) = Ok (a + Z.of_nat i * n)) /\
         a + (Z.of_nat k - 1) * n + n <= b /\
         b < a + Z.of_nat k * n + n) /\
  (forall (s e : string) (a b n : Z),
     strptime (VStr s) = Ok a -> strptime (VStr e) = Ok b ->
     a < b -> b < a + n ->
     forall fuel : nat,
       generate_slots fuel (VStr s) (VStr e) n
       = if a + n <=? max_minute then Ok [] else Raise OverflowError) /\
  (forall fuel : nat, (3 <= fuel)%nat ->
     generate_slots fuel (VStr "09:00") (VStr "10:30") 30
     = Ok ["09:00"; "09:30"; "10:00"]).
Proof.
  split; [|split].
  - intros s e a b n Ha Hb Hn Hab fuel Hf.
    rewrite (generate_slots_unfold _ _ _ _ _ _ Ha Hb).
    apply strptime_range in Ha, Hb.
    pose proof max_minute_big. pose proof min_minute_neg.
    pose proof (slots_count a b n Hn ltac:(lia)) as Hk. simpl in Hk.
    set (k := Z.to_nat ((b - a) / n)) in *.
    assert (1 <= (b - a) / n) by (apply Z.div_le_lower_bound; lia).
    assert (Hk1 : (1 <= k)%nat) by (subst k; lia).
    exists k, (List.map strftime (slot_times a n k)).
    rewrite (slots_loop_run b n k Hn fuel a []) by lia.
    repeat split; try lia.
    + by rewrite length_map, slot_times_length.
    + destruct k; [lia|]. reflexivity.
    + intros i Hi. exists (strftime (a + Z.of_nat i * n)). split.
      * rewrite list_lookup_fmap, slot_times_lookup by lia. reflexivity.
      * apply strptime_strftime. nia.
  - intros s e a b n Ha Hb Hab Hn fuel.
    rewrite (generate_slots_unfold _ _ _ _ _ _ Ha Hb).
    apply strptime_range in Ha, Hb.
    pose proof min_minute_neg.
    destruct (a + n <=? max_minute) eqn:L.
    + apply Z.leb_le in L. apply slots_loop_stop; lia.
    + destruct fuel; simpl; unfold add_minutes; rewrite L;
        by rewrite andb_false_r.
  - intros fuel Hf.
    do 3 (destruct fuel as [|fuel]; [lia|]).
    destruct fuel; vm_compute; reflexivity.
Qed.

Lemma generate_slots_spaced_witness :
  strptime (VStr "08:00") = Ok 480 /\ strptime (VStr "09:45") = Ok 585 /\
  0 < 20 /\ 480 + 20 <= 585 /\
  exists (k : nat) (slots : list string),
    generate_slots 5 (VStr "08:00") (VStr "09:45") 20 = Ok slots /\
    k = 5%nat /\ length slots = k.
Proof.
  repeat split; try reflexivity; try lia.
  destruct (proj1 generate_slots_spaced "08:00" "09:45" 480 585 20
              eq_refl eq_refl ltac:(lia) ltac:(lia) 5%nat ltac:(vm_compute; lia))
    as (k & slots & Hg & Hk & _ & _ & Hl & _).
  exists k, slots. repeat split; assumption.
Defined.

(** The longest slot [datetime] can add to 09:00, and the next one. *)
Example generate_slots_overlong_slot :
  generate_slots 0 (VStr "09:00") (VStr "10:00") 4260187619 = Ok [] /\
  generate_slots 0 (VStr "09:00") (VStr "10:00") 4260187620
  = Raise OverflowError.
Proof. vm_compute. split; reflexivity. Qed.

(** C2 as the specification words it fails: between 09:00 and 09:10
    no 30-minute slot fits, the result is empty and has no first
    element. *)
Lemma generate_slots_no_first_slot :
  strptime (VStr "09:00") = Ok 540 /\ strptime (VStr "09:10") = Ok 550 /\
  540 < 550 /\
  (forall fuel, generate_slots fuel (VStr "09:00") (VStr "09:10") 30 = Ok []) /\
  ~ slots_as_specified "09:00" "09:10" 30.
Proof.
  assert (G : forall fuel,
             generate_slots fuel (VStr "09:00") (VStr "09:10") 30 = Ok []).
  { intros fuel. destruct fuel; vm_compute; reflexivity. }
  repeat split; try reflexivity; try exact G.
  intros (fuel & slots & a & b & _ & _ & Hg & Hh & _).
  rewrite G in Hg. injection Hg as <-. discriminate.
Qed.

(** C7.  For times [strptime] accepts with [start >= end], and a slot
    length [n > 0] (30 in the only call of the application) that does
    not overflow a [datetime], [generate_slots] returns the empty list,
    whatever the fuel. *)
Theorem generate_slots_empty (s e : string) (a b n : Z) :
  strptime (VStr s) = Ok a -> strptime (VStr e) = Ok b ->
  b <= a -> 0 < n <= max_slot_minutes ->
  forall fuel : nat, generate_slots fuel (VStr s) (VStr e) n = Ok [].
Proof.
  intros Ha Hb Hab [Hn Hmax] fuel.
  rewrite (generate_slots_unfold _ _ _ _ _ _ Ha Hb).
  apply strptime_range in Ha, Hb.
  pose proof min_minute_neg. unfold max_slot_minutes in Hmax.
  apply slots_loop_stop; lia.
Qed.

Lemma generate_slots_empty_witness :
  generate_slots 0 (VStr "17:00") (VStr "09:00") 30 = Ok [] /\
  generate_slots 7 (VStr "12:00") (VStr "12:00") 30 = Ok [].
Proof.
  split.
  - apply (generate_slots_empty "17:00" "09:00" 1020 540 30);
      [reflexivity | reflexivity | lia | unfold max_slot_minutes, max_minute; lia].
  - apply (generate_slots_empty "12:00" "12:00" 720 720 30);
      [reflexivity | reflexivity | lia | unfold max_slot_minutes, max_minute; lia].
Defined.

(** C8.  When the start or the end time of the doctor is not accepted
    by [strptime], [generate_slots] raises, and
    [get_horarios_disponibles] returns the five default slots instead. *)
Theorem get_horarios_default_on_bad_time (fuel : nat) (medico : row) :
  let inicio := dict_get medico "start_time" (VStr "09:00") in
  let fin := dict_get medico "end_time" (VStr "17:00") in
  (forall t, strptime inicio <> Ok t) \/ (forall t, strptime fin <> Ok t) ->
  (forall n, exists ex, generate_slots fuel inicio fin n = Raise ex) /\
  get_horarios_disponibles fuel medico
  = Ok ["09:00"; "09:30"; "10:00"; "10:30"; "11:00"].
Proof.
  intros inicio fin Hbad.
  assert (G : forall n, exists ex, generate_slots fuel inicio fin n = Raise ex).
  { intros n. destruct (strptime_cases inicio) as [[a Ha]|[ex Ha]].
    - destruct (strptime_cases fin) as [[b Hb]|[ex Hb]].
      + destruct Hbad as [H|H]; [by destruct (H a)|by destruct (H b)].
      + exists ex. by apply generate_slots_raise_end with a.
    - exists ex. by apply generate_slots_raise_start. }
  split; [exact G|].
  unfold get_horarios_disponibles. fold inicio. fold fin.
  destruct (G 30) as [ex ->]. reflexivity.
Qed.

Lemma get_horarios_default_on_bad_time_witness :
  get_horarios_disponibles 48 (<["start_time" := VStr "9am"]> ∅)
  = Ok ["09:00"; "09:30"; "10:00"; "10:30"; "11:00"].
Proof.
  apply (get_horarios_default_on_bad_time 48 (<["start_time" := VStr "9am"]> ∅)).
  left. intros t. vm_compute. discriminate.
Defined.

End SlotTheorems.

(** ** References: hexadecimal tokens and six-digit codes *)

Section TextFacts.

Lemma string_forall_app p s1 s2 :
  string_forall p (s1 +:+ s2) = string_forall p s1 && string_forall p s2.
Proof.
  induction s1 as [|c s1 IH]; simpl; [reflexivity|].
  by rewrite IH, andb_assoc.
Qed.

Lemma string_length_app s1 s2 :
  String.length (s1 +:+ s2) = (String.length s1 + String.length s2)%nat.
Proof. induction s1 as [|c s1 IH]; simpl; [reflexivity|]. by rewrite IH. Qed.

Lemma hex_of_byte_hex b :
  string_forall is_hex (hex_of_byte b) = true /\
  String.length (hex_of_byte b) = 2%nat.
Proof. destruct b; split; reflexivity. Qed.

Lemma hex_of_bytes_hex bs :
  string_forall is_hex (hex_of_bytes bs) = true /\
  String.length (hex_of_bytes bs) = (2 * length bs)%nat.
Proof.
  induction bs as [|b bs [IH1 IH2]]; [split; reflexivity|].
  cbn [hex_of_bytes length].
  destruct (hex_of_byte_hex b) as [H1 H2].
  rewrite string_forall_app, string_length_app, H1, H2, IH1, IH2.
  split; [reflexivity|lia].
Qed.

Lemma pretty_N_char_digit x : is_digit (pretty_N_char x) = true.
Proof.
  unfold pretty_N_char.
  repeat (match goal with
          | |- context [match ?y with _ => _ end] => destruct y
          end; try reflexivity).
Qed.

Lemma pretty_N_go_digits x s :
  string_forall is_digit s = true ->
  string_forall is_digit (pretty_N_go x s) = true.
Proof.
  revert s. induction (N.lt_wf_0 x) as [x _ IH]; intros s Hs.
  assert (x = 0 \/ 0 < x)%N as [->|Hx] by lia.
  - by rewrite pretty_N_go_0.
  - rewrite pretty_N_go_step by done. apply IH.
    + by apply N.div_lt.
    + simpl. by rewrite pretty_N_char_digit, Hs.
Qed.

Lemma pretty_N_go_length x (k : nat) s :
  (x < 10 ^ N.of_nat k)%N ->
  (String.length (pretty_N_go x s) <= String.length s + k)%nat.
Proof.
  revert k s. induction (N.lt_wf_0 x) as [x _ IH]; intros k s Hk.
  assert (x = 0 \/ 0 < x)%N as [->|Hx] by lia.
  - rewrite pretty_N_go_0. lia.
  - rewrite pretty_N_go_step by done.
    destruct k as [|k]; [simpl in Hk; lia|].
    etrans; [apply (IH (x `div` 10)%N) with (k := k)|simpl; lia].
    + by apply N.div_lt.
    + apply N.Div0.div_lt_upper_bound.
      replace (N.of_nat (S k)) with (N.succ (N.of_nat k)) in Hk by lia.
      by rewrite N.pow_succ_r' in Hk.
Qed.

Lemma pretty_Z_nonneg n :
  0 <= n < 10 ^ 6 ->
  string_forall is_digit (pretty n) = true /\
  (String.length (pretty n) <= 6)%nat.
Proof.
  intros [H0 H6]. destruct n as [|p|p]; [split; simpl; [reflexivity|lia]| |lia].
  unfold pretty, pretty_Z, pretty, pretty_positive, pretty, pretty_N.
  destruct (decide (N.pos p = 0%N)) as [|_]; [discriminate|]. split.
  - by apply pretty_N_go_digits.
  - apply (pretty_N_go_length (N.pos p) 6 ""). 
    change (10 ^ N.of_nat 6)%N with 1000000%N. lia.
Qed.

Lemma repeat_zero_digits k :
  string_forall is_digit (string_of_list_ascii (List.repeat "0"%char k)) = true
  /\ String.length (string_of_list_ascii (List.repeat "0"%char k)) = k.
Proof. induction k as [|k [IH1 IH2]]; simpl; split; auto. Qed.

(** [f"{n:06d}"] of a number below a million: six decimal digits. *)
Lemma format_06d_six_digits n :
  0 <= n < 10 ^ 6 ->
  string_forall is_digit (format_06d n) = true /\
  String.length (format_06d n) = 6%nat.
Proof.
  intros H. destruct (pretty_Z_nonneg n H) as [Hd Hl].
  unfold format_06d. destruct (n <? 0) eqn:L; [apply Z.ltb_lt in L; lia|].
  unfold zfill.
  destruct (repeat_zero_digits (6 - String.length (pretty n))) as [R1 R2].
  rewrite string_forall_app, string_length_app, R1, R2, Hd.
  split; [reflexivity|lia].
Qed.

End TextFacts.

(** ** The Excel helpers *)

Ltac st_unfold :=
  unfold mbind, mret, st_bind, st_ret, St.bind, St.ret, St.raise, St.pure,
    St.get, St.modify, St.try_except, St.zoom in *.

(** Case analysis on what the outside world and the sheets answer. *)
Ltac split_io :=
  repeat match goal with
         | |- context [pandas ?x] => destruct (pandas x) eqn:?; simpl
         | |- context [match ?f with Absent => _ | _ => _ end] =>
             is_var f; destruct f; simpl
         | |- context [writable ?x ?p] => destruct (writable x p) eqn:?; simpl
         | |- context [df_empty ?d] => destruct (df_empty d) eqn:?; simpl
         | |- context [col_eq ?a ?b ?c] => destruct (col_eq a b c) eqn:?; simpl
         | |- context [iloc0 ?a] => destruct (iloc0 a) eqn:?; simpl
         | |- context [row_getitem ?a ?b ?c] =>
             destruct (row_getitem a b c) eqn:?; simpl
         end.

(** The pandas operations of the model raise or return: they never run
    out of fuel. *)
Ltac no_fuel :=
  match goal with
  | H : col_eq _ _ _ = NoFuel |- _ =>
      unfold col_eq in H; case_match; discriminate
  | H : iloc0 _ = NoFuel |- _ =>
      unfold iloc0 in H; case_match; discriminate
  | H : row_getitem _ _ _ = NoFuel |- _ =>
      unfold row_getitem in H; case_match; discriminate
  end.

Section ExcelFacts.

Variable (w : io).

Lemma disk_get_set p f d : disk_get p (disk_set p f d) = f.
Proof. by destruct p. Qed.

Lemma disk_get_set_ne p q f d :
  p <> q -> disk_get q (disk_set p f d) = disk_get q d.
Proof. by destruct p, q. Qed.

Lemma disk_set_set p f g d : disk_set p g (disk_set p f d) = disk_set p g d.
Proof. by destruct p. Qed.

(** What [excel_read] does, case by case. *)
Lemma excel_read_spec p cols d :
  excel_read w p cols d =
  if negb (pandas w) then (Ok None, d)
  else match disk_get p d with
       | Sheet df => (Ok (Some df), d)
       | Unreadable => (Ok (Some (empty_frame cols)), d)
       | Absent =>
           if writable w p
           then (Ok (Some (empty_frame cols)),
                 disk_set p (Sheet (empty_frame cols)) d)
           else (Raise OSError, d)
       end.
Proof.
  unfold excel_read, _ensure_excel_file, read_excel, to_excel.
  destruct (pandas w); simpl; [|reflexivity].
  st_unfold.
  destruct (disk_get p d) eqn:E; destruct (writable w p) eqn:W;
    repeat (simpl; rewrite ?E, ?W, ?disk_get_set); reflexivity.
Qed.

(** What [excel_append_row] does: with pandas and a writable path the
    row is appended to what the file held; otherwise it raises and the
    disk is as before. *)
Lemma excel_append_row_spec p r cols d :
  excel_append_row w p r cols d =
  if pandas w && writable w p
  then (Ok true,
        disk_set p (Sheet (concat_row (frame_or_empty cols (disk_get p d)) r)) d)
  else (Raise (if pandas w then OSError else RuntimeError), d).
Proof.
  unfold excel_append_row.
  destruct (pandas w) eqn:P; simpl; [|reflexivity].
  unfold mbind, st_bind, St.bind. rewrite excel_read_spec, P. simpl.
  unfold to_excel, mret, st_ret, St.ret.
  destruct (disk_get p d) eqn:E; destruct (writable w p) eqn:W; simpl;
    rewrite ?W, ?disk_set_set; reflexivity.
Qed.

End ExcelFacts.

(** ** The routes *)

Section RouteFacts.

Lemma bind_ok {S A B} (m : ST S A) (k : A -> ST S B) s a s' :
  m s = (Ok a, s') -> (x ← m; k x) s = k a s'.
Proof. intros H. st_unfold. by rewrite H. Qed.

Lemma has_key_false (d : row) key : d !! key = None -> has_key d key = false.
Proof.
  intros H. unfold has_key. apply bool_decide_eq_false. rewrite H.
  by intros [? ?].
Qed.

Lemma has_key_true (d : row) key v :
  d !! key = Some v -> has_key d key = true.
Proof. intros H. unfold has_key. apply bool_decide_eq_true. eauto. Qed.

(** C3.  When the draft of the session has no doctor ([medico_id] is
    not a key of [reserva_temp], or there is no draft at all),
    [seleccionar_hora], for GET and for POST, flashes the message
    "Selecciona un médico antes de elegir hora" (in the category
    "error") and redirects to the doctor step; nothing else changes:
    the session and its draft, the Excel files (so the appointment
    store) and the in-memory list are as before. *)
Theorem seleccionar_hora_without_medico (e : env) (req : request) (w : world) :
  get_temp (sess w) !! "medico_id" = None ->
  exists w',
    seleccionar_hora e req w
    = (Ok (Redirect (url_for ep_seleccionar_medico)), w') /\
    url_for ep_seleccionar_medico = "/seleccionar_medico" /\
    flashes w'
    = (flashes w ++ [("Selecciona un médico antes de elegir hora", "error")])%list /\
    sess w' = sess w /\
    files w' = files w /\
    citas_pendientes_mem w' = citas_pendientes_mem w /\
    qr_dir w' = qr_dir w.
Proof.
  intros H. unfold seleccionar_hora. st_unfold.
  rewrite (has_key_false _ _ H). simpl.
  eexists. split; [reflexivity|]. simpl. repeat split.
Qed.

Lemma seleccionar_hora_without_medico_witness :
  exists w',
    seleccionar_hora (env_of true true) (post (<["hora" := "09:30"]> ∅))
                     (world_of (Some (<["fecha" := VStr "2024-05-01"]> ∅))
                               Absent)
    = (Ok (Redirect "/seleccionar_medico"), w') /\
    files w' = Disk Absent Absent Absent /\
    citas_pendientes_mem w' = [].
Proof.
  destruct (seleccionar_hora_without_medico (env_of true true)
              (post (<["hora" := "09:30"]> ∅))
              (world_of (Some (<["fecha" := VStr "2024-05-01"]> ∅)) Absent))
    as (w' & H1 & _ & _ & _ & H2 & H3 & _).
  - vm_compute. reflexivity.
  - exists w'. repeat split; assumption.
Defined.

(** Looking up the name of the doctor, without [utils_excel]: it always
    returns, changes at most the field "medico_nombre" of the
    dictionary, and on the disk at most the doctors file. *)
Lemma with_medico_nombre_spec (e : env) (cita : row) (w : world) :
  utils e = no_utils ->
  exists cita' w',
    with_medico_nombre e cita w = (Ok cita', w') /\
    (forall k, k <> "medico_nombre" -> cita' !! k = cita !! k) /\
    sess w' = sess w /\ flashes w' = flashes w /\
    cit_f (files w') = cit_f (files w) /\
    citas_pendientes_mem w' = citas_pendientes_mem w /\
    stdout w' = stdout w.
Proof.
  intros Hu. unfold with_medico_nombre. rewrite Hu. simpl.
  unfold on_files. st_unfold. rewrite excel_read_spec.
  destruct w as [s f d m q o]. destruct d as [c p md]. simpl.
  assert (K : forall v k, k <> "medico_nombre" ->
                <["medico_nombre" := v]> cita !! k = cita !! k).
  { intros v k Hk. by rewrite lookup_insert_ne. }
  split_io; try no_fuel;
    (eexists _, _; split; [reflexivity|]; simpl; repeat split; auto).
Qed.

Lemma with_referencia_qr (e : env) (cita : row) (w : world) :
  (QR_AVAILABLE e = true -> qr_save_ok e = true) ->
  exists w',
    with_referencia e "QR" cita w
    = (Ok (<["referencia" := VStr (token_hex e 6)]> cita), w') /\
    sess w' = sess w /\ flashes w' = flashes w /\ files w' = files w /\
    citas_pendientes_mem w' = citas_pendientes_mem w /\
    stdout w' = stdout w.
Proof.
  intros Hqr. unfold with_referencia, generate_qr_image. simpl String.eqb.
  cbv iota. st_unfold. unfold save_qr. st_unfold.
  destruct (QR_AVAILABLE e) eqn:Q.
  - rewrite (Hqr eq_refl). eexists. split; [reflexivity|]. by simpl.
  - eexists. split; [reflexivity|]. by simpl.
Qed.

Lemma with_referencia_other (e : env) (metodo : string) (cita : row)
    (w : world) :
  metodo <> "QR" ->
  with_referencia e metodo cita w
  = (Ok (<["referencia" := VStr (format_06d (randbelow e (10 ^ 6)))]> cita), w).
Proof.
  intros Hm. unfold with_referencia.
  destruct (String.eqb_spec metodo "QR") as [->|_]; [done|]. reflexivity.
Qed.

(** The literal of [pago], key by key. *)
Lemma new_cita_lookup (e : env) (u : user_info) (temp : row) (metodo : string) :
  let c := new_cita e u temp metodo in
  c !! "id" = Some (VInt (utcnow_timestamp e)) /\
  c !! "usuario" = Some (username u) /\
  c !! "medico_id" = Some (get_or_none temp "medico_id") /\
  c !! "fecha" = Some (get_or_none temp "fecha") /\
  c !! "hora" = Some (get_or_none temp "hora") /\
  c !! "estado"
  = Some (VStr (if String.eqb metodo "QR" then "Pagado" else "Pendiente")) /\
  c !! "metodo_pago" = Some (VStr metodo).
Proof. unfold new_cita. simpl. repeat split; by simplify_map_eq. Qed.

(** The appointment [pago] builds, when [utils_excel] is absent and
    saving the QR image does not fail (only the method "QR" saves
    one). *)
Lemma build_cita_spec_for (e : env) (u : user_info) (temp : row)
    (metodo : string) (w : world) :
  utils e = no_utils ->
  (metodo = "QR" -> QR_AVAILABLE e = true -> qr_save_ok e = true) ->
  exists cita w',
    build_cita e u temp metodo w = (Ok cita, w') /\
    (forall k, k <> "medico_nombre" -> k <> "referencia" ->
       cita !! k = new_cita e u temp metodo !! k) /\
    cita !! "referencia"
    = Some (VStr (if String.eqb metodo "QR" then token_hex e 6
                  else format_06d (randbelow e (10 ^ 6)))) /\
    sess w' = sess w /\ flashes w' = flashes w /\
    cit_f (files w') = cit_f (files w) /\
    citas_pendientes_mem w' = citas_pendientes_mem w /\
    stdout w' = stdout w.
Proof.
  intros Hu Hqr. unfold build_cita.
  destruct (with_medico_nombre_spec e (new_cita e u temp metodo) w Hu)
    as (c1 & w1 & E1 & K1 & S1 & F1 & C1 & M1 & O1).
  rewrite (bind_ok _ _ _ _ _ E1).
  destruct (String.eqb_spec metodo "QR") as [->|Hm].
  - destruct (with_referencia_qr e c1 w1 (Hqr eq_refl))
      as (w2 & E2 & S2 & F2 & D2 & M2 & O2).
    exists (<["referencia" := VStr (token_hex e 6)]> c1), w2.
    split; [exact E2|]. repeat split; try congruence.
    + intros k Hk1 Hk2. rewrite lookup_insert_ne by done. by apply K1.
    + by rewrite lookup_insert_eq.
  - rewrite (with_referencia_other e metodo c1 w1 Hm).
    eexists _, _. split; [reflexivity|]. repeat split; try congruence.
    + intros k Hk1 Hk2. rewrite lookup_insert_ne by done. by apply K1.
    + by rewrite lookup_insert_eq.
Qed.

Lemma build_cita_spec (e : env) (u : user_info) (temp : row)
    (metodo : string) (w : world) :
  utils e = no_utils ->
  (QR_AVAILABLE e = true -> qr_save_ok e = true) ->
  exists cita w',
    build_cita e u temp metodo w = (Ok cita, w') /\
    (forall k, k <> "medico_nombre" -> k <> "referencia" ->
       cita !! k = new_cita e u temp metodo !! k) /\
    cita !! "referencia"
    = Some (VStr (if String.eqb metodo "QR" then token_hex e 6
                  else format_06d (randbelow e (10 ^ 6)))) /\
    sess w' = sess w /\ flashes w' = flashes w /\
    cit_f (files w') = cit_f (files w) /\
    citas_pendientes_mem w' = citas_pendientes_mem w /\
    stdout w' = stdout w.
Proof. intros Hu Hqr. apply build_cita_spec_for; auto. Qed.

(** Persisting through [excel_append_row]: the row is appended to the
    appointments sheet, or, when that raises, to the in-memory list. *)
Lemma persist_cita_spec (e : env) (cita : row) (w : world) :
  save_cita (utils e) = None ->
  persist_cita e cita w =
  (Ok tt,
   if pandas (xl e) && writable (xl e) CIT_F
   then World (sess w) (flashes w)
          (disk_set CIT_F
             (Sheet (concat_row
                       (frame_or_empty cita_columns (cit_f (files w))) cita))
             (files w))
          (citas_pendientes_mem w) (qr_dir w) (stdout w)
   else World (sess w) (flashes w) (files w)
          (citas_pendientes_mem w ++ [cita]) (qr_dir w)
          (stdout w ++ [("Error al persistir en Excel:",
                         if pandas (xl e) then OSError else RuntimeError)])).
Proof.
  intros Hs. unfold persist_cita, persist_body. rewrite Hs.
  unfold on_files, mem_append, print. st_unfold.
  rewrite excel_append_row_spec.
  destruct (pandas (xl e)), (writable (xl e) CIT_F); reflexivity.
Qed.

(** A POST to [pago] that passes the two guards: the appointment is
    built, persisted, the draft is dropped, the success message is
    flashed and the answer is a redirect to the pending appointments. *)
Lemma pago_post_run (e : env) (req : request) (w w1 w2 : world)
    (u : user_info) (temp cita : row) (h : value) :
  user (sess w) = Some u -> rol u = VStr "paciente" ->
  reserva_temp (sess w) = Some temp -> temp !! "hora" = Some h ->
  method req = POST ->
  build_cita e u temp (form_metodo req) w = (Ok cita, w1) ->
  persist_cita e cita w1 = (Ok tt, w2) ->
  pago e req w =
  (Ok (Redirect (url_for ep_citas_pendientes)),
   World (Session (user (sess w2)) None)
         (flashes w2 ++
            [("Cita registrada correctamente. Revisa tus citas pendientes.",
              "success")])
         (files w2) (citas_pendientes_mem w2) (qr_dir w2) (stdout w2)).
Proof.
  intros Hu Hr Ht Hh Hm Hb Hp. unfold pago.
  rewrite (bind_ok St.get _ w w w eq_refl).
  unfold not_paciente, get_temp. rewrite Hu, Hr, Ht.
  rewrite bool_decide_eq_true_2 by done. cbn [negb].
  rewrite (has_key_true _ _ _ Hh).
  rewrite bool_decide_eq_false_2.
  2:{ intros ->. by rewrite lookup_empty in Hh. }
  cbn [negb orb]. rewrite Hm.
  rewrite (bind_ok _ _ _ _ _ Hb), (bind_ok _ _ _ _ _ Hp).
  unfold set_session, flash. st_unfold. reflexivity.
Qed.

End RouteFacts.

(** ** The in-memory list is only appended to *)

Section MemFacts.

Context (R : relation (list row)) `{!PreOrder R}.

Lemma mem_rel_bind {A B} (m : ST world A) (k : A -> ST world B) :
  mem_rel R m -> (forall a, mem_rel R (k a)) -> mem_rel R (St.bind m k).
Proof.
  intros Hm Hk w. unfold St.bind. specialize (Hm w).
  destruct (m w) as [[a|ex|] w1]; simpl in *; try done.
  etrans; [exact Hm|apply Hk].
Qed.

Lemma mem_rel_try {A} (m : ST world A) (h : exn -> ST world A) :
  mem_rel R m -> (forall ex, mem_rel R (h ex)) -> mem_rel R (St.try_except m h).
Proof.
  intros Hm Hh w. unfold St.try_except. specialize (Hm w).
  destruct (m w) as [[a|ex|] w1]; simpl in *; try done.
  etrans; [exact Hm|apply Hh].
Qed.

Lemma mem_rel_ret {A} (a : A) : mem_rel R (St.ret a).
Proof. intros w. simpl. reflexivity. Qed.

Lemma mem_rel_raise {A} ex : mem_rel R (@St.raise world A ex).
Proof. intros w. simpl. reflexivity. Qed.

Lemma mem_rel_pure {A} (r : result A) : mem_rel R (St.pure r).
Proof. intros w. simpl. reflexivity. Qed.

Lemma mem_rel_get : mem_rel R (@St.get world).
Proof. intros w. simpl. reflexivity. Qed.

Lemma mem_rel_on_files {A} (m : ST disk A) : mem_rel R (on_files m).
Proof.
  intros w. unfold on_files, St.zoom. destruct (m (files w)). simpl.
  reflexivity.
Qed.

Lemma mem_rel_flash msg cat : mem_rel R (flash msg cat).
Proof. intros w. simpl. reflexivity. Qed.

Lemma mem_rel_set_session s : mem_rel R (set_session s).
Proof. intros w. simpl. reflexivity. Qed.

Lemma mem_rel_print msg ex : mem_rel R (print msg ex).
Proof. intros w. simpl. reflexivity. Qed.

Lemma mem_rel_save_qr fn txt : mem_rel R (save_qr fn txt).
Proof. intros w. simpl. reflexivity. Qed.

End MemFacts.

Ltac mem_rel_step :=
  first
    [ apply mem_rel_ret; apply _ | apply mem_rel_raise; apply _
    | apply mem_rel_pure; apply _ | apply mem_rel_get; apply _
    | apply mem_rel_on_files; apply _ | apply mem_rel_flash; apply _
    | apply mem_rel_set_session; apply _ | apply mem_rel_print; apply _
    | apply mem_rel_save_qr; apply _
    | apply mem_rel_bind; [apply _| |intros ?]
    | apply mem_rel_try; [apply _| |intros ?]
    | case_match ].

Ltac mem_rel_tac :=
  unfold mbind, mret, st_bind, st_ret; cbv zeta; repeat mem_rel_step.

Section MemRoutes.

Lemma mem_rel_append cita : mem_rel prefix (mem_append cita).
Proof. intros w. simpl. by apply prefix_app_r. Qed.

Lemma build_cita_mem e u temp metodo : mem_rel eq (build_cita e u temp metodo).
Proof.
  unfold build_cita, with_medico_nombre, with_referencia, generate_qr_image.
  mem_rel_tac.
Qed.

Lemma persist_body_mem e cita : mem_rel eq (persist_body e cita).
Proof. unfold persist_body. mem_rel_tac. Qed.

Lemma seleccionar_hora_mem e req : mem_rel eq (seleccionar_hora e req).
Proof. unfold seleccionar_hora, find_medico. mem_rel_tac. Qed.

Lemma marcar_atendido_mem e req cita_id :
  mem_rel eq (marcar_atendido e req cita_id).
Proof. unfold marcar_atendido, marcar_try. mem_rel_tac. Qed.

Lemma mem_rel_eq_prefix {A} (m : ST world A) :
  mem_rel eq m -> mem_rel prefix m.
Proof. intros H w. by rewrite <- (H w). Qed.

Lemma pago_mem e req : mem_rel prefix (pago e req).
Proof.
  unfold pago, persist_cita.
  unfold mbind, mret, st_bind, st_ret; cbv zeta.
  repeat first
    [ apply mem_rel_append
    | apply mem_rel_eq_prefix; apply build_cita_mem
    | apply mem_rel_eq_prefix; apply persist_body_mem
    | mem_rel_step ].
Qed.

(** A request leaves what the in-memory list held where it was. *)
Lemma step_mem_prefix w w' :
  step w w' -> citas_pendientes_mem w `prefix_of` citas_pendientes_mem w'.
Proof.
  destruct 1 as [e req w|e req w|e req cita_id w|w w' H].
  - by rewrite <- (seleccionar_hora_mem e req w).
  - apply pago_mem.
  - by rewrite <- (marcar_atendido_mem e req cita_id w).
  - by rewrite H.
Qed.

Lemma reachable_mem_prefix w w' :
  reachable w w' ->
  citas_pendientes_mem w `prefix_of` citas_pendientes_mem w'.
Proof.
  induction 1 as [|w1 w2 _ IH Hs]; [done|].
  etrans; [exact IH|by apply step_mem_prefix].
Qed.

End MemRoutes.

(** ** Appointment finalization *)

Section PagoTheorems.

Lemma stored_rows_frame_or_empty cols f :
  rows (frame_or_empty cols f) = stored_rows f.
Proof. by destruct f. Qed.

(** C1 (as amended).  A POST to [/pago] by a logged-in patient whose
    draft has a time (with [utils_excel] absent and the random sources
    within their contract) answers with the redirect and records
    exactly one appointment, in the sheet or, when that fails, in the
    in-memory list.  With the method "QR", when the QR image can be
    saved or there is no encoder, its status is "Pagado" and its
    reference is a non-empty string of 12 hexadecimal digits; with any
    other method, whatever the encoder does, its status is "Pendiente"
    and its reference is a string of 6 decimal digits. *)
Theorem pago_estado_referencia (e : env) (req : request) (w : world)
    (u : user_info) (temp : row) (h : value) :
  user (sess w) = Some u -> rol u = VStr "paciente" ->
  reserva_temp (sess w) = Some temp -> temp !! "hora" = Some h ->
  method req = POST ->
  utils e = no_utils ->
  (form_metodo req = "QR" -> QR_AVAILABLE e = true -> qr_save_ok e = true) ->
  length (urandom e 6) = 6%nat ->
  0 <= randbelow e (10 ^ 6) < 10 ^ 6 ->
  exists (cita : row) (w' : world),
    pago e req w = (Ok (Redirect (url_for ep_citas_pendientes)), w') /\
    ((stored_rows (cit_f (files w'))
      = (stored_rows (cit_f (files w)) ++ [cita])%list /\
      citas_pendientes_mem w' = citas_pendientes_mem w) \/
     (citas_pendientes_mem w' = (citas_pendientes_mem w ++ [cita])%list /\
      cit_f (files w') = cit_f (files w))) /\
    cita !! "metodo_pago" = Some (VStr (form_metodo req)) /\
    (form_metodo req = "QR" ->
       cita !! "estado" = Some (VStr "Pagado") /\
       exists ref, cita !! "referencia" = Some (VStr ref) /\
                   ref <> "" /\ String.length ref = 12%nat /\
                   string_forall is_hex ref = true) /\
    (form_metodo req <> "QR" ->
       cita !! "estado" = Some (VStr "Pendiente") /\
       exists ref, cita !! "referencia" = Some (VStr ref) /\
                   String.length ref = 6%nat /\
                   string_forall is_digit ref = true).
Proof.
  intros Hu Hr Ht Hh Hm Hn Hqr Hlen Hrand.
  destruct (build_cita_spec_for e u temp (form_metodo req) w Hn Hqr)
    as (cita & w1 & Hb & Hk & Href & _ & _ & Hc & Hmem & _).
  assert (Hs : save_cita (utils e) = None) by (by rewrite Hn).
  pose proof (persist_cita_spec e cita w1 Hs) as Hp.
  eexists cita, _. split; [exact (pago_post_run e req w w1 _ u temp cita h
                                    Hu Hr Ht Hh Hm Hb Hp)|].
  destruct (new_cita_lookup e u temp (form_metodo req))
    as (_ & _ & _ & _ & _ & Hest & Hmet).
  split; [|split; [|split]].
  - destruct (pandas (xl e) && writable (xl e) CIT_F); simpl.
    + left. rewrite stored_rows_frame_or_empty, Hc, Hmem. done.
    + right. rewrite Hc, Hmem. done.
  - by rewrite Hk.
  - intros Hq. rewrite Hk by done. rewrite Hest, Href, Hq. simpl.
    split; [done|]. exists (token_hex e 6). split; [done|].
    destruct (hex_of_bytes_hex (urandom e 6)) as [H1 H2].
    rewrite Hlen in H2. unfold token_hex. repeat split; try done.
    intros E. by rewrite E in H2.
  - intros Hq. rewrite Hk by done. rewrite Hest, Href.
    destruct (String.eqb_spec (form_metodo req) "QR") as [|_]; [done|].
    split; [done|]. eexists. split; [done|].
    destruct (format_06d_six_digits _ Hrand). done.
Qed.

Lemma pago_estado_referencia_witness :
  exists (cita : row) (w' : world),
    pago (MoreVocab.env_qr true true) (post (<["metodo" := "QR"]> ∅))
         (world_of (Some draft) Absent)
    = (Ok (Redirect "/citas_pendientes"), w') /\
    cita !! "estado" = Some (VStr "Pagado") /\
    exists ref, cita !! "referencia" = Some (VStr ref) /\
                String.length ref = 12%nat.
Proof.
  destruct (pago_estado_referencia (MoreVocab.env_qr true true)
              (post (<["metodo" := "QR"]> ∅))
              (world_of (Some draft) Absent) ana draft (VStr "09:30"))
    as (cita & w' & Hp & _ & _ & Hqr & _);
    [reflexivity | reflexivity | reflexivity | reflexivity | reflexivity
    | reflexivity | reflexivity | reflexivity
    | split; [discriminate|reflexivity] |].
  destruct (Hqr eq_refl) as (He & ref & Hr & _ & Hl & _).
  exists cita, w'. split; [exact Hp|]. split; [exact He|].
  exists ref. split; [exact Hr|exact Hl].
Defined.

(** C1, where the claim fails.  A POST with the method "QR" when the
    encoder is there and saving the image fails: [generate_qr_image]
    is called outside every [try], the exception leaves the route and
    no appointment is produced, neither in the sheet nor in the
    in-memory list. *)
Lemma pago_qr_no_appointment :
  (pago (MoreVocab.env_qr true false) (post (<["metodo" := "QR"]> ∅))
        (world_of (Some draft) Absent)).1
  = Raise OSError /\
  stored_rows
    (cit_f (files (pago (MoreVocab.env_qr true false) (post (<["metodo" := "QR"]> ∅))
                     (world_of (Some draft) Absent)).2)) = [] /\
  citas_pendientes_mem
    (pago (MoreVocab.env_qr true false) (post (<["metodo" := "QR"]> ∅))
          (world_of (Some draft) Absent)).2 = [].
Proof. vm_compute. repeat split. Qed.

(** C9.  With pandas and a writable appointments file the same POST
    appends the new appointment to the sheet whatever the sheet held:
    no row is looked at, every row stays at its place, the new row
    (with the doctor, date and time of the draft) comes last, the sheet
    has one row more and the in-memory list is untouched.  So a second
    appointment for a doctor, date and time already booked is
    stored next to the first. *)
Theorem pago_appends_without_check (e : env) (req : request) (w : world)
    (u : user_info) (temp : row) (h : value) :
  user (sess w) = Some u -> rol u = VStr "paciente" ->
  reserva_temp (sess w) = Some temp -> temp !! "hora" = Some h ->
  method req = POST ->
  utils e = no_utils ->
  (QR_AVAILABLE e = true -> qr_save_ok e = true) ->
  pandas (xl e) = true -> writable (xl e) CIT_F = true ->
  exists (cita : row) (w' : world),
    pago e req w = (Ok (Redirect (url_for ep_citas_pendientes)), w') /\
    stored_rows (cit_f (files w'))
    = (stored_rows (cit_f (files w)) ++ [cita])%list /\
    length (stored_rows (cit_f (files w')))
    = S (length (stored_rows (cit_f (files w)))) /\
    (forall (i : nat) r, stored_rows (cit_f (files w)) !! i = Some r ->
       stored_rows (cit_f (files w')) !! i = Some r) /\
    stored_rows (cit_f (files w')) !! length (stored_rows (cit_f (files w)))
    = Some cita /\
    cita !! "medico_id" = Some (get_or_none temp "medico_id") /\
    cita !! "fecha" = Some (get_or_none temp "fecha") /\
    cita !! "hora" = Some h /\
    citas_pendientes_mem w' = citas_pendientes_mem w.
Proof.
  intros Hu Hr Ht Hh Hm Hn Hqr Hpd Hwr.
  destruct (build_cita_spec e u temp (form_metodo req) w Hn Hqr)
    as (cita & w1 & Hb & Hk & Href & _ & _ & Hc & Hmem & _).
  assert (Hs : save_cita (utils e) = None) by (by rewrite Hn).
  pose proof (persist_cita_spec e cita w1 Hs) as Hp.
  rewrite Hpd, Hwr in Hp. simpl in Hp.
  eexists cita, _. split; [exact (pago_post_run e req w w1 _ u temp cita h
                                    Hu Hr Ht Hh Hm Hb Hp)|].
  simpl. rewrite stored_rows_frame_or_empty, Hc, Hmem.
  destruct (new_cita_lookup e u temp (form_metodo req))
    as (_ & _ & Hmed & Hfec & Hhor & _ & _).
  repeat split.
  - rewrite length_app. simpl. lia.
  - intros i r Hi. by apply lookup_app_l_Some.
  - by rewrite list_lookup_middle.
  - by rewrite Hk.
  - by rewrite Hk.
  - rewrite Hk by done. rewrite Hhor. unfold get_or_none, dict_get.
    by rewrite Hh.
Qed.

Lemma pago_appends_without_check_witness :
  exists (cita : row) (w' : world),
    pago (env_of true true) (post ∅)
         (world_of (Some draft) (citas_sheet [booked]))
    = (Ok (Redirect "/citas_pendientes"), w') /\
    stored_rows (cit_f (files w')) = [booked; cita] /\
    cell booked "medico_id" = VInt 3 /\
    cita !! "medico_id" = Some (VInt 3) /\
    cell booked "fecha" = VStr "2024-05-01" /\
    cita !! "fecha" = Some (VStr "2024-05-01") /\
    cell booked "hora" = VStr "09:30" /\
    cita !! "hora" = Some (VStr "09:30").
Proof.
  destruct (pago_appends_without_check (env_of true true) (post ∅)
              (world_of (Some draft) (citas_sheet [booked]))
              ana draft (VStr "09:30"))
    as (cita & w' & Hp & Hrows & _ & _ & _ & Hmed & Hfec & Hhor & _);
    try reflexivity; try discriminate.
  exists cita, w'. repeat split; assumption || reflexivity.
Defined.

(** C6.  When the body of the [try] that persists the appointment
    raises, the POST still answers with the redirect to the pending
    appointments: the appointment is appended to
    [citas_pendientes_mem], the draft is removed from the session, the
    user stays logged in, the success message is flashed, and the
    appointment is in the list in every state the process reaches
    afterwards. *)
Theorem pago_falls_back_to_memory (e : env) (req : request) (w w1 w2 : world)
    (u : user_info) (temp cita : row) (h : value) (err : exn) :
  user (sess w) = Some u -> rol u = VStr "paciente" ->
  reserva_temp (sess w) = Some temp -> temp !! "hora" = Some h ->
  method req = POST ->
  build_cita e u temp (form_metodo req) w = (Ok cita, w1) ->
  persist_body e cita w1 = (Raise err, w2) ->
  exists w',
    pago e req w = (Ok (Redirect (url_for ep_citas_pendientes)), w') /\
    citas_pendientes_mem w' = (citas_pendientes_mem w ++ [cita])%list /\
    reserva_temp (sess w') = None /\
    user (sess w') = user (sess w2) /\
    flashes w'
    = (flashes w2 ++
         [("Cita registrada correctamente. Revisa tus citas pendientes.",
           "success")])%list /\
    files w' = files w2 /\
    (forall w'', reachable w' w'' -> cita ∈ citas_pendientes_mem w'').
Proof.
  intros Hu Hr Ht Hh Hm Hb Hraise.
  assert (Hp : persist_cita e cita w1
               = (Ok tt,
                  World (sess w2) (flashes w2) (files w2)
                        (citas_pendientes_mem w2 ++ [cita]) (qr_dir w2)
                        (stdout w2 ++ [("Error al persistir en Excel:", err)]))).
  { unfold persist_cita, St.try_except. rewrite Hraise.
    unfold mem_append, print. st_unfold. reflexivity. }
  pose proof (build_cita_mem e u temp (form_metodo req) w) as M1.
  rewrite Hb in M1. simpl in M1.
  pose proof (persist_body_mem e cita w1) as M2.
  rewrite Hraise in M2. simpl in M2.
  eexists. split; [exact (pago_post_run e req w w1 _ u temp cita h
                            Hu Hr Ht Hh Hm Hb Hp)|].
  simpl. repeat split.
  - congruence.
  - intros w'' Hreach. apply reachable_mem_prefix in Hreach as [l Hl].
    simpl in Hl. rewrite Hl. set_solver.
Qed.

Lemma pago_falls_back_to_memory_witness :
  exists w' : world,
    pago (env_of false true) (post ∅) (world_of (Some draft) Absent)
    = (Ok (Redirect "/citas_pendientes"), w') /\
    citas_pendientes_mem w' = [cash_cita] /\
    reserva_temp (sess w') = None /\
    files w' = Disk Absent Absent Absent.
Proof.
  destruct (pago_falls_back_to_memory (env_of false true) (post ∅)
              (world_of (Some draft) Absent) cash_world cash_world
              ana draft cash_cita (VStr "09:30") RuntimeError)
    as (w' & Hp & Hmem & Hdraft & _ & _ & Hfiles & _);
    [reflexivity | reflexivity | reflexivity | vm_compute; reflexivity
    | reflexivity | vm_compute; reflexivity | vm_compute; reflexivity |].
  exists w'. split; [exact Hp|]. split; [exact Hmem|].
  split; [exact Hdraft|]. rewrite Hfiles. vm_compute. reflexivity.
Defined.

End PagoTheorems.

(** ** Marking an appointment attended *)

Section MarcarFacts.

Lemma has_id_iff cita_id r :
  has_id cita_id r = true <-> r !! "id" = Some (VInt cita_id).
Proof.
  unfold has_id, cell, cell_eq. split.
  - destruct (r !! "id") as [[| |z|]|]; try discriminate.
    intros H. apply Z.eqb_eq in H. congruence.
  - intros ->. apply Z.eqb_refl.
Qed.

(** The [try] block of [marcar_atendido] without [utils_excel]. *)
Lemma marcar_try_spec (e : env) (cita_id : Z) (w : world) :
  marcar_cita_atendida (utils e) = None ->
  marcar_try e cita_id w =
  if pandas (xl e) then
    match cit_f (files w) with
    | Sheet df =>
        if df_empty df then (Ok false, w)
        else if bool_decide ("id" ∈ columns df) then
          if loc_accepts (xl e) df (has_id cita_id) "estado" (VStr "Atendido")
          then
            if writable (xl e) CIT_F
            then (Ok true, set_cit (Sheet (marked cita_id df)) w)
            else (Ok false, w)
          else (Ok false, w)
        else (Ok false, w)
    | Unreadable => (Ok false, w)
    | Absent =>
        if writable (xl e) CIT_F
        then (Ok false, set_cit (Sheet (empty_frame [])) w)
        else (Ok false, w)
    end
  else (Ok false, w).
Proof.
  intros Hu. unfold marcar_try. rewrite Hu.
  unfold on_files. st_unfold. rewrite excel_read_spec.
  unfold to_excel, loc_setitem, col_eq, set_cit, marked.
  destruct w as [s f [c p m] l q o]. simpl.
  destruct (pandas (xl e)); simpl; [|reflexivity].
  destruct c as [| |df]; simpl.
  - destruct (writable (xl e) CIT_F); reflexivity.
  - reflexivity.
  - destruct (df_empty df); simpl; [reflexivity|].
    destruct (bool_decide ("id" ∈ columns df)); simpl; [|reflexivity].
    change (fun r => cell_eq (cell r "id") (VInt cita_id))
      with (has_id cita_id).
    destruct (loc_accepts (xl e) df (has_id cita_id) "estado"
                (VStr "Atendido")); simpl; [|reflexivity].
    destruct (writable (xl e) CIT_F); reflexivity.
Qed.

(** The route, from the value of [ok]. *)
Lemma marcar_atendido_run (e : env) (req : request) (cita_id : Z)
    (w w1 : world) (ok : bool) :
  marcar_try e cita_id w = (Ok ok, w1) ->
  exists loc,
    marcar_atendido e req cita_id w
    = (Ok (Redirect loc),
       World (sess w1)
             (flashes w1 ++
                [(if ok then "Cita marcada como atendida"
                  else "No se pudo actualizar",
                  if ok then "success" else "error")])
             (files w1) (citas_pendientes_mem w1) (qr_dir w1) (stdout w1)).
Proof.
  intros H. unfold marcar_atendido. rewrite (bind_ok _ _ _ _ _ H).
  unfold flash. st_unfold. eexists. reflexivity.
Qed.

(** Marking twice is marking once. *)
Lemma marked_idem cita_id df :
  marked cita_id (marked cita_id df) = marked cita_id df.
Proof.
  unfold marked, loc_set. simpl. f_equal.
  - by rewrite (assoc_L (∪)), (idemp_L (∪)).
  - rewrite List.map_map. apply List.map_ext. intros r.
    destruct (has_id cita_id r) eqn:H; [|by rewrite H].
    assert (H' : has_id cita_id (<["estado" := VStr "Atendido"]> r) = true).
    { apply has_id_iff. rewrite lookup_insert_ne by done.
      by apply has_id_iff. }
    rewrite H'. apply insert_insert_eq.
Qed.

Lemma marked_not_empty cita_id df :
  df_empty df = false -> df_empty (marked cita_id df) = false.
Proof.
  unfold df_empty, marked, loc_set. simpl.
  destruct (rows df) as [|r rs]; simpl; [discriminate|].
  intros _. apply bool_decide_eq_false_2. set_solver.
Qed.

(** A sheet whose rows with the id are attended already is written
    back as it is. *)
Lemma marked_fixed cita_id df :
  "estado" ∈ columns df ->
  (forall r, r ∈ rows df -> r !! "id" = Some (VInt cita_id) ->
             r !! "estado" = Some (VStr "Atendido")) ->
  marked cita_id df = df.
Proof.
  intros Hc Hr. destruct df as [cols rs]. unfold marked, loc_set. simpl in *.
  f_equal; [by apply subseteq_union_1_L, singleton_subseteq_l|].
  rewrite <- (List.map_id rs) at 2. apply List.map_ext_in. intros r Hin.
  destruct (has_id cita_id r) eqn:H; [|reflexivity].
  apply insert_id, Hr; [by apply list_elem_of_In|by apply has_id_iff].
Qed.

Lemma marked_attended cita_id df r :
  r ∈ rows (marked cita_id df) -> r !! "id" = Some (VInt cita_id) ->
  r !! "estado" = Some (VStr "Atendido").
Proof.
  unfold marked, loc_set. simpl. intros Hin Hid.
  apply list_elem_of_In, in_map_iff in Hin as (r0 & <- & _).
  destruct (has_id cita_id r0) eqn:H.
  - by rewrite lookup_insert_eq.
  - apply has_id_iff in Hid. congruence.
Qed.

Lemma disk_set_same p d : disk_set p (disk_get p d) d = d.
Proof. by destruct p, d. Qed.

(** [marcar_atendido] on a sheet where the appointment is attended
    already: whatever the outside world does, the answer is a redirect
    and the state changes only by the flashed message. *)
Lemma marcar_atendido_already (e : env) (req : request) (cita_id : Z)
    (w : world) (df : frame) :
  marcar_cita_atendida (utils e) = None ->
  cit_f (files w) = Sheet df ->
  "estado" ∈ columns df ->
  (forall r, r ∈ rows df -> r !! "id" = Some (VInt cita_id) ->
             r !! "estado" = Some (VStr "Atendido")) ->
  exists loc w',
    marcar_atendido e req cita_id w = (Ok (Redirect loc), w') /\
    files w' = files w /\ sess w' = sess w /\
    citas_pendientes_mem w' = citas_pendientes_mem w.
Proof.
  intros Hu Hf Hc Hr.
  pose proof (marcar_try_spec e cita_id w Hu) as Ht. rewrite Hf in Ht.
  rewrite (marked_fixed cita_id df Hc Hr) in Ht.
  assert (Hs : set_cit (Sheet df) w = w).
  { unfold set_cit. rewrite <- Hf.
    change (cit_f (files w)) with (disk_get CIT_F (files w)).
    rewrite disk_set_same. by destruct w. }
  rewrite Hs in Ht.
  assert (exists ok, marcar_try e cita_id w = (Ok ok, w)) as [ok Hok].
  { rewrite Ht. repeat case_match; eauto. }
  destruct (marcar_atendido_run e req cita_id w w ok Hok) as [loc Hrun].
  eexists _, _. split; [exact Hrun|]. by simpl.
Qed.

End MarcarFacts.

Section MarcarTheorems.

(** C4.  Without [utils_excel], marking an appointment that is attended
    already changes nothing: on a sheet whose rows with the id all have
    the status "Atendido", [marcar_atendido] answers with a redirect (no
    exception leaves the route) and the files are as before.  In
    particular a second call after a call that marked the appointment
    ends in the state the first call left, whatever the outside world
    does during the second call. *)
Theorem marcar_atendido_idempotent :
  (forall (e : env) (req : request) (cita_id : Z) (w : world) (df : frame),
     marcar_cita_atendida (utils e) = None ->
     cit_f (files w) = Sheet df ->
     "estado" ∈ columns df ->
     (forall r, r ∈ rows df -> r !! "id" = Some (VInt cita_id) ->
                r !! "estado" = Some (VStr "Atendido")) ->
     exists loc w',
       marcar_atendido e req cita_id w = (Ok (Redirect loc), w') /\
       files w' = files w /\ sess w' = sess w /\
       citas_pendientes_mem w' = citas_pendientes_mem w) /\
  (forall (e1 e2 : env) (req1 req2 : request) (cita_id : Z) (w : world),
     marcar_cita_atendida (utils e1) = None ->
     marcar_cita_atendida (utils e2) = None ->
     (marcar_try e1 cita_id w).1 = Ok true ->
     exists loc1 loc2 w1 w2,
       marcar_atendido e1 req1 cita_id w = (Ok (Redirect loc1), w1) /\
       marcar_atendido e2 req2 cita_id w1 = (Ok (Redirect loc2), w2) /\
       files w2 = files w1 /\ sess w2 = sess w1 /\
       citas_pendientes_mem w2 = citas_pendientes_mem w1).
Proof.
  split; [exact marcar_atendido_already|].
  intros e1 e2 req1 req2 cita_id w Hu1 Hu2 Hok.
  pose proof (marcar_try_spec e1 cita_id w Hu1) as Ht.
  destruct (pandas (xl e1)); [|by rewrite Ht in Hok].
  destruct (cit_f (files w)) as [| |df] eqn:Hf;
    [by rewrite Ht in Hok; destruct (writable (xl e1) CIT_F)
    |by rewrite Ht in Hok|].
  destruct (df_empty df) eqn:He; [by rewrite Ht in Hok|].
  destruct (bool_decide ("id" ∈ columns df)); [|by rewrite Ht in Hok].
  destruct (loc_accepts (xl e1) df (has_id cita_id) "estado"
              (VStr "Atendido")); [|by rewrite Ht in Hok].
  destruct (writable (xl e1) CIT_F); [|by rewrite Ht in Hok].
  destruct (marcar_atendido_run e1 req1 cita_id w _ true Ht) as [loc1 H1].
  set (w1 := World _ _ _ _ _ _) in H1.
  destruct (marcar_atendido_already e2 req2 cita_id w1 (marked cita_id df) Hu2)
    as (loc2 & w2 & H2 & F2 & S2 & M2).
  - reflexivity.
  - unfold marked, loc_set. simpl. set_solver.
  - intros r. apply marked_attended.
  - exists loc1, loc2, w1, w2. repeat split; assumption.
Qed.

Lemma marcar_atendido_idempotent_witness :
  exists loc w',
    marcar_atendido (env_of true true) (Request GET ∅ None) 1714000000
                    (world_of None (citas_sheet [attended]))
    = (Ok (Redirect loc), w') /\
    files w' = Disk (citas_sheet [attended]) Absent Absent.
Proof.
  destruct (proj1 marcar_atendido_idempotent (env_of true true)
              (Request GET ∅ None) 1714000000
              (world_of None (citas_sheet [attended]))
              (Frame (list_to_set cita_columns) [attended]))
    as (loc & w' & Hrun & Hfiles & _).
  - reflexivity.
  - reflexivity.
  - vm_compute. set_solver.
  - intros r Hr _. apply list_elem_of_singleton in Hr as ->.
    vm_compute. reflexivity.
  - exists loc, w'. split; [exact Hrun|]. rewrite Hfiles. reflexivity.
Defined.

(** C10.  On the fallback path of [marcar_atendido] (no
    [utils_excel]), for every sheet the appointments file holds and
    whatever the outside world does, the sheet afterwards has the rows
    of the sheet read, in the same order: a row with another id is as
    it was, and a row with the id differs from the row read at most in
    the field "estado", which is then "Atendido"; the other two files
    are not touched.  When the sheet is written back (pandas is there,
    the sheet is not empty and has the column "id", pandas accepts the
    assignment and the file can be written) every row with the id has
    "Atendido" in "estado"; in every other case (also when pandas
    refuses the assignment, which the route catches) the file is left
    as it was. *)
Theorem marcar_atendido_changes_only_estado (e : env) (req : request)
    (cita_id : Z) (w : world) (df : frame) :
  marcar_cita_atendida (utils e) = None ->
  cit_f (files w) = Sheet df ->
  exists loc w' df',
    marcar_atendido e req cita_id w = (Ok (Redirect loc), w') /\
    cit_f (files w') = Sheet df' /\
    length (rows df') = length (rows df) /\
    (forall (i : nat) r, rows df !! i = Some r ->
       exists r', rows df' !! i = Some r' /\
         (forall k, k <> "estado" -> r' !! k = r !! k) /\
         (r' = r \/ r' = <["estado" := VStr "Atendido"]> r) /\
         (r !! "id" <> Some (VInt cita_id) -> r' = r)) /\
    (if pandas (xl e) && negb (df_empty df)
        && bool_decide ("id" ∈ columns df)
        && loc_accepts (xl e) df (has_id cita_id) "estado" (VStr "Atendido")
        && writable (xl e) CIT_F
     then forall (i : nat) r,
            rows df !! i = Some r -> r !! "id" = Some (VInt cita_id) ->
            rows df' !! i = Some (<["estado" := VStr "Atendido"]> r)
     else df' = df) /\
    pati_f (files w') = pati_f (files w) /\
    med_f (files w') = med_f (files w).
Proof.
  intros Hu Hf.
  pose proof (marcar_try_spec e cita_id w Hu) as Ht. rewrite Hf in Ht.
  assert (Hsame : forall ok,
            marcar_try e cita_id w = (Ok ok, w) ->
            pandas (xl e) && negb (df_empty df)
            && bool_decide ("id" ∈ columns df)
            && loc_accepts (xl e) df (has_id cita_id) "estado"
                 (VStr "Atendido")
            && writable (xl e) CIT_F = false ->
            exists loc w' df',
              marcar_atendido e req cita_id w = (Ok (Redirect loc), w') /\
              cit_f (files w') = Sheet df' /\
              length (rows df') = length (rows df) /\
              (forall (i : nat) r, rows df !! i = Some r ->
                 exists r', rows df' !! i = Some r' /\
                   (forall k, k <> "estado" -> r' !! k = r !! k) /\
                   (r' = r \/ r' = <["estado" := VStr "Atendido"]> r) /\
                   (r !! "id" <> Some (VInt cita_id) -> r' = r)) /\
              (if pandas (xl e) && negb (df_empty df)
                  && bool_decide ("id" ∈ columns df)
                  && loc_accepts (xl e) df (has_id cita_id) "estado"
                       (VStr "Atendido")
                  && writable (xl e) CIT_F
               then forall (i : nat) r,
                      rows df !! i = Some r ->
                      r !! "id" = Some (VInt cita_id) ->
                      rows df' !! i = Some (<["estado" := VStr "Atendido"]> r)
               else df' = df) /\
              pati_f (files w') = pati_f (files w) /\
              med_f (files w') = med_f (files w)).
  { intros ok Hok Hno.
    destruct (marcar_atendido_run e req cita_id w w ok Hok) as [loc Hrun].
    eexists loc, _, df. split; [exact Hrun|]. simpl. rewrite Hno.
    repeat split; try done.
    intros i r Hi. exists r. repeat split; eauto. }
  destruct (pandas (xl e)); [|by apply (Hsame false)].
  destruct (df_empty df); [by apply (Hsame false)|].
  destruct (bool_decide ("id" ∈ columns df)); [|by apply (Hsame false)].
  destruct (loc_accepts (xl e) df (has_id cita_id) "estado" (VStr "Atendido"));
    [|by apply (Hsame false)].
  destruct (writable (xl e) CIT_F); [|by apply (Hsame false)].
  clear Hsame.
  destruct (marcar_atendido_run e req cita_id w _ true Ht) as [loc Hrun].
  eexists loc, _, (marked cita_id df). split; [exact Hrun|].
  simpl. repeat split.
  - by rewrite length_map.
  - intros i r Hi.
    exists (if has_id cita_id r then <["estado" := VStr "Atendido"]> r else r).
    split; [by rewrite list_lookup_fmap, Hi|].
    destruct (has_id cita_id r) eqn:H.
    + apply has_id_iff in H. repeat split; try done; [|by right].
      intros k Hk. by rewrite lookup_insert_ne.
    + repeat split; try done; by left.
  - intros i r Hi Hid. rewrite list_lookup_fmap, Hi. simpl.
    apply has_id_iff in Hid. by rewrite Hid.
Qed.

Lemma marcar_atendido_changes_only_estado_witness :
  exists loc w' df',
    marcar_atendido (env_of true true) (Request GET ∅ None) 1714000000
                    (world_of None (citas_sheet [booked]))
    = (Ok (Redirect loc), w') /\
    cit_f (files w') = Sheet df' /\
    length (rows df') = 1%nat /\
    rows df' !! 0%nat = Some (<["estado" := VStr "Atendido"]> booked).
Proof.
  destruct (marcar_atendido_changes_only_estado (env_of true true)
              (Request GET ∅ None) 1714000000
              (world_of None (citas_sheet [booked]))
              (Frame (list_to_set cita_columns) [booked]))
    as (loc & w' & df' & Hrun & Hf & Hl & _ & Hw & _);
    [reflexivity | reflexivity |].
  exists loc, w', df'. split; [exact Hrun|]. split; [exact Hf|].
  split; [exact Hl|].
  assert (Hid : bool_decide
                  ("id" ∈ columns (Frame (list_to_set cita_columns) [booked]))
                = true).
  { apply bool_decide_eq_true_2. vm_compute. set_solver. }
  rewrite Hid in Hw. exact (Hw 0%nat booked eq_refl eq_refl).
Defined.

(** The same request when pandas refuses the assignment: the "estado"
    cells of the sheet are empty, so pandas 3 read the column as
    numbers.  The route catches the [TypeError], flashes "No se pudo
    actualizar" and leaves the file as it was. *)
Example marcar_atendido_refused :
  marcar_atendido (env_of true true) (Request GET ∅ None) 1714000000
    (world_of None (citas_sheet [delete "estado" booked]))
  = (Ok (Redirect "/"),
     World (Session (Some ana) None) [("No se pudo actualizar", "error")]
           (Disk (citas_sheet [delete "estado" booked]) Absent Absent)
           [] ∅ []).
Proof. vm_compute. reflexivity. Qed.

(** C5, what the code does.  The sheet holds one appointment, with the
    id 1714000000; [marcar_atendido] is called with the id 42, which no
    row has, pandas is there and the file is writable.  The route
    flashes "Cita marcada como atendida" in the category "success" and
    writes the sheet back as it was. *)
Theorem marcar_atendido_unknown_id_success :
  (forall r, r ∈ [booked] -> r !! "id" <> Some (VInt 42)) /\
  marcar_atendido (env_of true true) (Request GET ∅ None) 42
                  (world_of None (citas_sheet [booked]))
  = (Ok (Redirect "/"),
     World (Session (Some ana) None)
           [("Cita marcada como atendida", "success")]
           (Disk (citas_sheet [booked]) Absent Absent) [] ∅ []).
Proof.
  split.
  - intros r Hr. apply list_elem_of_singleton in Hr as ->.
    vm_compute. discriminate.
  - vm_compute. reflexivity.
Qed.

End MarcarTheorems.

(* ===================================================================== *)
(** * More properties of the code *)
(* ===================================================================== *)

Import MoreVocab.

(** ** Slots: edge cases *)

Section SlotEdges.

Lemma elem_of_slot_strings (a n : Z) (k : nat) (x : string) :
  x ∈ List.map strftime (slot_times a n k) ->
  exists i : nat, (i < k)%nat /\ x = strftime (a + Z.of_nat i * n).
Proof.
  intros Hx. apply list_elem_of_lookup in Hx as [i Hi].
  rewrite list_lookup_fmap in Hi. apply fmap_Some in Hi as (t & Ht & ->).
  assert (Hlt : (i < k)%nat).
  { apply lookup_lt_Some in Ht. by rewrite slot_times_length in Ht. }
  rewrite slot_times_lookup in Ht by done.
  exists i. split; [done|]. congruence.
Qed.

(** X1.  Whatever the record of the doctor holds,
    [get_horarios_disponibles] returns a list (it neither raises nor
    loops, with the fuel the route gives it), and every slot of the
    list is a time [strptime] accepts. *)
Theorem horarios_always_valid (medico : row) :
  exists horarios,
    get_horarios_disponibles slot_fuel medico = Ok horarios /\
    forall x, x ∈ horarios ->
      exists t, strptime (VStr x) = Ok t /\ 0 <= t < 1440.
Proof.
  unfold get_horarios_disponibles.
  set (inicio := dict_get medico "start_time" (VStr "09:00")).
  set (fin := dict_get medico "end_time" (VStr "17:00")).
  assert (D : forall x, x ∈ default_horarios ->
                exists t, strptime (VStr x) = Ok t /\ 0 <= t < 1440).
  { intros x Hx. apply list_elem_of_In in Hx. simpl in Hx.
    repeat (destruct Hx as [<-|Hx];
            [eexists; split; [vm_compute; reflexivity|lia]|]).
    done. }
  destruct (strptime_cases inicio) as [[a Ha]|[ex Ha]].
  2:{ rewrite (generate_slots_raise_start _ _ _ _ _ Ha). simpl. eauto. }
  destruct (strptime_cases fin) as [[b Hb]|[ex Hb]].
  2:{ rewrite (generate_slots_raise_end _ _ _ _ _ _ Ha Hb). simpl. eauto. }
  rewrite (generate_slots_unfold _ _ _ _ _ _ Ha Hb).
  apply strptime_range in Ha, Hb.
  pose proof max_minute_big. pose proof min_minute_neg.
  destruct (Z_le_gt_dec a b) as [Hab|Hab].
  - pose proof (slots_count a b 30 ltac:(lia) Hab) as Hk. simpl in Hk.
    assert ((b - a) / 30 < 48) by (apply Z.div_lt_upper_bound; lia).
    assert (0 <= (b - a) / 30) by (apply Z.div_pos; lia).
    rewrite (slots_loop_run b 30 (Z.to_nat ((b - a) / 30)));
      [| lia | lia | lia | lia | unfold slot_fuel; lia].
    eexists. split; [reflexivity|]. simpl. intros x Hx.
    apply elem_of_slot_strings in Hx as (i & Hi & ->).
    exists (a + Z.of_nat i * 30). split; [apply strptime_strftime|]; lia.
  - rewrite slots_loop_stop; [|lia|lia].
    eexists. split; [reflexivity|]. intros x Hx. by apply elem_of_nil in Hx.
Qed.

Lemma slots_loop_nonpositive (end_ n : Z) :
  n <= 0 ->
  forall (fuel : nat) (cur : Z) (acc : list string),
    cur + n <= end_ ->
    slots_loop fuel end_ n cur acc = NoFuel \/
    slots_loop fuel end_ n cur acc = Raise OverflowError.
Proof.
  intros Hn. induction fuel as [|fuel IH]; intros cur acc Hc; simpl;
    unfold add_minutes;
    destruct ((min_minute <=? cur + n) && (cur + n <=? max_minute)); simpl;
    auto;
    (destruct (cur + n <=? end_) eqn:L; [|apply Z.leb_gt in L; lia]); auto.
  apply IH. lia.
Qed.

Lemma slots_loop_zero (end_ : Z) :
  forall (fuel : nat) (cur : Z) (acc : list string),
    min_minute <= cur <= max_minute -> cur <= end_ ->
    slots_loop fuel end_ 0 cur acc = NoFuel.
Proof.
  induction fuel as [|fuel IH]; intros cur acc Hr Hc; simpl;
    rewrite (add_minutes_ok cur 0) by lia; simpl;
    (destruct (cur + 0 <=? end_) eqn:L; [|apply Z.leb_gt in L; lia]); auto.
  apply IH; lia.
Qed.

(** With a negative slot length the loop walks back in time, [k] slots
    that [datetime] can still hold, and raises at the next addition. *)
Lemma slots_loop_overflow (end_ n : Z) :
  n < 0 ->
  forall (k fuel : nat) (cur : Z) (acc : list string),
    cur + n <= end_ -> cur <= max_minute ->
    min_minute <= cur + Z.of_nat k * n ->
    cur + (Z.of_nat k + 1) * n < min_minute ->
    (k <= fuel)%nat ->
    slots_loop fuel end_ n cur acc = Raise OverflowError.
Proof.
  intros Hn. induction k as [|k IH]; intros fuel cur acc He Hmax Hlo Hhi Hf.
  - assert (E : (min_minute <=? cur + n) = false) by (apply Z.leb_gt; lia).
    destruct fuel; simpl; unfold add_minutes; by rewrite E.
  - destruct fuel as [|fuel]; [lia|]. simpl.
    rewrite (add_minutes_ok cur n) by nia. simpl.
    destruct (cur + n <=? end_) eqn:L; [|apply Z.leb_gt in L; lia].
    apply IH; lia.
Qed.

(** X2.  A slot length that is not positive makes [generate_slots]
    useless whenever its loop is entered ([start + n <= end]): it never
    returns a list.  With [n = 0] the loop runs forever (no fuel is
    enough).  With [n < 0] it walks back in time until [datetime]
    overflows: every fuel of at least [(start - datetime.min) / -n]
    ends in [OverflowError]. *)
Theorem generate_slots_nonpositive (s e : string) (a b n : Z) (fuel : nat) :
  strptime (VStr s) = Ok a -> strptime (VStr e) = Ok b ->
  n <= 0 -> a + n <= b ->
  (generate_slots fuel (VStr s) (VStr e) n = NoFuel \/
   generate_slots fuel (VStr s) (VStr e) n = Raise OverflowError) /\
  (n = 0 -> generate_slots fuel (VStr s) (VStr e) n = NoFuel) /\
  (n < 0 -> (Z.to_nat ((a - min_minute) / - n) <= fuel)%nat ->
   generate_slots fuel (VStr s) (VStr e) n = Raise OverflowError).
Proof.
  intros Ha Hb Hn Hab.
  rewrite (generate_slots_unfold _ _ _ _ _ _ Ha Hb). split; [|split].
  - by apply slots_loop_nonpositive.
  - intros ->. apply strptime_range in Ha.
    pose proof max_minute_big. pose proof min_minute_neg.
    apply slots_loop_zero; lia.
  - intros Hneg Hf. apply strptime_range in Ha.
    pose proof max_minute_big. pose proof min_minute_neg.
    set (m := - n) in *. set (q := (a - min_minute) / m) in *.
    assert (Hq : 0 <= q) by (apply Z.div_pos; lia).
    pose proof (Z.mul_div_le (a - min_minute) m ltac:(lia)) as Hlo.
    pose proof (Z.mul_succ_div_gt (a - min_minute) m ltac:(lia)) as Hhi.
    fold q in Hlo, Hhi.
    apply (slots_loop_overflow b n Hneg (Z.to_nat q));
      rewrite ?Z2Nat.id by lia; unfold m in *; nia.
Qed.

Lemma generate_slots_nonpositive_witness :
  generate_slots 1000 (VStr "09:00") (VStr "10:00") 0 = NoFuel /\
  generate_slots 2 (VStr "09:00") (VStr "10:00") (-400000000)
  = Raise OverflowError.
Proof.
  split.
  - apply (generate_slots_nonpositive "09:00" "10:00" 540 600 0 1000);
      [reflexivity | reflexivity | lia | lia | reflexivity].
  - apply (generate_slots_nonpositive "09:00" "10:00" 540 600 (-400000000) 2);
      [reflexivity | reflexivity | lia | lia | lia | vm_compute; lia].
Defined.

Lemma get_horarios_office_hours (medico : row) (fuel : nat) :
  medico !! "start_time" = None -> medico !! "end_time" = None ->
  (16 <= fuel)%nat ->
  get_horarios_disponibles fuel medico = Ok office_hours.
Proof.
  intros Hs He Hf. unfold get_horarios_disponibles, dict_get.
  rewrite Hs, He.
  rewrite (generate_slots_unfold fuel (VStr "09:00") (VStr "17:00") 540 1020 30
             eq_refl eq_refl).
  pose proof max_minute_big. pose proof min_minute_neg.
  rewrite (slots_loop_run 1020 30 16); try lia. reflexivity.
Qed.

(** A doctor whose record has no working hours (neither
    "start_time" nor "end_time") is offered the sixteen half hours from
    09:00 to 16:30. *)
Theorem horarios_without_hours (medico : row) (fuel : nat) :
  medico !! "start_time" = None -> medico !! "end_time" = None ->
  (16 <= fuel)%nat ->
  get_horarios_disponibles fuel medico = Ok office_hours.
Proof. apply get_horarios_office_hours. Qed.

Lemma horarios_without_hours_witness :
  get_horarios_disponibles 48 (<["nombre" := VStr "Médico"]> ∅)
  = Ok office_hours.
Proof.
  apply (horarios_without_hours (<["nombre" := VStr "Médico"]> ∅) 48);
    [reflexivity | reflexivity | lia].
Defined.

End SlotEdges.

(** ** The Excel helpers: reads and failures *)

Section ExcelTheorems.

Variable (w : io).

(** X5.  [excel_append_row] raises exactly when pandas is missing
    ([RuntimeError]) or the file cannot be written ([OSError]), and then
    the disk is as before. *)
Theorem excel_append_row_failure (p : path) (r : row) (cols : list string)
    (d : disk) :
  ((exists ex, (excel_append_row w p r cols d).1 = Raise ex) <->
   (pandas w = false \/ writable w p = false)) /\
  (pandas w = false ->
   excel_append_row w p r cols d = (Raise RuntimeError, d)) /\
  (pandas w = true -> writable w p = false ->
   excel_append_row w p r cols d = (Raise OSError, d)).
Proof.
  rewrite excel_append_row_spec.
  destruct (pandas w), (writable w p); simpl; repeat split;
    try (intros [ex H]; discriminate); try discriminate; try reflexivity;
    eauto; intros [?|?]; discriminate.
Qed.

(** X6.  [excel_read] of a file that exists changes nothing on the disk
    and does not raise: without pandas it returns [None], for a sheet
    its frame, for a file pandas cannot read an empty frame with the
    default columns. *)
Theorem excel_read_existing (p : path) (cols : list string) (d : disk) :
  exists_ (disk_get p d) = true ->
  excel_read w p cols d
  = (Ok (if pandas w then Some (frame_or_empty cols (disk_get p d)) else None),
     d).
Proof.
  intros H. rewrite excel_read_spec.
  destruct (pandas w); simpl; [|reflexivity].
  by destruct (disk_get p d).
Qed.

End ExcelTheorems.

Lemma excel_append_row_failure_witness :
  excel_append_row (Io false (fun _ => true) strict_loc) PATI_F booked []
    (Disk Absent Absent Absent)
  = (Raise RuntimeError, Disk Absent Absent Absent).
Proof.
  apply (proj1 (proj2 (excel_append_row_failure (Io false (fun _ => true) strict_loc)
                         PATI_F booked [] (Disk Absent Absent Absent)))).
  reflexivity.
Defined.

Lemma excel_read_existing_witness :
  excel_read (Io true (fun _ => false) strict_loc) MED_F ["id"]
    (Disk Absent Absent Unreadable)
  = (Ok (Some (empty_frame ["id"])), Disk Absent Absent Unreadable).
Proof.
  apply (excel_read_existing (Io true (fun _ => false) strict_loc) MED_F ["id"]
           (Disk Absent Absent Unreadable)).
  reflexivity.
Defined.

(** ** [pago]: guards, QR image, name of the doctor, replay *)

Section PagoMore.

Lemma bind_raise {S A B} (m : ST S A) (k : A -> ST S B) s ex s' :
  m s = (Raise ex, s') -> (x ← m; k x) s = (Raise ex, s').
Proof. intros H. st_unfold. by rewrite H. Qed.

(** The lookup of the doctor's name leaves everything but the
    doctors file alone. *)
Lemma with_medico_nombre_frame (e : env) (cita : row) (w : world) :
  get_medico_by_id (utils e) = None ->
  exists cita' w',
    with_medico_nombre e cita w = (Ok cita', w') /\
    (cita' = cita \/ exists v, cita' = <["medico_nombre" := v]> cita) /\
    sess w' = sess w /\ flashes w' = flashes w /\
    cit_f (files w') = cit_f (files w) /\
    pati_f (files w') = pati_f (files w) /\
    citas_pendientes_mem w' = citas_pendientes_mem w /\
    qr_dir w' = qr_dir w /\ stdout w' = stdout w.
Proof.
  intros Hu. unfold with_medico_nombre. rewrite Hu.
  unfold on_files. st_unfold. rewrite excel_read_spec.
  destruct w as [s f d m q o]. destruct d as [c p md]. simpl.
  split_io; try no_fuel;
    (eexists _, _; split; [reflexivity|]; simpl; repeat split; eauto).
Qed.

(** X7.  [pago] records an appointment only for a POST of a logged-in
    patient whose draft has a time.  A visitor who is not a patient is
    sent to the login page, a draft without a time sends the patient
    back to the time step, a GET shows the payment page: in the first
    two cases the state gains the flashed message and nothing else, in
    the third it does not change at all. *)
Theorem pago_only_on_valid_post (e : env) (req : request) (w : world) :
  (not_paciente (sess w) = true ->
   pago e req w
   = (Ok (Redirect "/login"),
      flashed "Inicia sesión como paciente para pagar" "error" w)) /\
  (not_paciente (sess w) = false ->
   get_temp (sess w) !! "hora" = None ->
   pago e req w
   = (Ok (Redirect "/seleccionar_hora"),
      flashed "Selecciona hora antes de pagar" "error" w)) /\
  (not_paciente (sess w) = false ->
   is_Some (get_temp (sess w) !! "hora") ->
   method req = GET ->
   pago e req w = (Ok (RenderTemplate "pago.html" []), w)).
Proof.
  unfold pago. rewrite (bind_ok St.get _ w w w eq_refl).
  repeat split.
  - intros ->. reflexivity.
  - intros -> H. rewrite (has_key_false _ _ H). rewrite orb_true_r.
    reflexivity.
  - intros -> [h H] ->. rewrite (has_key_true _ _ _ H).
    rewrite bool_decide_eq_false_2.
    2:{ intros E. by rewrite E, lookup_empty in H. }
    reflexivity.
Qed.

Lemma pago_only_on_valid_post_witness :
  pago (env_of true true) (post ∅) (set_sess (Session None (Some draft))
                                     (world_of None Absent))
  = (Ok (Redirect "/login"),
     flashed "Inicia sesión como paciente para pagar" "error"
       (set_sess (Session None (Some draft)) (world_of None Absent))).
Proof.
  apply (proj1 (pago_only_on_valid_post (env_of true true) (post ∅)
                  (set_sess (Session None (Some draft))
                     (world_of None Absent)))).
  reflexivity.
Defined.

(** X8.  When the QR encoder is there and saving the image fails, a
    POST with the method "QR" does not answer: the exception leaves
    the route.  No appointment is recorded, neither in the sheet nor in
    the in-memory list, and the session still holds the draft. *)
Theorem pago_qr_failure_escapes (e : env) (req : request) (w : world)
    (u : user_info) (temp : row) (h : value) :
  user (sess w) = Some u -> rol u = VStr "paciente" ->
  reserva_temp (sess w) = Some temp -> temp !! "hora" = Some h ->
  method req = POST -> form req !! "metodo" = Some "QR" ->
  get_medico_by_id (utils e) = None ->
  QR_AVAILABLE e = true -> qr_save_ok e = false ->
  exists w',
    pago e req w = (Raise OSError, w') /\
    cit_f (files w') = cit_f (files w) /\
    citas_pendientes_mem w' = citas_pendientes_mem w /\
    sess w' = sess w /\ flashes w' = flashes w /\ qr_dir w' = qr_dir w.
Proof.
  intros Hu Hr Ht Hh Hm Hq Hn Hqa Hqs.
  destruct (with_medico_nombre_frame e (new_cita e u temp "QR") w Hn)
    as (c1 & w1 & E1 & _ & S1 & F1 & C1 & _ & M1 & Q1 & _).
  assert (Hb : build_cita e u temp "QR" w = (Raise OSError, w1)).
  { unfold build_cita. rewrite (bind_ok _ _ _ _ _ E1).
    unfold with_referencia, generate_qr_image. simpl String.eqb. cbv iota.
    rewrite Hqa, Hqs. reflexivity. }
  exists w1. split; [|by repeat split].
  unfold pago. rewrite (bind_ok St.get _ w w w eq_refl).
  unfold not_paciente, get_temp, form_metodo. rewrite Hu, Hr, Ht, Hq.
  rewrite bool_decide_eq_true_2 by done. cbn [negb].
  rewrite (has_key_true _ _ _ Hh).
  rewrite bool_decide_eq_false_2.
  2:{ intros ->. by rewrite lookup_empty in Hh. }
  cbn [negb orb]. rewrite Hm.
  by rewrite (bind_raise _ _ _ _ _ Hb).
Qed.

Lemma pago_qr_failure_escapes_witness :
  exists w',
    pago (env_qr true false) (post (<["metodo" := "QR"]> ∅))
         (world_of (Some draft) (citas_sheet [booked]))
    = (Raise OSError, w') /\
    cit_f (files w') = citas_sheet [booked] /\
    citas_pendientes_mem w' = [] /\
    reserva_temp (sess w') = Some draft.
Proof.
  destruct (pago_qr_failure_escapes (env_qr true false)
              (post (<["metodo" := "QR"]> ∅))
              (world_of (Some draft) (citas_sheet [booked]))
              ana draft (VStr "09:30"))
    as (w' & Hp & Hc & Hm & Hs & _); try reflexivity.
  exists w'. split; [exact Hp|]. rewrite Hc, Hm, Hs. by repeat split.
Defined.

(** The appointment [pago] builds and the QR image it writes on the
    way. *)
Lemma build_cita_qr (e : env) (u : user_info) (temp : row) (metodo : string)
    (w : world) :
  get_medico_by_id (utils e) = None ->
  (QR_AVAILABLE e = true -> qr_save_ok e = true) ->
  exists cita w1,
    build_cita e u temp metodo w = (Ok cita, w1) /\
    qr_dir w1
    = (if String.eqb metodo "QR" && QR_AVAILABLE e
       then <[(token_hex e 6 +:+ ".png")%string := qr_payload e]> (qr_dir w)
       else qr_dir w) /\
    (forall k, k <> "medico_nombre" -> k <> "referencia" ->
       cita !! k = new_cita e u temp metodo !! k) /\
    sess w1 = sess w /\ flashes w1 = flashes w /\
    cit_f (files w1) = cit_f (files w) /\
    citas_pendientes_mem w1 = citas_pendientes_mem w.
Proof.
  intros Hn Hqr. unfold build_cita.
  destruct (with_medico_nombre_frame e (new_cita e u temp metodo) w Hn)
    as (c1 & w1 & E1 & Hc1 & S1 & F1 & C1 & _ & M1 & Q1 & _).
  rewrite (bind_ok _ _ _ _ _ E1).
  assert (Hid : cell (<["referencia" := VStr (token_hex e 6)]> c1) "id"
                = VInt (utcnow_timestamp e)).
  { unfold cell. rewrite lookup_insert_ne by done.
    destruct Hc1 as [->|[v ->]]; [|rewrite lookup_insert_ne by done];
      unfold new_cita; by simplify_map_eq. }
  assert (Hk : forall k, k <> "medico_nombre" ->
                 c1 !! k = new_cita e u temp metodo !! k).
  { intros k Hk. destruct Hc1 as [->|[v ->]]; [done|].
    by rewrite lookup_insert_ne. }
  unfold with_referencia, generate_qr_image, save_qr.
  destruct (String.eqb metodo "QR"); simpl.
  - rewrite Hid. unfold qr_payload. simpl str. st_unfold.
    destruct (QR_AVAILABLE e) eqn:Q.
    + rewrite (Hqr eq_refl). eexists _, _. split; [reflexivity|]. simpl.
      repeat split; try done; [by rewrite Q1|].
      intros k H1 H2. rewrite lookup_insert_ne by done. by apply Hk.
    + eexists _, _. split; [reflexivity|]. simpl.
      repeat split; try done.
      intros k H1 H2. rewrite lookup_insert_ne by done. by apply Hk.
  - st_unfold. eexists _, _. split; [reflexivity|].
    repeat split; try done.
    intros k H1 H2. rewrite lookup_insert_ne by done. by apply Hk.
Qed.

(** X9.  A POST with the method "QR", when the encoder is there and the
    image can be saved, writes one image, named after the reference,
    that encodes "LimaMedic|ref:<reference>|id:<id>".  With another
    method, or without the encoder, no image is written. *)
Theorem pago_qr_image (e : env) (req : request) (w : world)
    (u : user_info) (temp : row) (h : value) :
  user (sess w) = Some u -> rol u = VStr "paciente" ->
  reserva_temp (sess w) = Some temp -> temp !! "hora" = Some h ->
  method req = POST ->
  utils e = no_utils ->
  (QR_AVAILABLE e = true -> qr_save_ok e = true) ->
  exists w',
    pago e req w = (Ok (Redirect "/citas_pendientes"), w') /\
    (form_metodo req = "QR" -> QR_AVAILABLE e = true ->
     qr_dir w'
     = <[(token_hex e 6 +:+ ".png")%string := qr_payload e]> (qr_dir w)) /\
    (form_metodo req <> "QR" \/ QR_AVAILABLE e = false ->
     qr_dir w' = qr_dir w).
Proof.
  intros Hu Hr Ht Hh Hm Hn Hqr.
  assert (Hg : get_medico_by_id (utils e) = None) by (by rewrite Hn).
  destruct (build_cita_qr e u temp (form_metodo req) w Hg Hqr)
    as (cita & w1 & Hb & Hq & _).
  assert (Hs : save_cita (utils e) = None) by (by rewrite Hn).
  pose proof (persist_cita_spec e cita w1 Hs) as Hp.
  eexists. split; [exact (pago_post_run e req w w1 _ u temp cita h
                            Hu Hr Ht Hh Hm Hb Hp)|].
  assert (Q : forall b : bool,
            qr_dir (if b
                    then World (sess w1) (flashes w1)
                           (disk_set CIT_F
                              (Sheet (concat_row
                                        (frame_or_empty cita_columns
                                           (cit_f (files w1))) cita))
                              (files w1))
                           (citas_pendientes_mem w1) (qr_dir w1) (stdout w1)
                    else World (sess w1) (flashes w1) (files w1)
                           (citas_pendientes_mem w1 ++ [cita]) (qr_dir w1)
                           (stdout w1 ++
                              [("Error al persistir en Excel:",
                                if pandas (xl e) then OSError
                                else RuntimeError)]))
            = qr_dir w1) by (by intros []).
  simpl. rewrite Q, Hq. split.
  - intros -> ->. reflexivity.
  - intros [Hne| ->]; [|by rewrite andb_false_r].
    by destruct (String.eqb_spec (form_metodo req) "QR").
Qed.

Lemma pago_qr_image_witness :
  exists w',
    pago (env_qr true true) (post (<["metodo" := "QR"]> ∅))
         (world_of (Some draft) Absent)
    = (Ok (Redirect "/citas_pendientes"), w') /\
    qr_dir w'
    = <["a7a7a7a7a7a7.png" :=
          "LimaMedic|ref:a7a7a7a7a7a7|id:1714550000"]> ∅.
Proof.
  destruct (pago_qr_image (env_qr true true) (post (<["metodo" := "QR"]> ∅))
              (world_of (Some draft) Absent) ana draft (VStr "09:30"))
    as (w' & Hp & Hq & _); try reflexivity.
  exists w'. split; [exact Hp|]. rewrite Hq by reflexivity.
  vm_compute. reflexivity.
Defined.

(** X10.  The name of the doctor, without [utils_excel]: when the
    doctors sheet has the columns "id" and "nombre" and a row with the
    id of the draft, the appointment gets the name of the first such
    row; when no row has the id, or pandas is missing, the name stays
    empty and the appointment is built all the same. *)
Theorem pago_medico_nombre (e : env) (cita : row) (w : world) (df : frame) :
  get_medico_by_id (utils e) = None ->
  med_f (files w) = Sheet df ->
  "id" ∈ columns df -> "nombre" ∈ columns df ->
  (pandas (xl e) = true ->
   forall r rest,
     List.filter (fun r => cell_eq (cell r "id") (cell cita "medico_id"))
                 (rows df) = r :: rest ->
     with_medico_nombre e cita w
     = (Ok (<["medico_nombre" := cell r "nombre"]> cita), w)) /\
  (List.filter (fun r => cell_eq (cell r "id") (cell cita "medico_id"))
               (rows df) = [] ->
   with_medico_nombre e cita w = (Ok cita, w)) /\
  (pandas (xl e) = false -> with_medico_nombre e cita w = (Ok cita, w)).
Proof.
  intros Hu Hf Hid Hnom.
  unfold with_medico_nombre. rewrite Hu.
  unfold on_files. st_unfold. rewrite excel_read_spec.
  destruct w as [s f [c p md] m q o]. simpl in Hf. subst md.
  cbn [files sess flashes citas_pendientes_mem qr_dir stdout disk_get
       med_f cit_f pati_f].
  set (mask := fun r : row => cell_eq (cell r "id") (cell cita "medico_id")).
  assert (Hcol : col_eq df "id" (cell cita "medico_id") = Ok mask).
  { unfold col_eq. by rewrite bool_decide_eq_true_2. }
  assert (Hcols : bool_decide (columns df = ∅) = false).
  { apply bool_decide_eq_false_2. set_solver. }
  repeat split.
  - intros Hp r rest Hfil. rewrite Hp. cbn [negb].
    assert (E1 : df_empty df = false).
    { unfold df_empty. destruct (rows df); [discriminate|exact Hcols]. }
    assert (E2 : df_empty (df_filter df mask) = false).
    { unfold df_empty, df_filter. simpl. by rewrite Hfil. }
    assert (E3 : iloc0 (df_filter df mask) = Ok r).
    { unfold iloc0, df_filter. simpl. by rewrite Hfil. }
    assert (E4 : row_getitem (df_filter df mask) r "nombre"
                 = Ok (cell r "nombre")).
    { unfold row_getitem, df_filter. simpl.
      by rewrite bool_decide_eq_true_2. }
    rewrite E1. cbn [negb]. rewrite Hcol, E2. cbn [negb].
    rewrite E3, E4. reflexivity.
  - intros Hfil. destruct (pandas (xl e)); cbn [negb]; [|reflexivity].
    destruct (df_empty df); cbn [negb]; [reflexivity|].
    rewrite Hcol.
    assert (E2 : df_empty (df_filter df mask) = true).
    { unfold df_empty, df_filter. simpl. by rewrite Hfil. }
    rewrite E2. reflexivity.
  - intros ->. reflexivity.
Qed.

Lemma pago_medico_nombre_witness :
  with_medico_nombre (env_of true true)
    (new_cita (env_of true true) ana draft "EFECTIVO")
    (World (Session (Some ana) (Some draft)) []
           (Disk Absent Absent (medicos_sheet [dr_vega])) [] ∅ [])
  = (Ok (<["medico_nombre" := VStr "Dra. Vega"]>
           (new_cita (env_of true true) ana draft "EFECTIVO")),
     World (Session (Some ana) (Some draft)) []
           (Disk Absent Absent (medicos_sheet [dr_vega])) [] ∅ []).
Proof.
  apply (proj1 (pago_medico_nombre (env_of true true)
                  (new_cita (env_of true true) ana draft "EFECTIVO")
                  (World (Session (Some ana) (Some draft)) []
                     (Disk Absent Absent (medicos_sheet [dr_vega])) [] ∅ [])
                  (Frame (list_to_set ["id"; "username"; "nombre";
                                       "especialidad"; "start_time";
                                       "end_time"; "sede"]) [dr_vega])
                  eq_refl eq_refl ltac:(vm_compute; set_solver)
                  ltac:(vm_compute; set_solver)) eq_refl dr_vega []).
  vm_compute. reflexivity.
Defined.

(** The state a POST that passed the guards leaves, from the
    appointment built and the state after building it. *)
Lemma pago_post_spec (e : env) (req : request) (w : world)
    (u : user_info) (temp : row) (h : value) :
  user (sess w) = Some u -> rol u = VStr "paciente" ->
  reserva_temp (sess w) = Some temp -> temp !! "hora" = Some h ->
  method req = POST ->
  utils e = no_utils ->
  (QR_AVAILABLE e = true -> qr_save_ok e = true) ->
  exists cita w',
    pago e req w = (Ok (Redirect "/citas_pendientes"), w') /\
    sess w' = Session (Some u) None /\
    ((stored_rows (cit_f (files w'))
      = (stored_rows (cit_f (files w)) ++ [cita])%list /\
      citas_pendientes_mem w' = citas_pendientes_mem w) \/
     (citas_pendientes_mem w' = (citas_pendientes_mem w ++ [cita])%list /\
      cit_f (files w') = cit_f (files w))) /\
    (forall k, k <> "medico_nombre" -> k <> "referencia" ->
       cita !! k = new_cita e u temp (form_metodo req) !! k).
Proof.
  intros Hu Hr Ht Hh Hm Hn Hqr.
  destruct (build_cita_spec e u temp (form_metodo req) w Hn Hqr)
    as (cita & w1 & Hb & Hk & _ & Hs1 & _ & Hc & Hmem & _).
  assert (Hs : save_cita (utils e) = None) by (by rewrite Hn).
  pose proof (persist_cita_spec e cita w1 Hs) as Hp.
  eexists cita, _. split; [exact (pago_post_run e req w w1 _ u temp cita h
                                    Hu Hr Ht Hh Hm Hb Hp)|].
  destruct (pandas (xl e) && writable (xl e) CIT_F); simpl;
    rewrite ?stored_rows_frame_or_empty, Hs1, Hu, Hc, Hmem;
    repeat split; auto.
Qed.

(** X11.  Whether a POST to [pago] can be repeated is decided by the
    session the request carries, and by nothing the server keeps.  The
    answer to a POST that recorded an appointment carries a session
    without the draft: every request to [pago] that carries that
    session only flashes "Selecciona hora antes de pagar" and redirects
    to the time step.  A POST that carries the session of the first
    request again (the cookie as it was before the answer) passes the
    guards again and records a second appointment for the same user,
    doctor, date and time. *)
Theorem pago_replay_by_session (e : env) (req : request) (w : world)
    (u : user_info) (temp : row) (h : value) :
  user (sess w) = Some u -> rol u = VStr "paciente" ->
  reserva_temp (sess w) = Some temp -> temp !! "hora" = Some h ->
  method req = POST ->
  utils e = no_utils ->
  (QR_AVAILABLE e = true -> qr_save_ok e = true) ->
  exists w1,
    pago e req w = (Ok (Redirect "/citas_pendientes"), w1) /\
    sess w1 = Session (Some u) None /\
    (forall e2 req2 w2,
       sess w2 = sess w1 ->
       pago e2 req2 w2
       = (Ok (Redirect "/seleccionar_hora"),
          flashed "Selecciona hora antes de pagar" "error" w2)) /\
    (forall e2 req2 w2,
       sess w2 = sess w ->
       method req2 = POST -> utils e2 = no_utils ->
       (QR_AVAILABLE e2 = true -> qr_save_ok e2 = true) ->
       exists cita2 w3,
         pago e2 req2 w2 = (Ok (Redirect "/citas_pendientes"), w3) /\
         ((stored_rows (cit_f (files w3))
           = (stored_rows (cit_f (files w2)) ++ [cita2])%list /\
           citas_pendientes_mem w3 = citas_pendientes_mem w2) \/
          (citas_pendientes_mem w3 = (citas_pendientes_mem w2 ++ [cita2])%list /\
           cit_f (files w3) = cit_f (files w2))) /\
         cita2 !! "usuario" = Some (username u) /\
         cita2 !! "medico_id" = Some (get_or_none temp "medico_id") /\
         cita2 !! "fecha" = Some (get_or_none temp "fecha") /\
         cita2 !! "hora" = Some (get_or_none temp "hora")).
Proof.
  intros Hu Hr Ht Hh Hm Hn Hqr.
  destruct (pago_post_spec e req w u temp h Hu Hr Ht Hh Hm Hn Hqr)
    as (cita & w1 & Hp & Hs & _).
  exists w1. split; [exact Hp|]. split; [exact Hs|]. split.
  - intros e2 req2 w2 H2. unfold pago.
    rewrite (bind_ok St.get _ w2 w2 w2 eq_refl).
    unfold not_paciente, get_temp. rewrite H2, Hs. simpl. rewrite Hr.
    rewrite bool_decide_eq_true_2 by done. reflexivity.
  - intros e2 req2 w2 H2 Hm2 Hn2 Hqr2.
    rewrite <- H2 in Hu, Ht.
    destruct (pago_post_spec e2 req2 w2 u temp h Hu Hr Ht Hh Hm2 Hn2 Hqr2)
      as (cita2 & w3 & Hp2 & _ & Hrec & Hk).
    exists cita2, w3. split; [exact Hp2|]. split; [exact Hrec|].
    repeat split; rewrite Hk by done; unfold new_cita; by simplify_map_eq.
Qed.

Lemma pago_replay_by_session_witness :
  exists (w1 : world) (cita2 : row) (w3 : world),
    pago (env_of true true) (post ∅) (world_of (Some draft) Absent)
    = (Ok (Redirect "/citas_pendientes"), w1) /\
    pago (env_of true true) (post ∅) w1
    = (Ok (Redirect "/seleccionar_hora"),
       flashed "Selecciona hora antes de pagar" "error" w1) /\
    pago (env_of true true) (post ∅)
      (set_sess (sess (world_of (Some draft) Absent)) w1)
    = (Ok (Redirect "/citas_pendientes"), w3) /\
    cita2 !! "hora" = Some (VStr "09:30").
Proof.
  destruct (pago_replay_by_session (env_of true true) (post ∅)
              (world_of (Some draft) Absent) ana draft (VStr "09:30"))
    as (w1 & Hp & _ & Hnew & Hold);
    [reflexivity | reflexivity | reflexivity | reflexivity | reflexivity
    | reflexivity | discriminate |].
  destruct (Hold (env_of true true) (post ∅)
              (set_sess (sess (world_of (Some draft) Absent)) w1))
    as (cita2 & w3 & Hp2 & _ & _ & _ & _ & Hh);
    [reflexivity | reflexivity | reflexivity | discriminate |].
  exists w1, cita2, w3. split; [exact Hp|].
  split; [apply Hnew; reflexivity|]. split; [exact Hp2|exact Hh].
Defined.

(** X12.  The appointment a POST records is the one of the logged-in
    patient: its "usuario" and "nombre_paciente" are the user name and
    the name of the session, its "id" is the clock reading of the
    request, and its "especialidad" and "metodo_pago" are those of the
    draft and of the form ("EFECTIVO" when the form has none). *)
Theorem pago_records_owner (e : env) (req : request) (w : world)
    (u : user_info) (temp : row) (h : value) :
  user (sess w) = Some u -> rol u = VStr "paciente" ->
  reserva_temp (sess w) = Some temp -> temp !! "hora" = Some h ->
  method req = POST ->
  utils e = no_utils ->
  (QR_AVAILABLE e = true -> qr_save_ok e = true) ->
  exists cita w',
    pago e req w = (Ok (Redirect "/citas_pendientes"), w') /\
    ((stored_rows (cit_f (files w'))
      = (stored_rows (cit_f (files w)) ++ [cita])%list /\
      citas_pendientes_mem w' = citas_pendientes_mem w) \/
     (citas_pendientes_mem w' = (citas_pendientes_mem w ++ [cita])%list /\
      cit_f (files w') = cit_f (files w))) /\
    cita !! "usuario" = Some (username u) /\
    cita !! "nombre_paciente" = Some (nombre u) /\
    cita !! "id" = Some (VInt (utcnow_timestamp e)) /\
    cita !! "especialidad" = Some (get_or_none temp "especialidad") /\
    cita !! "metodo_pago"
    = Some (VStr (match form req !! "metodo" with
                  | Some m => m
                  | None => "EFECTIVO"
                  end)).
Proof.
  intros Hu Hr Ht Hh Hm Hn Hqr.
  destruct (pago_post_spec e req w u temp h Hu Hr Ht Hh Hm Hn Hqr)
    as (cita & w' & Hp & _ & Hrec & Hk).
  exists cita, w'. split; [exact Hp|]. split; [exact Hrec|].
  repeat split; rewrite Hk by done; unfold new_cita; by simplify_map_eq.
Qed.

Lemma pago_records_owner_witness :
  exists (cita : row) (w' : world),
    pago (env_of true false) (post ∅) (world_of (Some draft) Absent)
    = (Ok (Redirect "/citas_pendientes"), w') /\
    cita !! "usuario" = Some (VStr "ana") /\
    cita !! "metodo_pago" = Some (VStr "EFECTIVO").
Proof.
  destruct (pago_records_owner (env_of true false) (post ∅)
              (world_of (Some draft) Absent) ana draft (VStr "09:30"))
    as (cita & w' & Hp & _ & Hu & _ & _ & _ & Hm);
    try reflexivity; try discriminate.
  exists cita, w'. repeat split; assumption.
Defined.

End PagoMore.

(** ** [seleccionar_hora]: what it accepts and what it shows *)

Section HoraMore.

(** Finding the doctor, without [utils_excel]: it always returns and
    touches at most the doctors file. *)
Lemma find_medico_frame (e : env) (temp : row) (w : world) :
  get_medico_by_id (utils e) = None ->
  exists medico w',
    find_medico e temp w = (Ok medico, w') /\
    sess w' = sess w /\ flashes w' = flashes w /\
    cit_f (files w') = cit_f (files w) /\
    pati_f (files w') = pati_f (files w) /\
    citas_pendientes_mem w' = citas_pendientes_mem w /\
    qr_dir w' = qr_dir w /\ stdout w' = stdout w.
Proof.
  intros Hu. unfold find_medico. rewrite Hu.
  unfold on_files. st_unfold. rewrite excel_read_spec.
  destruct w as [s f [c p md] m q o]. simpl.
  split_io; try no_fuel;
    (eexists _, _; split; [reflexivity|]; simpl; repeat split; eauto).
Qed.

(** The route past its guard, from the doctor found. *)
Lemma seleccionar_hora_run (e : env) (req : request) (w w1 : world)
    (temp medico : row) (v : value) :
  reserva_temp (sess w) = Some temp -> temp !! "medico_id" = Some v ->
  find_medico e temp w = (Ok medico, w1) ->
  exists horarios,
    get_horarios_disponibles slot_fuel medico = Ok horarios /\
    seleccionar_hora e req w =
    match method req with
    | POST =>
        if negb (truthy (form_get req "hora"))
        then (Ok (Redirect "/seleccionar_hora"),
              flashed "Selecciona una hora" "error" w1)
        else (Ok (Redirect "/confirmar_cita"),
              set_sess (Session (user (sess w))
                          (Some (<["hora" := form_get req "hora"]> temp))) w1)
    | GET => (Ok (RenderTemplate "seleccionar_hora.html" horarios), w1)
    end.
Proof.
  intros Ht Hm Hf.
  destruct (get_horarios_disponibles_total medico) as [horarios Hh].
  exists horarios. split; [exact Hh|].
  unfold seleccionar_hora. rewrite (bind_ok St.get _ w w w eq_refl).
  unfold get_temp. rewrite Ht. rewrite (has_key_true _ _ _ Hm). cbn [negb].
  rewrite (bind_ok _ _ _ _ _ Hf).
  rewrite (bind_ok (St.pure (get_horarios_disponibles slot_fuel medico))
             _ w1 horarios w1) by (unfold St.pure; by rewrite Hh).
  destruct (method req); [reflexivity|].
  destruct (truthy (form_get req "hora")); reflexivity.
Qed.

(** X13.  A POST to [seleccionar_hora] by a visitor whose draft has a
    doctor: any non-empty "hora" of the form is stored in the draft as
    it is (it is not compared with the slots offered) and the answer
    redirects to the confirmation; without "hora", or with an empty
    one, the answer flashes "Selecciona una hora", redirects back and
    the draft is as before.  The appointments file and the in-memory
    list are untouched in both cases. *)
Theorem seleccionar_hora_post (e : env) (req : request) (w : world)
    (temp : row) (v : value) :
  get_medico_by_id (utils e) = None ->
  reserva_temp (sess w) = Some temp -> temp !! "medico_id" = Some v ->
  method req = POST ->
  exists w',
    cit_f (files w') = cit_f (files w) /\
    citas_pendientes_mem w' = citas_pendientes_mem w /\
    (forall h, form req !! "hora" = Some h -> h <> "" ->
       seleccionar_hora e req w = (Ok (Redirect "/confirmar_cita"), w') /\
       sess w'
       = Session (user (sess w)) (Some (<["hora" := VStr h]> temp))) /\
    (form req !! "hora" = None \/ form req !! "hora" = Some "" ->
       seleccionar_hora e req w
       = (Ok (Redirect "/seleccionar_hora"),
          flashed "Selecciona una hora" "error" w') /\
       sess w' = sess w).
Proof.
  intros Hu Ht Hm Hp.
  destruct (find_medico_frame e temp w Hu)
    as (medico & w1 & Hf & S1 & F1 & C1 & P1 & M1 & Q1 & O1).
  destruct (seleccionar_hora_run e req w w1 temp medico v Ht Hm Hf)
    as (horarios & _ & Hrun).
  rewrite Hp in Hrun. unfold form_get in Hrun.
  destruct (form req !! "hora") as [h|] eqn:Hh.
  - destruct (String.eqb_spec h "") as [->|Hne].
    + exists w1. split; [done|]. split; [done|]. split.
      * intros h' [= <-] Hne. done.
      * intros _. simpl in Hrun. by split.
    + exists (set_sess (Session (user (sess w))
                          (Some (<["hora" := VStr h]> temp))) w1).
      assert (Ht' : truthy (VStr h) = true).
      { simpl. by destruct (String.eqb_spec h ""). }
      rewrite Ht' in Hrun. simpl in Hrun.
      split; [done|]. split; [done|]. split.
      * intros h' [= <-] _. by split.
      * intros [H|[= H]]; [discriminate|done].
  - exists w1. split; [done|]. split; [done|]. split.
    + intros h' H. discriminate.
    + intros _. simpl in Hrun. by split.
Qed.

Lemma seleccionar_hora_post_witness :
  exists w',
    seleccionar_hora (env_of false true) (post (<["hora" := "25:99"]> ∅))
      (world_of (Some (<["medico_id" := VInt 3]> ∅)) Absent)
    = (Ok (Redirect "/confirmar_cita"), w') /\
    reserva_temp (sess w')
    = Some (<["hora" := VStr "25:99"]> (<["medico_id" := VInt 3]> ∅)).
Proof.
  destruct (seleccionar_hora_post (env_of false true)
              (post (<["hora" := "25:99"]> ∅))
              (world_of (Some (<["medico_id" := VInt 3]> ∅)) Absent)
              (<["medico_id" := VInt 3]> ∅) (VInt 3))
    as (w' & _ & _ & Hok & _); try reflexivity.
  destruct (Hok "25:99") as [Hrun Hs]; [reflexivity|discriminate|].
  exists w'. split; [exact Hrun|]. by rewrite Hs.
Defined.

(** X14.  The slots a GET of [seleccionar_hora] shows, without
    [utils_excel]: when the doctors sheet has the column "id" and a row
    with the id of the draft, they are the slots of the first such row;
    when pandas is missing they are the half hours from 09:00 to 16:30
    and the state does not change. *)
Theorem seleccionar_hora_shows_slots (e : env) (req : request) (w : world)
    (temp : row) (v : value) :
  get_medico_by_id (utils e) = None ->
  reserva_temp (sess w) = Some temp -> temp !! "medico_id" = Some v ->
  method req = GET ->
  (pandas (xl e) = true ->
   forall df r rest,
     med_f (files w) = Sheet df -> "id" ∈ columns df ->
     List.filter (fun r => cell_eq (cell r "id") v) (rows df) = r :: rest ->
     exists horarios,
       get_horarios_disponibles slot_fuel (to_dict df r) = Ok horarios /\
       seleccionar_hora e req w
       = (Ok (RenderTemplate "seleccionar_hora.html" horarios), w)) /\
  (pandas (xl e) = false ->
   seleccionar_hora e req w
   = (Ok (RenderTemplate "seleccionar_hora.html" office_hours), w)).
Proof.
  intros Hu Ht Hm Hg. split.
  - intros Hp df r rest Hf Hid Hfil.
    assert (Hfind : find_medico e temp w = (Ok (to_dict df r), w)).
    { unfold find_medico. rewrite Hu. unfold on_files. st_unfold.
      rewrite excel_read_spec, Hp.
      destruct w as [s f [c p md] m q o]. simpl in Hf. subst md.
      cbn [files sess flashes citas_pendientes_mem qr_dir stdout disk_get
           med_f cit_f pati_f negb].
      assert (E1 : df_empty df = false).
      { unfold df_empty. destruct (rows df); [discriminate|].
        apply bool_decide_eq_false_2. set_solver. }
      assert (Hc : cell temp "medico_id" = v)
        by (unfold cell; by rewrite Hm).
      rewrite E1, Hc. cbn [negb]. unfold col_eq.
      rewrite bool_decide_eq_true_2 by done.
      unfold iloc0, df_filter. simpl. rewrite Hfil. reflexivity. }
    destruct (seleccionar_hora_run e req w w temp _ v Ht Hm Hfind)
      as (horarios & Hh & Hrun).
    rewrite Hg in Hrun. eauto.
  - intros Hp.
    assert (Hfind : find_medico e temp w
                    = (Ok (<["id" := get_or_none temp "medico_id"]>
                             (<["nombre" := VStr "Médico"]> ∅)), w)).
    { unfold find_medico. rewrite Hu. unfold on_files. st_unfold.
      rewrite excel_read_spec, Hp. by destruct w. }
    destruct (seleccionar_hora_run e req w w temp _ v Ht Hm Hfind)
      as (horarios & Hh & Hrun).
    rewrite Hg in Hrun. rewrite Hrun. do 3 f_equal.
    rewrite (get_horarios_office_hours _ slot_fuel) in Hh;
      [congruence| | |unfold slot_fuel; lia];
      by rewrite !lookup_insert_ne.
Qed.

Lemma seleccionar_hora_shows_slots_witness :
  seleccionar_hora (env_of true true) (Request GET ∅ None)
    (World (Session (Some ana) (Some (<["medico_id" := VInt 3]> ∅))) []
           (Disk Absent Absent (medicos_sheet [dr_vega])) [] ∅ [])
  = (Ok (RenderTemplate "seleccionar_hora.html" ["09:00"; "09:30"; "10:00"]),
     World (Session (Some ana) (Some (<["medico_id" := VInt 3]> ∅))) []
           (Disk Absent Absent (medicos_sheet [dr_vega])) [] ∅ []).
Proof.
  destruct (seleccionar_hora_shows_slots (env_of true true)
              (Request GET ∅ None)
              (World (Session (Some ana)
                        (Some (<["medico_id" := VInt 3]> ∅))) []
                 (Disk Absent Absent (medicos_sheet [dr_vega])) [] ∅ [])
              (<["medico_id" := VInt 3]> ∅) (VInt 3)) as [H _];
    [reflexivity | reflexivity | vm_compute; reflexivity | reflexivity |].
  destruct (H eq_refl
              (Frame (list_to_set ["id"; "username"; "nombre"; "especialidad";
                                   "start_time"; "end_time"; "sede"])
                     [dr_vega])
              dr_vega []) as (horarios & Hh & Hrun);
    [reflexivity | vm_compute; set_solver | vm_compute; reflexivity |].
  rewrite Hrun. vm_compute in Hh. injection Hh as <-. reflexivity.
Defined.

End HoraMore.

(** ** [marcar_atendido]: when it reports success, and who may call it *)

Section MarcarMore.

(** X15.  Without [utils_excel], [marcar_atendido] always answers with
    a redirect, to the referrer when the request has one and to "/"
    otherwise, and flashes one message.  The message is the success
    message exactly when pandas is there, the appointments file is a
    sheet that is not empty and has the column "id", pandas accepts the
    assignment to "estado" and the file can be written; in every other
    case it is "No se pudo actualizar" and the rows of the sheet are as
    before. *)
Theorem marcar_atendido_outcome (e : env) (req : request) (cita_id : Z)
    (w : world) :
  marcar_cita_atendida (utils e) = None ->
  exists (ok : bool) (w' : world),
    marcar_atendido e req cita_id w
    = (Ok (Redirect (match referrer req with
                     | Some r => if String.eqb r "" then "/" else r
                     | None => "/"
                     end)), w') /\
    flashes w'
    = (flashes w ++
         [(if ok then "Cita marcada como atendida" else "No se pudo actualizar",
           if ok then "success" else "error")])%list /\
    (ok = true <->
     pandas (xl e) = true /\ writable (xl e) CIT_F = true /\
     exists df, cit_f (files w) = Sheet df /\ df_empty df = false /\
                "id" ∈ columns df /\
                loc_accepts (xl e) df (has_id cita_id) "estado"
                  (VStr "Atendido") = true) /\
    (ok = false ->
     stored_rows (cit_f (files w')) = stored_rows (cit_f (files w))).
Proof.
  intros Hu. pose proof (marcar_try_spec e cita_id w Hu) as Ht.
  assert (exists ok w1,
            marcar_try e cita_id w = (Ok ok, w1) /\
            flashes w1 = flashes w /\
            (ok = true <->
             pandas (xl e) = true /\ writable (xl e) CIT_F = true /\
             exists df, cit_f (files w) = Sheet df /\ df_empty df = false /\
                        "id" ∈ columns df /\
                        loc_accepts (xl e) df (has_id cita_id) "estado"
                          (VStr "Atendido") = true) /\
            (ok = false ->
             stored_rows (cit_f (files w1)) = stored_rows (cit_f (files w))))
    as (ok & w1 & Hok & Hfl & Hiff & Hrows).
  { rewrite Ht. clear Ht.
    destruct (pandas (xl e)) eqn:P.
    2:{ exists false, w. repeat split; try done. by intros (? & _). }
    destruct (cit_f (files w)) as [| |df] eqn:Hf.
    - destruct (writable (xl e) CIT_F); eexists false, _;
        (split; [reflexivity|]); simpl; rewrite ?Hf;
        repeat split; try done; by intros (_ & _ & ? & ? & _).
    - exists false, w. rewrite Hf.
      repeat split; try done; by intros (_ & _ & ? & ? & _).
    - destruct (df_empty df) eqn:He.
      { exists false, w. rewrite Hf. repeat split; try done.
        intros (_ & _ & df' & [= <-] & He' & _). congruence. }
      destruct (bool_decide ("id" ∈ columns df)) eqn:Hid.
      2:{ exists false, w. rewrite Hf. repeat split; try done.
          intros (_ & _ & df' & [= <-] & _ & Hin & _).
          by apply bool_decide_eq_false in Hid. }
      apply bool_decide_eq_true in Hid.
      destruct (loc_accepts (xl e) df (has_id cita_id) "estado"
                  (VStr "Atendido")) eqn:Hacc.
      2:{ exists false, w. rewrite Hf. repeat split; try done.
          intros (_ & _ & df' & [= <-] & _ & _ & Ha). congruence. }
      destruct (writable (xl e) CIT_F) eqn:W.
      + eexists true, _. split; [reflexivity|]. simpl.
        repeat split; try done. eauto 10.
      + exists false, w. rewrite Hf. repeat split; try done.
        by intros (_ & ? & _). }
  exists ok. eexists. split.
  - unfold marcar_atendido. rewrite (bind_ok _ _ _ _ _ Hok).
    unfold flash, url_for. st_unfold. reflexivity.
  - simpl. rewrite Hfl. repeat split; try apply Hiff; done.
Qed.

Lemma marcar_atendido_outcome_witness :
  exists (ok : bool) (w' : world),
    marcar_atendido (env_of false true) (Request GET ∅ (Some "/dashboard/medico"))
                    1714000000 (world_of None (citas_sheet [booked]))
    = (Ok (Redirect "/dashboard/medico"), w') /\
    flashes w'
    = [(if ok then "Cita marcada como atendida" else "No se pudo actualizar",
        if ok then "success" else "error")].
Proof.
  destruct (marcar_atendido_outcome (env_of false true)
              (Request GET ∅ (Some "/dashboard/medico")) 1714000000
              (world_of None (citas_sheet [booked])) eq_refl)
    as (ok & w' & Hrun & Hfl & _).
  exists ok, w'. split; [exact Hrun|exact Hfl].
Defined.

(** The [try] block does not look at the session. *)
Lemma marcar_try_session (e : env) (cita_id : Z) (w : world) (s : session) :
  marcar_try e cita_id (set_sess s w)
  = ((marcar_try e cita_id w).1, set_sess s (marcar_try e cita_id w).2).
Proof.
  unfold marcar_try, on_files, set_sess. st_unfold.
  destruct (marcar_cita_atendida (utils e)) as [hook|].
  - simpl. destruct (hook cita_id (files w)) as [[ok|ex|] d]; reflexivity.
  - destruct w as [s0 f [c p md] m q o]. simpl.
    rewrite !excel_read_spec. unfold to_excel. simpl.
    destruct (pandas (xl e)); simpl; [|reflexivity].
    destruct c as [| |df]; simpl;
      [destruct (writable (xl e) CIT_F); reflexivity|reflexivity|].
    destruct (df_empty df); simpl; [reflexivity|].
    destruct (col_eq df "id" (VInt cita_id)); simpl; try reflexivity.
    unfold loc_setitem. destruct (loc_accepts _ _ _ _ _); simpl;
      [|reflexivity].
    destruct (writable (xl e) CIT_F); reflexivity.
Qed.

(** X16.  [marcar_atendido] does not look at the session: whoever is
    logged in, or nobody, the answer and the files afterwards are the
    same, and the session is left as it was. *)
Theorem marcar_atendido_ignores_session (e : env) (req : request)
    (cita_id : Z) (w : world) (s : session) :
  (marcar_atendido e req cita_id (set_sess s w)).1
  = (marcar_atendido e req cita_id w).1 /\
  files (marcar_atendido e req cita_id (set_sess s w)).2
  = files (marcar_atendido e req cita_id w).2 /\
  sess (marcar_atendido e req cita_id (set_sess s w)).2 = s /\
  sess (marcar_atendido e req cita_id w).2 = sess w.
Proof.
  unfold marcar_atendido, flash. st_unfold.
  rewrite marcar_try_session.
  assert (Hs : sess (marcar_try e cita_id w).2 = sess w).
  { unfold marcar_try, on_files. st_unfold.
    destruct (marcar_cita_atendida (utils e)) as [hook|].
    - simpl. destruct (hook cita_id (files w)) as [[ok|ex|] d]; reflexivity.
    - destruct w as [s0 f [c p md] m q o]. simpl.
      rewrite !excel_read_spec. unfold to_excel. simpl.
      destruct (pandas (xl e)); simpl; [|reflexivity].
      destruct c as [| |df]; simpl;
        [destruct (writable (xl e) CIT_F); reflexivity|reflexivity|].
      destruct (df_empty df); simpl; [reflexivity|].
      destruct (col_eq df "id" (VInt cita_id)); simpl; try reflexivity.
      unfold loc_setitem. destruct (loc_accepts _ _ _ _ _); simpl;
        [|reflexivity].
      destruct (writable (xl e) CIT_F); reflexivity. }
  destruct (marcar_try e cita_id w) as [[ok|ex|] w1]; simpl in *;
    repeat split; done.
Qed.

End MarcarMore.

(** ** The wizard: [logout], [seleccionar_medico], and the steps together *)

Import Views ViewsVocab.

Section WizardMore.


(** Listing the doctors of the specialty, without [utils_excel]: it
    always returns and touches at most the doctors file. *)
Lemma med_list_of_frame (d : deps) (temp : row) (w : world) :
  medicos_by_especialidad (more d) = None ->
  exists l w',
    med_list_of d temp w = (Ok l, w') /\
    sess w' = sess w /\ flashes w' = flashes w /\
    cit_f (files w') = cit_f (files w) /\
    pati_f (files w') = pati_f (files w) /\
    citas_pendientes_mem w' = citas_pendientes_mem w /\
    qr_dir w' = qr_dir w /\ stdout w' = stdout w /\
    (exists_ (med_f (files w)) = true -> w' = w).
Proof.
  intros Hu. unfold med_list_of. rewrite Hu.
  unfold on_files. st_unfold. rewrite excel_read_spec.
  destruct w as [s f [c p md] m q o]. simpl.
  split_io; try no_fuel;
    (eexists _, _; split; [reflexivity|]; simpl; repeat split; eauto;
     discriminate).
Qed.

(** The route past its guard, from the state the listing leaves. *)
Lemma seleccionar_medico_run (d : deps) (req : request) (w w1 : world)
    (u : user_info) (temp : row) (l : list row) :
  user (sess w) = Some u -> reserva_temp (sess w) = Some temp ->
  med_list_of d temp w = (Ok l, w1) ->
  seleccionar_medico d req w =
  match method req with
  | POST =>
      if negb (truthy (form_get req "medico_id"))
      then (Ok (Go "/seleccionar_medico"),
            flashed "Selecciona un médico" "error" w1)
      else match py_int d (str (form_get req "medico_id")) with
           | Ok z =>
               (Ok (Go "/seleccionar_hora"),
                set_sess (Session (Some u)
                            (Some (<["medico_id" := VInt z]> temp))) w1)
           | Raise ex => (Raise ex, w1)
           | NoFuel => (NoFuel, w1)
           end
  | GET => (Ok (Show "seleccionar_medico.html" (CtxMedicos l temp)), w1)
  end.
Proof.
  intros Hu Ht Hl. unfold seleccionar_medico.
  rewrite (bind_ok St.get _ w w w eq_refl). rewrite Hu, Ht.
  rewrite (bind_ok _ _ _ _ _ Hl).
  destruct (method req); [reflexivity|].
  destruct (truthy (form_get req "medico_id")); [|reflexivity].
  cbn [negb]. st_unfold.
  destruct (py_int d (str (form_get req "medico_id"))); reflexivity.
Qed.

(** [seleccionar_medico] needs a logged-in user and a draft:
    without one of them it flashes "Selecciona especialidad primero",
    redirects to the first step and changes nothing else, whatever the
    request carries. *)
Theorem seleccionar_medico_guard (d : deps) (req : request) (w : world) :
  user (sess w) = None \/ reserva_temp (sess w) = None ->
  seleccionar_medico d req w
  = (Ok (Go "/reserva"),
     flashed "Selecciona especialidad primero" "error" w).
Proof.
  intros H. unfold seleccionar_medico.
  rewrite (bind_ok St.get _ w w w eq_refl).
  destruct H as [-> | ->]; [reflexivity|].
  by destruct (user (sess w)).
Qed.

Lemma seleccionar_medico_guard_witness :
  seleccionar_medico (deps_of (env_of true true))
    (post (<["medico_id" := "3"]> ∅)) (world_of None Absent)
  = (Ok (Go "/reserva"),
     flashed "Selecciona especialidad primero" "error"
       (world_of None Absent)).
Proof.
  apply (seleccionar_medico_guard (deps_of (env_of true true))
           (post (<["medico_id" := "3"]> ∅)) (world_of None Absent)).
  right. reflexivity.
Defined.

(** X19.  A POST to [seleccionar_medico] past the guard, without
    [utils_excel]: a "medico_id" that [int] reads as [z] is stored in
    the draft as [z], whether or not a doctor has that id, and the
    answer redirects to the time step; when [int] raises, the exception
    leaves the route and the session is as before; without "medico_id",
    or with an empty one, the route flashes "Selecciona un médico" and
    redirects to itself.  The appointments file and the in-memory list
    are never touched. *)
Theorem seleccionar_medico_post (d : deps) (req : request) (w : world)
    (u : user_info) (temp : row) :
  medicos_by_especialidad (more d) = None ->
  user (sess w) = Some u -> reserva_temp (sess w) = Some temp ->
  method req = POST ->
  exists w1,
    sess w1 = sess w /\ flashes w1 = flashes w /\
    cit_f (files w1) = cit_f (files w) /\
    citas_pendientes_mem w1 = citas_pendientes_mem w /\
    (forall m z, form req !! "medico_id" = Some m -> m <> "" ->
       py_int d m = Ok z ->
       seleccionar_medico d req w
       = (Ok (Go "/seleccionar_hora"),
          set_sess (Session (Some u)
                      (Some (<["medico_id" := VInt z]> temp))) w1)) /\
    (forall m ex, form req !! "medico_id" = Some m -> m <> "" ->
       py_int d m = Raise ex ->
       seleccionar_medico d req w = (Raise ex, w1)) /\
    (form req !! "medico_id" = None \/ form req !! "medico_id" = Some "" ->
       seleccionar_medico d req w
       = (Ok (Go "/seleccionar_medico"),
          flashed "Selecciona un médico" "error" w1)).
Proof.
  intros Hh Hu Ht Hp.
  destruct (med_list_of_frame d temp w Hh)
    as (l & w1 & Hl & S1 & F1 & C1 & _ & M1 & _).
  pose proof (seleccionar_medico_run d req w w1 u temp l Hu Ht Hl) as Hrun.
  rewrite Hp in Hrun. unfold form_get in Hrun.
  exists w1. do 4 (split; [done|]).
  assert (T : forall m, m <> "" -> truthy (VStr m) = true).
  { intros m Hm. simpl. by destruct (String.eqb_spec m ""). }
  split; [|split].
  - intros m z Hm Hne Hz. rewrite Hm in Hrun. rewrite (T m Hne) in Hrun.
    simpl in Hrun. by rewrite Hz in Hrun.
  - intros m ex Hm Hne Hz. rewrite Hm in Hrun. rewrite (T m Hne) in Hrun.
    simpl in Hrun. by rewrite Hz in Hrun.
  - intros [Hm|Hm]; rewrite Hm in Hrun; exact Hrun.
Qed.

Lemma seleccionar_medico_post_witness :
  exists w',
    seleccionar_medico (deps_of (env_of false true))
      (post (<["medico_id" := "999"]> ∅))
      (world_of (Some (<["fecha" := VStr "2024-05-01"]> ∅)) Absent)
    = (Ok (Go "/seleccionar_hora"), w') /\
    reserva_temp (sess w')
    = Some (<["medico_id" := VInt 999]> (<["fecha" := VStr "2024-05-01"]> ∅)).
Proof.
  destruct (seleccionar_medico_post (deps_of (env_of false true))
              (post (<["medico_id" := "999"]> ∅))
              (world_of (Some (<["fecha" := VStr "2024-05-01"]> ∅)) Absent)
              ana (<["fecha" := VStr "2024-05-01"]> ∅))
    as (w1 & _ & _ & _ & _ & Hok & _);
    [reflexivity | reflexivity | reflexivity | reflexivity |].
  eexists. split.
  - apply (Hok "999" 999); [reflexivity | discriminate | reflexivity].
  - reflexivity.
Defined.

(** X20.  The steps of the wizard together.  A patient with a draft
    posts a doctor id that [int] reads as [z], then a non-empty time
    [h], then the payment: the three requests answer with their
    redirects, and the appointment that is recorded (in the sheet or,
    failing that, in the in-memory list) has the doctor [z], the time
    [h], the date and the specialty of the draft and the user name of
    the session; afterwards the session has no draft. *)
Theorem wizard_records_the_choices (d : deps) (e2 e3 : env)
    (req1 req2 req3 : request) (w : world) (u : user_info) (temp : row)
    (m h : string) (z : Z) :
  medicos_by_especialidad (more d) = None ->
  get_medico_by_id (utils e2) = None ->
  utils e3 = no_utils ->
  (QR_AVAILABLE e3 = true -> qr_save_ok e3 = true) ->
  user (sess w) = Some u -> rol u = VStr "paciente" ->
  reserva_temp (sess w) = Some temp ->
  method req1 = POST -> form req1 !! "medico_id" = Some m -> m <> "" ->
  py_int d m = Ok z ->
  method req2 = POST -> form req2 !! "hora" = Some h -> h <> "" ->
  method req3 = POST ->
  exists (w1 w2 w3 : world) (cita : row),
    seleccionar_medico d req1 w = (Ok (Go "/seleccionar_hora"), w1) /\
    seleccionar_hora e2 req2 w1 = (Ok (Redirect "/confirmar_cita"), w2) /\
    pago e3 req3 w2 = (Ok (Redirect "/citas_pendientes"), w3) /\
    ((stored_rows (cit_f (files w3))
      = (stored_rows (cit_f (files w)) ++ [cita])%list /\
      citas_pendientes_mem w3 = citas_pendientes_mem w) \/
     (citas_pendientes_mem w3 = (citas_pendientes_mem w ++ [cita])%list /\
      cit_f (files w3) = cit_f (files w))) /\
    cita !! "medico_id" = Some (VInt z) /\
    cita !! "hora" = Some (VStr h) /\
    cita !! "fecha" = Some (get_or_none temp "fecha") /\
    cita !! "especialidad" = Some (get_or_none temp "especialidad") /\
    cita !! "usuario" = Some (username u) /\
    reserva_temp (sess w3) = None.
Proof.
  intros Hh1 Hh2 Hh3 Hqr Hu Hr Ht Hp1 Hm Hmne Hz Hp2 Hf2 Hhne Hp3.
  assert (T : forall x, x <> "" -> truthy (VStr x) = true).
  { intros x Hx. simpl. by destruct (String.eqb_spec x ""). }
  (* the doctor *)
  destruct (med_list_of_frame d temp w Hh1)
    as (l & v1 & Hl & S1 & F1 & C1 & _ & M1 & _).
  pose proof (seleccionar_medico_run d req1 w v1 u temp l Hu Ht Hl) as R1.
  rewrite Hp1 in R1. unfold form_get in R1. rewrite Hm, (T m Hmne) in R1.
  simpl in R1. rewrite Hz in R1.
  set (temp1 := <["medico_id" := VInt z]> temp) in *.
  set (w1 := set_sess (Session (Some u) (Some temp1)) v1) in *.
  (* the time *)
  assert (Hmid : temp1 !! "medico_id" = Some (VInt z))
    by (unfold temp1; by rewrite lookup_insert_eq).
  destruct (find_medico_frame e2 temp1 w1 Hh2)
    as (medico & v2 & Hfm & S2 & F2 & C2 & _ & M2 & _).
  destruct (seleccionar_hora_run e2 req2 w1 v2 temp1 medico (VInt z)
              eq_refl Hmid Hfm) as (horarios & _ & R2).
  rewrite Hp2 in R2. unfold form_get in R2. rewrite Hf2, (T h Hhne) in R2.
  simpl in R2.
  set (temp2 := <["hora" := VStr h]> temp1) in *.
  set (w2 := set_sess (Session (Some u) (Some temp2)) v2) in *.
  (* the payment *)
  assert (Hhora : temp2 !! "hora" = Some (VStr h))
    by (unfold temp2; by rewrite lookup_insert_eq).
  destruct (pago_post_spec e3 req3 w2 u temp2 (VStr h)
              eq_refl Hr eq_refl Hhora Hp3 Hh3 Hqr)
    as (cita & w3 & R3 & S3 & Hrec & Hk).
  exists w1, w2, w3, cita.
  split; [exact R1|]. split; [exact R2|]. split; [exact R3|].
  assert (Ec : cit_f (files w2) = cit_f (files w)).
  { simpl. rewrite C2. simpl. exact C1. }
  assert (Em : citas_pendientes_mem w2 = citas_pendientes_mem w).
  { simpl. rewrite M2. simpl. exact M1. }
  rewrite Ec, Em in Hrec. split; [exact Hrec|].
  assert (G : forall k, k <> "hora" -> k <> "medico_id" ->
                get_or_none temp2 k = get_or_none temp k).
  { intros k H1 H2. unfold get_or_none, dict_get, temp2, temp1.
    by rewrite !lookup_insert_ne. }
  repeat split; try (by rewrite S3);
    rewrite Hk by done; unfold new_cita; simplify_map_eq;
    rewrite ?G by done; try done.
  - unfold get_or_none, dict_get, temp2, temp1.
    by rewrite lookup_insert_ne, lookup_insert_eq.
  - unfold get_or_none, dict_get. by rewrite Hhora.
Qed.

Lemma wizard_records_the_choices_witness :
  exists (w1 w2 w3 : world) (cita : row),
    seleccionar_medico (deps_of (env_of true true))
      (post (<["medico_id" := "3"]> ∅))
      (world_of (Some (<["fecha" := VStr "2024-05-01"]> ∅)) Absent)
    = (Ok (Go "/seleccionar_hora"), w1) /\
    seleccionar_hora (env_of true true) (post (<["hora" := "09:30"]> ∅)) w1
    = (Ok (Redirect "/confirmar_cita"), w2) /\
    pago (env_of true true) (post ∅) w2
    = (Ok (Redirect "/citas_pendientes"), w3) /\
    cita !! "medico_id" = Some (VInt 3) /\
    cita !! "hora" = Some (VStr "09:30").
Proof.
  destruct (wizard_records_the_choices (deps_of (env_of true true))
              (env_of true true) (env_of true true)
              (post (<["medico_id" := "3"]> ∅))
              (post (<["hora" := "09:30"]> ∅)) (post ∅)
              (world_of (Some (<["fecha" := VStr "2024-05-01"]> ∅)) Absent)
              ana (<["fecha" := VStr "2024-05-01"]> ∅) "3" "09:30" 3)
    as (w1 & w2 & w3 & cita & R1 & R2 & R3 & _ & Hm & Hh & _);
    try reflexivity; try discriminate.
  exists w1, w2, w3, cita. repeat split; assumption.
Defined.

End WizardMore.

(** ** The listings: [citas_pendientes], the dashboards, [historial] *)

Section ListingsMore.

Lemma cell_to_dict (df : frame) (r : row) (k : string) :
  cell (to_dict df r) k = cell r k.
Proof.
  unfold cell, to_dict. rewrite lookup_union.
  destruct (r !! k) as [v|] eqn:Hr; simpl.
  - by destruct (gset_to_gmap VNaN (columns df) !! k).
  - destruct (gset_to_gmap VNaN (columns df) !! k) as [v|] eqn:Hg;
      [|reflexivity].
    apply lookup_gset_to_gmap_Some in Hg as [_ <-]. reflexivity.
Qed.

Lemma cell_eq_true (x v : value) : cell_eq x v = true -> x = v.
Proof.
  destruct x, v; simpl; try discriminate.
  - intros H. apply Z.eqb_eq in H. by subst.
  - intros H. apply String.eqb_eq in H. by subst.
Qed.

(** X21.  With pandas and an appointments sheet that is not empty and
    has the column "usuario", the three listings of a patient
    ([citas_pendientes], [dashboard_paciente], [historial]) show the
    same appointments: the rows of the sheet whose "usuario" is the
    user name of the session, in the order of the sheet.  No
    appointment of another user is shown, and the in-memory list is not
    looked at. *)
Theorem listings_from_sheet (d : deps) (w : world) (u : user_info)
    (df : frame) :
  list_citas_for_user (more d) = None ->
  pandas (xl (base d)) = true ->
  user (sess w) = Some u -> rol u = VStr "paciente" ->
  cit_f (files w) = Sheet df -> df_empty df = false ->
  "usuario" ∈ columns df ->
  dashboard_paciente d w
  = (Ok (Show "dashboard_paciente.html" (CtxCitas (citas_of df (username u)))),
     w) /\
  historial d w
  = (Ok (Show "historial.html" (CtxCitas (citas_of df (username u)))), w) /\
  (exists w',
     citas_pendientes d w
     = (Ok (Show "citas_pendientes.html"
              (CtxCitas (citas_of df (username u)))), w') /\
     files w' = files w /\ sess w' = sess w /\
     citas_pendientes_mem w' = citas_pendientes_mem w) /\
  (forall c, c ∈ citas_of df (username u) ->
     cell c "usuario" = username u /\
     exists r, r ∈ rows df /\ c = to_dict df r).
Proof.
  intros Hh Hp Hu Hr Hf He Hc.
  assert (Hcol : col_eq df "usuario" (username u)
                 = Ok (fun r => cell_eq (cell r "usuario") (username u))).
  { unfold col_eq. by rewrite bool_decide_eq_true_2. }
  destruct w as [s f [c p md] m q o]. simpl in *. subst c.
  split; [|split; [|split]].
  - unfold dashboard_paciente, not_paciente. st_unfold. simpl.
    rewrite Hu, Hr, Hh. rewrite bool_decide_eq_true_2 by done. simpl.
    unfold on_files. st_unfold. rewrite excel_read_spec, Hp. simpl.
    rewrite Hcol. reflexivity.
  - unfold historial. st_unfold. simpl. rewrite Hu.
    unfold on_files. st_unfold. rewrite excel_read_spec, Hp. simpl.
    rewrite Hcol. reflexivity.
  - unfold citas_pendientes. st_unfold. simpl. rewrite Hu, Hh.
    unfold on_files. st_unfold. rewrite excel_read_spec, Hp. simpl.
    rewrite He. simpl. rewrite Hcol. fold (citas_of df (username u)).
    destruct (citas_of df (username u)); eexists; (split; [reflexivity|]);
      by simpl.
  - intros c Hin. unfold citas_of, records in Hin.
    apply list_elem_of_In, in_map_iff in Hin as (r & <- & Hin).
    apply filter_In in Hin as [Hin Hm]. split.
    + rewrite cell_to_dict. by apply cell_eq_true.
    + exists r. split; [by apply list_elem_of_In|reflexivity].
Qed.

Lemma listings_from_sheet_witness :
  dashboard_paciente (deps_of (env_of true true))
    (set_sess (Session (Some (UserInfo (VStr "luis") (VStr "Luis")
                                (VStr "paciente") VNone)) None)
       (world_of None (citas_sheet [booked])))
  = (Ok (Show "dashboard_paciente.html"
           (CtxCitas (citas_of (Frame (list_to_set cita_columns) [booked])
                               (VStr "luis")))),
     set_sess (Session (Some (UserInfo (VStr "luis") (VStr "Luis")
                                (VStr "paciente") VNone)) None)
       (world_of None (citas_sheet [booked]))).
Proof.
  apply (listings_from_sheet (deps_of (env_of true true))
           (set_sess (Session (Some (UserInfo (VStr "luis") (VStr "Luis")
                                       (VStr "paciente") VNone)) None)
              (world_of None (citas_sheet [booked])))
           (UserInfo (VStr "luis") (VStr "Luis") (VStr "paciente") VNone)
           (Frame (list_to_set cita_columns) [booked]));
    [reflexivity | reflexivity | reflexivity | reflexivity | reflexivity
    | reflexivity | vm_compute; set_solver].
Defined.

Lemma col_eq_ok (df : frame) (c : string) (v : value) :
  c ∈ columns df -> col_eq df c v = Ok (fun r => cell_eq (cell r c) v).
Proof. intros H. unfold col_eq. by rewrite bool_decide_eq_true_2. Qed.

(** The three listings of a patient when the appointments sheet can be
    read and is not empty. *)
Lemma citas_pendientes_sheet (d : deps) (w : world) (u : user_info)
    (df : frame) :
  list_citas_for_user (more d) = None ->
  pandas (xl (base d)) = true ->
  user (sess w) = Some u ->
  cit_f (files w) = Sheet df -> df_empty df = false ->
  "usuario" ∈ columns df ->
  citas_pendientes d w
  = (Ok (Show "citas_pendientes.html" (CtxCitas (citas_of df (username u)))),
     match citas_of df (username u) with
     | [] => flashed "No tienes citas pendientes." "info" w
     | _ => w
     end).
Proof.
  intros Hh Hp Hu Hf He Hc.
  destruct w as [s f [c p md] m q o]. simpl in *. subst c.
  unfold citas_pendientes. st_unfold. simpl. rewrite Hu, Hh.
  unfold on_files. st_unfold. rewrite excel_read_spec, Hp. simpl.
  rewrite He. simpl. rewrite (col_eq_ok _ _ _ Hc).
  fold (citas_of df (username u)).
  by destruct (citas_of df (username u)).
Qed.

Lemma dashboard_paciente_sheet (d : deps) (w : world) (u : user_info)
    (df : frame) :
  list_citas_for_user (more d) = None ->
  pandas (xl (base d)) = true ->
  user (sess w) = Some u -> rol u = VStr "paciente" ->
  cit_f (files w) = Sheet df ->
  "usuario" ∈ columns df ->
  dashboard_paciente d w
  = (Ok (Show "dashboard_paciente.html"
           (CtxCitas (citas_of df (username u)))), w).
Proof.
  intros Hh Hp Hu Hr Hf Hc.
  destruct w as [s f [c p md] m q o]. simpl in *. subst c.
  unfold dashboard_paciente, not_paciente. st_unfold. simpl.
  rewrite Hu, Hr, Hh. rewrite bool_decide_eq_true_2 by done. simpl.
  unfold on_files. st_unfold. rewrite excel_read_spec, Hp. simpl.
  rewrite (col_eq_ok _ _ _ Hc). reflexivity.
Qed.

Lemma historial_sheet (d : deps) (w : world) (u : user_info) (df : frame) :
  pandas (xl (base d)) = true ->
  user (sess w) = Some u ->
  cit_f (files w) = Sheet df ->
  "usuario" ∈ columns df ->
  historial d w
  = (Ok (Show "historial.html" (CtxCitas (citas_of df (username u)))), w).
Proof.
  intros Hp Hu Hf Hc.
  destruct w as [s f [c p md] m q o]. simpl in *. subst c.
  unfold historial. st_unfold. simpl. rewrite Hu.
  unfold on_files. st_unfold. rewrite excel_read_spec, Hp. simpl.
  rewrite (col_eq_ok _ _ _ Hc). reflexivity.
Qed.

(** The same listings when pandas is missing. *)
Lemma citas_pendientes_no_pandas (d : deps) (w : world) (u : user_info) :
  list_citas_for_user (more d) = None ->
  pandas (xl (base d)) = false ->
  user (sess w) = Some u ->
  (citas_pendientes d w).1
  = Ok (Show "citas_pendientes.html" (CtxCitas (mem_of (username u) w))).
Proof.
  intros Hh Hp Hu. destruct w as [s f dk m q o]. simpl in *.
  unfold citas_pendientes. st_unfold. simpl. rewrite Hu, Hh.
  unfold on_files. st_unfold. rewrite excel_read_spec, Hp. simpl.
  unfold mem_of. simpl.
  by destruct (List.filter _ m).
Qed.

Lemma dashboard_paciente_no_pandas (d : deps) (w : world) (u : user_info) :
  list_citas_for_user (more d) = None ->
  pandas (xl (base d)) = false ->
  user (sess w) = Some u -> rol u = VStr "paciente" ->
  dashboard_paciente d w
  = (Ok (Show "dashboard_paciente.html" (CtxCitas [])), w).
Proof.
  intros Hh Hp Hu Hr. destruct w as [s f dk m q o]. simpl in *.
  unfold dashboard_paciente, not_paciente. st_unfold. simpl.
  rewrite Hu, Hr, Hh. rewrite bool_decide_eq_true_2 by done. simpl.
  unfold on_files. st_unfold. rewrite excel_read_spec, Hp. reflexivity.
Qed.

Lemma historial_no_pandas (d : deps) (w : world) (u : user_info) :
  pandas (xl (base d)) = false ->
  user (sess w) = Some u ->
  historial d w = (Ok (Show "historial.html" (CtxCitas [])), w).
Proof.
  intros Hp Hu. destruct w as [s f dk m q o]. simpl in *.
  unfold historial. st_unfold. simpl. rewrite Hu.
  unfold on_files. st_unfold. rewrite excel_read_spec, Hp. reflexivity.
Qed.

(** The state a POST to [pago] that passed the guards leaves: where the
    appointment went. *)
Lemma pago_post_where (e : env) (req : request) (w : world)
    (u : user_info) (temp : row) (h : value) :
  user (sess w) = Some u -> rol u = VStr "paciente" ->
  reserva_temp (sess w) = Some temp -> temp !! "hora" = Some h ->
  method req = POST ->
  utils e = no_utils ->
  (QR_AVAILABLE e = true -> qr_save_ok e = true) ->
  exists cita w',
    pago e req w = (Ok (Redirect "/citas_pendientes"), w') /\
    sess w' = Session (Some u) None /\
    cita !! "usuario" = Some (username u) /\
    cita !! "id" = Some (VInt (utcnow_timestamp e)) /\
    (if pandas (xl e) && writable (xl e) CIT_F
     then cit_f (files w')
          = Sheet (concat_row
                     (frame_or_empty cita_columns (cit_f (files w))) cita) /\
          citas_pendientes_mem w' = citas_pendientes_mem w
     else cit_f (files w') = cit_f (files w) /\
          citas_pendientes_mem w'
          = (citas_pendientes_mem w ++ [cita])%list).
Proof.
  intros Hu Hr Ht Hh Hm Hn Hqr.
  destruct (build_cita_spec e u temp (form_metodo req) w Hn Hqr)
    as (cita & w1 & Hb & Hk & _ & Hs1 & _ & Hc & Hmem & _).
  assert (Hs : save_cita (utils e) = None) by (by rewrite Hn).
  pose proof (persist_cita_spec e cita w1 Hs) as Hp.
  eexists cita, _. split; [exact (pago_post_run e req w w1 _ u temp cita h
                                    Hu Hr Ht Hh Hm Hb Hp)|].
  destruct (new_cita_lookup e u temp (form_metodo req))
    as (Kid & Kus & _).
  split; [|split; [|split]].
  - destruct (pandas (xl e) && writable (xl e) CIT_F); simpl;
      by rewrite Hs1, Hu.
  - by rewrite Hk.
  - by rewrite Hk.
  - destruct (pandas (xl e) && writable (xl e) CIT_F); simpl;
      rewrite ?Hc, ?Hmem; by destruct (files w1).
Qed.


Lemma filter_snoc_true {A} (f : A -> bool) (l : list A) (x : A) :
  f x = true -> List.filter f (l ++ [x]) = (List.filter f l ++ [x])%list.
Proof. intros H. rewrite List.filter_app. simpl. by rewrite H. Qed.

Lemma citas_of_rows (df : frame) (v : value) (c : row) :
  c ∈ citas_of df v ->
  exists r, r ∈ rows df /\ cell r "usuario" = v /\ c = to_dict df r.
Proof.
  intros Hin. unfold citas_of, records in Hin.
  apply list_elem_of_In, in_map_iff in Hin as (r & <- & Hin).
  apply filter_In in Hin as [Hin Hm].
  exists r. split; [by apply list_elem_of_In|].
  split; [by apply cell_eq_true|reflexivity].
Qed.

(** X23.  An appointment kept in memory is hidden by the sheet.  With
    pandas, an appointments file that cannot be written and a sheet
    that is not empty, the POST keeps the appointment in the in-memory
    list only, and the three listings of the patient show what
    [citas_pendientes] showed before the POST, the rows of the sheet:
    none of them carries the id of the new appointment. *)
Theorem memory_cita_hidden_by_sheet (d : deps) (req : request) (w : world)
    (u : user_info) (temp : row) (h : value) (df : frame) :
  utils (base d) = no_utils ->
  list_citas_for_user (more d) = None ->
  pandas (xl (base d)) = true -> writable (xl (base d)) CIT_F = false ->
  (QR_AVAILABLE (base d) = true -> qr_save_ok (base d) = true) ->
  user (sess w) = Some u -> rol u = VStr "paciente" ->
  reserva_temp (sess w) = Some temp -> temp !! "hora" = Some h ->
  method req = POST ->
  cit_f (files w) = Sheet df -> df_empty df = false ->
  "usuario" ∈ columns df ->
  (forall r, r ∈ rows df -> cell r "id" <> VInt (utcnow_timestamp (base d))) ->
  exists (cita : row) (w1 : world) (shown : list row),
    pago (base d) req w = (Ok (Redirect "/citas_pendientes"), w1) /\
    citas_pendientes_mem w1 = (citas_pendientes_mem w ++ [cita])%list /\
    cita !! "id" = Some (VInt (utcnow_timestamp (base d))) /\
    (citas_pendientes d w1).1
    = Ok (Show "citas_pendientes.html" (CtxCitas shown)) /\
    (dashboard_paciente d w1).1
    = Ok (Show "dashboard_paciente.html" (CtxCitas shown)) /\
    (historial d w1).1 = Ok (Show "historial.html" (CtxCitas shown)) /\
    (citas_pendientes d w).1
    = Ok (Show "citas_pendientes.html" (CtxCitas shown)) /\
    forall c, c ∈ shown -> cell c "id" <> VInt (utcnow_timestamp (base d)).
Proof.
  intros Hn Hh Hp Hw Hqr Hu Hr Ht Hhora Hm Hf He Hc Hids.
  destruct (pago_post_where (base d) req w u temp h Hu Hr Ht Hhora Hm Hn Hqr)
    as (cita & w1 & Hpago & Hs & Kus & Kid & Hwhere).
  rewrite Hp, Hw in Hwhere. simpl in Hwhere. destruct Hwhere as [Hf1 Hmem].
  rewrite Hf in Hf1.
  assert (Hus : user (sess w1) = Some u) by (by rewrite Hs).
  exists cita, w1, (citas_of df (username u)).
  split; [exact Hpago|]. split; [exact Hmem|]. split; [exact Kid|].
  rewrite (citas_pendientes_sheet d w1 u df Hh Hp Hus Hf1 He Hc).
  rewrite (dashboard_paciente_sheet d w1 u df Hh Hp Hus Hr Hf1 Hc).
  rewrite (historial_sheet d w1 u df Hp Hus Hf1 Hc).
  rewrite (citas_pendientes_sheet d w u df Hh Hp Hu Hf He Hc).
  repeat (split; [reflexivity|]).
  intros c Hin. apply citas_of_rows in Hin as (r & Hin & _ & ->).
  rewrite cell_to_dict. by apply Hids.
Qed.

Lemma memory_cita_hidden_by_sheet_witness :
  exists (cita : row) (w1 : world) (shown : list row),
    pago (env_of true false) (post ∅)
      (world_of (Some draft) (citas_sheet [booked]))
    = (Ok (Redirect "/citas_pendientes"), w1) /\
    citas_pendientes_mem w1 = [cita] /\
    (citas_pendientes (deps_of (env_of true false)) w1).1
    = Ok (Show "citas_pendientes.html" (CtxCitas shown)) /\
    forall c, c ∈ shown -> cell c "id" <> VInt 1714550000.
Proof.
  destruct (memory_cita_hidden_by_sheet (deps_of (env_of true false))
              (post ∅) (world_of (Some draft) (citas_sheet [booked]))
              ana draft (VStr "09:30")
              (Frame (list_to_set cita_columns) [booked]))
    as (cita & w1 & shown & Hp & Hm & _ & Hl & _ & _ & _ & Hno);
    [reflexivity | reflexivity | reflexivity | reflexivity | discriminate
    | reflexivity | reflexivity | reflexivity | reflexivity | reflexivity
    | reflexivity | reflexivity
    | vm_compute; set_solver
    | intros r Hin; apply list_elem_of_singleton in Hin; subst r;
      vm_compute; discriminate
    | ].
  exists cita, w1, shown. repeat split; assumption.
Defined.

(** X24.  Without pandas the appointment of a POST to [pago] is kept
    in memory, and only [citas_pendientes] shows it (last, after the
    appointments of the user that were in the list): [dashboard_paciente]
    and [historial] show no appointment at all. *)
Theorem memory_cita_listed_without_pandas (d : deps) (req : request)
    (w : world) (u : user_info) (temp : row) (h : value) (n : string) :
  utils (base d) = no_utils ->
  list_citas_for_user (more d) = None ->
  pandas (xl (base d)) = false ->
  (QR_AVAILABLE (base d) = true -> qr_save_ok (base d) = true) ->
  user (sess w) = Some u -> rol u = VStr "paciente" ->
  username u = VStr n ->
  reserva_temp (sess w) = Some temp -> temp !! "hora" = Some h ->
  method req = POST ->
  exists (cita : row) (w1 : world),
    pago (base d) req w = (Ok (Redirect "/citas_pendientes"), w1) /\
    cita !! "usuario" = Some (VStr n) /\
    cita !! "id" = Some (VInt (utcnow_timestamp (base d))) /\
    (citas_pendientes d w1).1
    = Ok (Show "citas_pendientes.html"
            (CtxCitas (mem_of (VStr n) w ++ [cita]))) /\
    dashboard_paciente d w1
    = (Ok (Show "dashboard_paciente.html" (CtxCitas [])), w1) /\
    historial d w1 = (Ok (Show "historial.html" (CtxCitas [])), w1).
Proof.
  intros Hn Hh Hp Hqr Hu Hr Hname Ht Hhora Hm.
  destruct (pago_post_where (base d) req w u temp h Hu Hr Ht Hhora Hm Hn Hqr)
    as (cita & w1 & Hpago & Hs & Kus & Kid & Hwhere).
  rewrite Hp in Hwhere. simpl in Hwhere. destruct Hwhere as [_ Hmem].
  rewrite Hname in Kus.
  assert (Hus : user (sess w1) = Some u) by (by rewrite Hs).
  exists cita, w1.
  split; [exact Hpago|]. split; [exact Kus|]. split; [exact Kid|].
  split; [|split].
  - rewrite (citas_pendientes_no_pandas d w1 u Hh Hp Hus).
    rewrite Hname. unfold mem_of. rewrite Hmem.
    rewrite filter_snoc_true; [reflexivity|].
    unfold get_or_none, dict_get. rewrite Kus. simpl. apply String.eqb_refl.
  - exact (dashboard_paciente_no_pandas d w1 u Hh Hp Hus Hr).
  - exact (historial_no_pandas d w1 u Hp Hus).
Qed.

Lemma memory_cita_listed_without_pandas_witness :
  exists (cita : row) (w1 : world),
    pago (env_of false true) (post ∅) (world_of (Some draft) Absent)
    = (Ok (Redirect "/citas_pendientes"), w1) /\
    (citas_pendientes (deps_of (env_of false true)) w1).1
    = Ok (Show "citas_pendientes.html" (CtxCitas [cita])) /\
    dashboard_paciente (deps_of (env_of false true)) w1
    = (Ok (Show "dashboard_paciente.html" (CtxCitas [])), w1).
Proof.
  destruct (memory_cita_listed_without_pandas (deps_of (env_of false true))
              (post ∅) (world_of (Some draft) Absent) ana draft
              (VStr "09:30") "ana")
    as (cita & w1 & Hp & _ & _ & Hl & Hd & _);
    try reflexivity; try discriminate.
  exists cita, w1. repeat split; assumption.
Defined.

End ListingsMore.

(** ** The dashboards *)

Section DashboardsMore.

Lemma not_rol_false (r : string) (s : session) :
  not_rol r s = false -> exists u, user s = Some u /\ rol u = VStr r.
Proof.
  unfold not_rol. destruct (user s) as [u|]; [|discriminate].
  intros H. exists u. split; [reflexivity|].
  apply negb_false_iff, bool_decide_eq_true in H. exact H.
Qed.

Lemma not_rol_true_of (r : string) (s : session) (u : user_info) :
  user s = Some u -> rol u = VStr r -> not_rol r s = false.
Proof.
  intros Hu Hr. unfold not_rol. rewrite Hu, Hr.
  by rewrite bool_decide_eq_true_2.
Qed.

(** The first [try] of [dashboard_medico] always gives a value: what it
    raises is caught. *)
Lemma medico_id_of_total (d : deps) (u : user_info) (w : world) :
  exists v w',
    medico_id_of d u w = (Ok v, w') /\
    sess w' = sess w /\ flashes w' = flashes w /\
    cit_f (files w') = cit_f (files w) /\
    citas_pendientes_mem w' = citas_pendientes_mem w.
Proof.
  destruct w as [s f [c p md] m q o].
  unfold medico_id_of, on_files. st_unfold. rewrite excel_read_spec. simpl.
  split_io; try no_fuel; eauto 10.
Qed.

(** X25.  Without [citas_por_medico] (the function is imported from
    [utils_excel]) the dashboard of a doctor lists no appointment,
    whatever the sheets hold: the route looks the doctor up, catches
    what that raises, and shows the page with an empty list.  The
    session, the flashed messages, the appointments file and the
    in-memory list are as before. *)
Theorem dashboard_medico_lists_nothing (d : deps) (w : world)
    (u : user_info) :
  citas_por_medico (more d) = None ->
  user (sess w) = Some u -> rol u = VStr "medico" ->
  exists w',
    dashboard_medico d w
    = (Ok (Show "dashboard_medico.html" (CtxCitas [])), w') /\
    sess w' = sess w /\ flashes w' = flashes w /\
    cit_f (files w') = cit_f (files w) /\
    citas_pendientes_mem w' = citas_pendientes_mem w.
Proof.
  intros Hh Hu Hr.
  destruct (medico_id_of_total d u w) as (v & w' & Hm & Hrest).
  exists w'. split; [|exact Hrest].
  unfold dashboard_medico.
  rewrite (bind_ok St.get _ w w w eq_refl).
  rewrite (not_rol_true_of _ _ _ Hu Hr), Hu.
  rewrite (bind_ok _ _ _ _ _ Hm), Hh. reflexivity.
Qed.

Lemma dashboard_medico_lists_nothing_witness :
  exists w',
    dashboard_medico (deps_of (env_of true true))
      (as_user vega (world_of None (citas_sheet [booked])))
    = (Ok (Show "dashboard_medico.html" (CtxCitas [])), w').
Proof.
  destruct (dashboard_medico_lists_nothing (deps_of (env_of true true))
              (as_user vega (world_of None (citas_sheet [booked]))) vega)
    as (w' & H & _); try reflexivity.
  exists w'. exact H.
Defined.

(** X18.  A dashboard is shown only to its role: when
    [dashboard_paciente], [dashboard_medico], [dashboard_secretaria] or
    [dashboard_farmacia] answers with a page, a user is logged in and
    the "rol" of the session is the role of that dashboard. *)
Theorem dashboards_only_for_their_role (d : deps) (w : world)
    (t : string) (c : context) :
  ((dashboard_paciente d w).1 = Ok (Show t c) ->
   exists u, user (sess w) = Some u /\ rol u = VStr "paciente") /\
  ((dashboard_medico d w).1 = Ok (Show t c) ->
   exists u, user (sess w) = Some u /\ rol u = VStr "medico") /\
  ((dashboard_secretaria d w).1 = Ok (Show t c) ->
   exists u, user (sess w) = Some u /\ rol u = VStr "secretaria") /\
  ((dashboard_farmacia w).1 = Ok (Show t c) ->
   exists u, user (sess w) = Some u /\ rol u = VStr "farmacia").
Proof.
  split; [|split; [|split]].
  - unfold dashboard_paciente. rewrite (bind_ok St.get _ w w w eq_refl).
    change (not_paciente (sess w)) with (not_rol "paciente" (sess w)).
    destruct (not_rol "paciente" (sess w)) eqn:E.
    + unfold flash. st_unfold. simpl. discriminate.
    + intros _. by apply not_rol_false.
  - unfold dashboard_medico. rewrite (bind_ok St.get _ w w w eq_refl).
    destruct (not_rol "medico" (sess w)) eqn:E.
    + unfold flash. st_unfold. simpl. discriminate.
    + intros _. by apply not_rol_false.
  - unfold dashboard_secretaria. rewrite (bind_ok St.get _ w w w eq_refl).
    destruct (not_rol "secretaria" (sess w)) eqn:E.
    + unfold flash. st_unfold. simpl. discriminate.
    + intros _. by apply not_rol_false.
  - unfold dashboard_farmacia. rewrite (bind_ok St.get _ w w w eq_refl).
    destruct (not_rol "farmacia" (sess w)) eqn:E.
    + unfold flash. st_unfold. simpl. discriminate.
    + intros _. by apply not_rol_false.
Qed.

Lemma dashboards_only_for_their_role_witness :
  exists u,
    user (sess (as_user vega (world_of None Absent))) = Some u /\
    rol u = VStr "medico".
Proof.
  apply (proj1 (proj2 (dashboards_only_for_their_role
                         (deps_of (env_of false true))
                         (as_user vega (world_of None Absent))
                         "dashboard_medico.html" (CtxCitas [])))).
  vm_compute. reflexivity.
Defined.

End DashboardsMore.

(** ** Receipts: [boleta_download] *)

Import Desk DeskVocab.

Section BoletaFacts.

Lemma generate_boleta_pdf_spec (k : desk) (cita paciente : row)
    (filename : string) (s : site) :
  util_generate_boleta_pdf k = None ->
  generate_boleta_pdf k cita paciente filename s =
  if negb (REPORTLAB_AVAILABLE k) then (Ok false, s)
  else if pdf_build_ok k
       then (Ok true,
             Site (proc s) (<[filename := story k cita paciente]> (pdf_dir s)))
       else (Raise OSError, s).
Proof.
  intros Hh. unfold generate_boleta_pdf. rewrite Hh.
  destruct (REPORTLAB_AVAILABLE k), (pdf_build_ok k); reflexivity.
Qed.

(** Looking the patient up never changes the receipts, the session,
    the flashed messages, the in-memory list or the appointments file,
    and it does not run out of fuel. *)
Lemma paciente_of_run (k : desk) (cita_row : row) (s : site) :
  exists r s',
    paciente_of k cita_row s = (r, s') /\ r <> NoFuel /\
    pdf_dir s' = pdf_dir s /\
    sess (proc s') = sess (proc s) /\
    flashes (proc s') = flashes (proc s) /\
    citas_pendientes_mem (proc s') = citas_pendientes_mem (proc s) /\
    cit_f (files (proc s')) = cit_f (files (proc s)).
Proof.
  destruct s as [[ss f [c p md] m q o] pd].
  unfold paciente_of, on_proc, on_files. st_unfold.
  rewrite excel_read_spec. simpl.
  unfold dict_getitem.
  split_io; repeat case_match; simpl; try no_fuel;
    eexists _, _; (split; [reflexivity|]); repeat split; try done.
  all: simplify_eq/=; done.
Qed.


Lemma df_filter_empty (df : frame) (mask : row -> bool) (c : string) :
  c ∈ columns df ->
  df_empty (df_filter df mask)
  = match List.filter mask (rows df) with [] => true | _ => false end.
Proof.
  intros Hc. unfold df_empty, df_filter. simpl.
  destruct (List.filter mask (rows df)); [reflexivity|].
  apply bool_decide_eq_false_2. intros He. rewrite He in Hc.
  by apply not_elem_of_empty in Hc.
Qed.

Lemma filter_first {A} (f : A -> bool) (before : list A) (x : A)
    (rest : list A) :
  (forall y, y ∈ before -> f y = false) -> f x = true ->
  List.filter f (before ++ x :: rest) = x :: List.filter f rest.
Proof.
  intros Hb Hx. rewrite List.filter_app. simpl. rewrite Hx.
  replace (List.filter f before) with (@nil A); [reflexivity|].
  symmetry. induction before as [|y l IH]; [reflexivity|]. simpl.
  rewrite (Hb y) by apply list_elem_of_here. apply IH.
  intros z Hz. apply Hb. by apply list_elem_of_further.
Qed.

Lemma filter_none {A} (f : A -> bool) (l : list A) :
  (forall y, y ∈ l -> f y = false) -> List.filter f l = [].
Proof.
  intros Hb. induction l as [|y l IH]; [reflexivity|]. simpl.
  rewrite (Hb y) by apply list_elem_of_here. apply IH.
  intros z Hz. apply Hb. by apply list_elem_of_further.
Qed.

(** A receipt that is already there is sent as it is. *)
Lemma boleta_download_cached (k : desk) (reserva_id : Z) (s : site)
    (b : boleta) :
  pdf_dir s !! pdf_name_of reserva_id = Some b ->
  boleta_download k reserva_id s
  = (Ok (SendFile (pdf_name_of reserva_id) b), s).
Proof.
  intros Hc. unfold boleta_download, boleta_body, send_file. st_unfold.
  rewrite Hc. rewrite bool_decide_eq_true_2 by eauto. by rewrite Hc.
Qed.


(** The part of [boleta_download] that starts when the appointment is
    found. *)
Lemma boleta_tail_run (k : desk) (name : string) (cita_row : row)
    (s : site) :
  util_generate_boleta_pdf k = None ->
  exists r s',
    (paciente ← paciente_of k cita_row;
     ok ← generate_boleta_pdf k cita_row paciente name;
     if negb ok then
       _ ← on_proc
             (flash
                "No se pudo generar la boleta (falta reportlab o función externa)."
                "error");
       mret (Back (url_of r_dashboard_paciente))
     else send_file name) s = (r, s') /\
    sess (proc s') = sess (proc s) /\
    citas_pendientes_mem (proc s') = citas_pendientes_mem (proc s) /\
    cit_f (files (proc s')) = cit_f (files (proc s)) /\
    match r with
    | Ok (SendFile n b) =>
        n = name /\ pdf_dir s' = <[name := b]> (pdf_dir s) /\
        flashes (proc s') = flashes (proc s) /\
        REPORTLAB_AVAILABLE k = true /\
        exists paciente, b = story k cita_row paciente
    | Ok (Back l) =>
        l = "/dashboard/paciente" /\ pdf_dir s' = pdf_dir s /\
        REPORTLAB_AVAILABLE k = false /\
        flashes (proc s')
        = (flashes (proc s) ++
           [("No se pudo generar la boleta (falta reportlab o función externa).",
             "error")])%list
    | Raise _ => pdf_dir s' = pdf_dir s /\ flashes (proc s') = flashes (proc s)
    | NoFuel => False
    end.
Proof.
  intros Hh.
  destruct (paciente_of_run k cita_row s)
    as (r & s1 & Hp & Hnf & Hd & Hs & Hfl & Hm & Hc).
  unfold mbind at 1. unfold st_bind, St.bind. rewrite Hp.
  destruct r as [paciente|ex|]; [| |done].
  - unfold mbind at 1. unfold st_bind, St.bind.
    rewrite (generate_boleta_pdf_spec _ _ _ _ _ Hh).
    destruct (REPORTLAB_AVAILABLE k) eqn:Hr; simpl.
    + destruct (pdf_build_ok k); simpl.
      * unfold send_file. st_unfold. simpl. rewrite lookup_insert_eq.
        eexists _, _. split; [reflexivity|]. simpl.
        rewrite Hd. repeat split; eauto.
      * eexists _, _. split; [reflexivity|]. repeat split; eauto.
    + unfold on_proc, flash. st_unfold. simpl.
      eexists _, _. split; [reflexivity|]. simpl.
      rewrite Hfl. repeat split; eauto.
  - eexists _, _. split; [reflexivity|]. repeat split; eauto.
Qed.

End BoletaFacts.

Section BoletaTheorems.

(** What [boleta_body] does before it looks for the appointment, when
    no receipt is there yet. *)
Lemma boleta_body_unfold (k : desk) (reserva_id : Z) (s : site) :
  pdf_dir s !! pdf_name_of reserva_id = None ->
  boleta_body k reserva_id s
  = (df_c ← on_proc (on_files (excel_read (xl (base (views k))) CIT_F []));
     match df_c with
     | None =>
         _ ← on_proc (flash "No hay datos de citas." "error");
         mret (Back (url_of r_dashboard_paciente))
     | Some df_c =>
         if df_empty df_c then
           _ ← on_proc (flash "No hay datos de citas." "error");
           mret (Back (url_of r_dashboard_paciente))
         else
           mask ← St.pure (col_eq df_c "id" (VInt reserva_id));
           let row := df_filter df_c mask in
           if df_empty row then
             _ ← on_proc (flash "Cita no encontrada." "error");
             mret (Back (url_of r_dashboard_paciente))
           else
             r ← St.pure (iloc0 row);
             let cita_row := to_dict row r in
             paciente ← paciente_of k cita_row;
             ok ← generate_boleta_pdf k cita_row paciente
                    (pdf_name_of reserva_id);
             if negb ok then
               _ ← on_proc
                     (flash
                        "No se pudo generar la boleta (falta reportlab o función externa)."
                        "error");
               mret (Back (url_of r_dashboard_paciente))
             else send_file (pdf_name_of reserva_id)
     end) s.
Proof.
  intros Hc. unfold boleta_body.
  rewrite (bind_ok St.get _ s s s eq_refl). rewrite Hc.
  rewrite bool_decide_eq_false_2; [reflexivity|].
  intros [? ?]. discriminate.
Qed.

(** Reading the appointments file from [boleta_download]. *)
Lemma read_cit (k : desk) (s : site) :
  on_proc (on_files (excel_read (xl (base (views k))) CIT_F [])) s
  = if negb (pandas (xl (base (views k)))) then (Ok None, s)
    else match cit_f (files (proc s)) with
         | Sheet df => (Ok (Some df), s)
         | Unreadable => (Ok (Some (empty_frame [])), s)
         | Absent =>
             if writable (xl (base (views k))) CIT_F
             then (Ok (Some (empty_frame [])),
                   Site (set_cit (Sheet (empty_frame [])) (proc s))
                        (pdf_dir s))
             else (Raise OSError, s)
         end.
Proof.
  destruct s as [[ss f [c p md] m q o] pd].
  unfold on_proc, on_files. st_unfold. rewrite excel_read_spec. simpl.
  destruct (pandas (xl (base (views k)))); simpl; [|reflexivity].
  destruct c; simpl; try reflexivity.
  destruct (writable (xl (base (views k))) CIT_F); reflexivity.
Qed.

Lemma try_bind_ok {S A B} (m : ST S A) (k : A -> ST S B)
    (h : exn -> ST S B) s a s' :
  m s = (Ok a, s') ->
  St.try_except (x ← m; k x) h s = St.try_except (k a) h s'.
Proof. intros H. st_unfold. by rewrite H. Qed.

Lemma try_bind_raise {S A B} (m : ST S A) (k : A -> ST S B)
    (h : exn -> ST S B) s ex s' :
  m s = (Raise ex, s') -> St.try_except (x ← m; k x) h s = h ex s'.
Proof. intros H. st_unfold. by rewrite H. Qed.

Lemma try_except_ext {S A} (m m' : ST S A) (h : exn -> ST S A) s :
  m s = m' s -> St.try_except m h s = St.try_except m' h s.
Proof. intros H. unfold St.try_except. by rewrite H. Qed.

(** A flash followed by the redirect, inside the [try]. *)
Lemma try_flash_back (msg : string) (h : exn -> ST site download) (s : site) :
  St.try_except
    (_ ← on_proc (flash msg "error");
     mret (Back (url_of r_dashboard_paciente))) h s
  = (Ok (Back "/dashboard/paciente"), site_flashed msg "error" s).
Proof. reflexivity. Qed.

Lemma boleta_post_flash (reserva_id : Z) (s s0 : site) (msg : string) :
  same_records s s0 -> pdf_dir s0 = pdf_dir s ->
  flashes (proc s0) = flashes (proc s) ->
  boleta_post reserva_id s
    (Ok (Back "/dashboard/paciente"), site_flashed msg "error" s0).
Proof.
  intros (H1 & H2 & H3) H4 H5. eexists _, _. split; [reflexivity|].
  unfold same_records. simpl. rewrite H1, H2, H3, H4, H5.
  repeat split; eauto.
Qed.

(** X26.  Without an external receipt generator, [boleta_download]
    never lets an exception out and always answers: it sends the file
    [boleta_<id>.pdf], which is then in the directory, or it flashes one
    error message and redirects to the dashboard of the patient.  It
    leaves the session, the in-memory list, the rows of the appointments
    sheet and every other receipt as they were. *)
Theorem boleta_download_answers (k : desk) (reserva_id : Z) (s : site) :
  util_generate_boleta_pdf k = None ->
  exists a s',
    boleta_download k reserva_id s = (Ok a, s') /\
    same_records s s' /\
    (forall n, n <> pdf_name_of reserva_id ->
       pdf_dir s' !! n = pdf_dir s !! n) /\
    match a with
    | SendFile n b =>
        n = pdf_name_of reserva_id /\
        pdf_dir s' !! pdf_name_of reserva_id = Some b /\
        flashes (proc s') = flashes (proc s)
    | Back l =>
        l = "/dashboard/paciente" /\ pdf_dir s' = pdf_dir s /\
        exists message,
          flashes (proc s') = (flashes (proc s) ++ [(message, "error")])%list
    end.
Proof.
  intros Hh. change (boleta_post reserva_id s (boleta_download k reserva_id s)).
  assert (Hsame : same_records s s) by done.
  destruct (pdf_dir s !! pdf_name_of reserva_id) as [b|] eqn:Hc.
  { rewrite (boleta_download_cached k reserva_id s b Hc).
    eexists _, _. split; [reflexivity|]. repeat split; done. }
  pose proof (read_cit k s) as Hread.
  unfold boleta_download.
  rewrite (try_except_ext _ _ _ _ (boleta_body_unfold k reserva_id s Hc)).
  assert (Hcatch : forall ex s0,
            same_records s s0 -> pdf_dir s0 = pdf_dir s ->
            flashes (proc s0) = flashes (proc s) ->
            boleta_post reserva_id s
              ((_ ← on_proc
                      (flash ("Error al generar boleta: " +:+ exn_text k ex)
                             "error");
                mret (Back (url_of r_dashboard_paciente))) s0)).
  { intros ex s0 H1 H2 H3.
    exact (boleta_post_flash reserva_id s s0 _ H1 H2 H3). }
  destruct (pandas (xl (base (views k)))) eqn:Hp; cbn [negb] in Hread.
  2:{ rewrite (try_bind_ok _ _ _ _ _ _ Hread), try_flash_back.
      by apply boleta_post_flash. }
  destruct (cit_f (files (proc s))) as [| |df] eqn:Hcit.
  - destruct (writable (xl (base (views k))) CIT_F).
    + rewrite (try_bind_ok _ _ _ _ _ _ Hread).
      change (df_empty (empty_frame [])) with true. cbv iota.
      rewrite try_flash_back. apply boleta_post_flash; try done.
      unfold same_records. simpl. by rewrite Hcit.
    + rewrite (try_bind_raise _ _ _ _ _ _ Hread). by apply Hcatch.
  - rewrite (try_bind_ok _ _ _ _ _ _ Hread).
    change (df_empty (empty_frame [])) with true. cbv iota.
    rewrite try_flash_back. by apply boleta_post_flash.
  - rewrite (try_bind_ok _ _ _ _ _ _ Hread).
    destruct (df_empty df) eqn:He.
    { rewrite try_flash_back. by apply boleta_post_flash. }
    destruct (col_eq df "id" (VInt reserva_id)) as [mask|ex|] eqn:Hm;
      [| |no_fuel].
    2:{ rewrite (try_bind_raise (St.pure (Raise ex)) _ _ s ex s eq_refl).
        by apply Hcatch. }
    rewrite (try_bind_ok (St.pure (Ok mask)) _ _ s mask s eq_refl). cbv zeta.
    destruct (df_empty (df_filter df mask)) eqn:Hfe.
    { rewrite try_flash_back. by apply boleta_post_flash. }
    destruct (iloc0 (df_filter df mask)) as [r|ex|] eqn:Hi; [| |no_fuel].
    2:{ rewrite (try_bind_raise (St.pure (Raise ex)) _ _ s ex s eq_refl).
        by apply Hcatch. }
    rewrite (try_bind_ok (St.pure (Ok r)) _ _ s r s eq_refl).
    destruct (boleta_tail_run k (pdf_name_of reserva_id)
                (to_dict (df_filter df mask) r) s Hh)
      as (res & s1 & E & Hs1 & Hm1 & Hc1 & Hres).
    unfold St.try_except. rewrite E.
    destruct res as [[l|n b]|ex|]; [| | |done].
    + destruct Hres as (-> & Hd & _ & Hfl).
      eexists _, _. split; [reflexivity|]. unfold same_records.
      rewrite Hs1, Hm1, Hc1, Hd, Hfl. repeat split; eauto.
    + destruct Hres as (-> & Hd & Hfl & _).
      eexists _, _. split; [reflexivity|]. unfold same_records.
      rewrite Hs1, Hm1, Hc1, Hd, Hfl. repeat split.
      * intros n Hn. by rewrite lookup_insert_ne.
      * by rewrite lookup_insert_eq.
    + destruct Hres as (Hd & Hfl).
      apply Hcatch; try done. unfold same_records. by rewrite Hs1, Hm1, Hc1.
Qed.

Lemma boleta_download_answers_witness :
  exists a s',
    boleta_download (desk_of (env_of true true) false true) 1714000000 clinic
    = (Ok a, s') /\
    citas_pendientes_mem (proc s') = [].
Proof.
  destruct (boleta_download_answers (desk_of (env_of true true) false true)
              1714000000 clinic eq_refl)
    as (a & s' & E & (_ & Hm & _) & _).
  exists a, s'. split; [exact E|exact Hm].
Defined.

(** The start of [boleta_download] on a sheet that can be read and is
    not empty. *)
Lemma boleta_download_sheet (k : desk) (reserva_id : Z) (s : site)
    (df : frame) :
  pandas (xl (base (views k))) = true ->
  pdf_dir s !! pdf_name_of reserva_id = None ->
  cit_f (files (proc s)) = Sheet df -> df_empty df = false ->
  "id" ∈ columns df ->
  boleta_download k reserva_id s
  = match List.filter (has_id reserva_id) (rows df) with
    | [] => (Ok (Back "/dashboard/paciente"),
             site_flashed "Cita no encontrada." "error" s)
    | r :: _ =>
        St.try_except
          (paciente ← paciente_of k (to_dict df r);
           ok ← generate_boleta_pdf k (to_dict df r) paciente
                  (pdf_name_of reserva_id);
           if negb ok then
             _ ← on_proc
                   (flash
                      "No se pudo generar la boleta (falta reportlab o función externa)."
                      "error");
             mret (Back (url_of r_dashboard_paciente))
           else send_file (pdf_name_of reserva_id))
          (fun ex =>
             _ ← on_proc
                   (flash ("Error al generar boleta: " +:+ exn_text k ex)
                          "error");
             mret (Back (url_of r_dashboard_paciente))) s
    end.
Proof.
  intros Hp Hc Hcit He Hid.
  pose proof (read_cit k s) as Hread. rewrite Hp, Hcit in Hread.
  cbn [negb] in Hread.
  unfold boleta_download.
  rewrite (try_except_ext _ _ _ _ (boleta_body_unfold k reserva_id s Hc)).
  rewrite (try_bind_ok _ _ _ _ _ _ Hread). rewrite He.
  rewrite (col_eq_ok _ _ _ Hid).
  rewrite (try_bind_ok (St.pure (Ok _)) _ _ s _ s eq_refl). cbv zeta.
  rewrite (df_filter_empty _ _ _ Hid).
  change (fun r => cell_eq (cell r "id") (VInt reserva_id))
    with (has_id reserva_id).
  unfold iloc0, df_filter. cbn [rows columns].
  destruct (List.filter (has_id reserva_id) (rows df)) as [|r l] eqn:Hf.
  - apply try_flash_back.
  - rewrite (try_bind_ok (St.pure (Ok r)) _ _ s r s eq_refl).
    reflexivity.
Qed.

(** X27.  An id that no row of the appointments sheet carries: when no
    receipt with that id is in the directory, [boleta_download] flashes
    "Cita no encontrada." as an error and redirects to the dashboard of
    the patient; no receipt is written and nothing else changes. *)
Theorem boleta_download_unknown_id (k : desk) (reserva_id : Z) (s : site)
    (df : frame) :
  pandas (xl (base (views k))) = true ->
  pdf_dir s !! pdf_name_of reserva_id = None ->
  cit_f (files (proc s)) = Sheet df -> df_empty df = false ->
  "id" ∈ columns df ->
  (forall r, r ∈ rows df -> cell r "id" <> VInt reserva_id) ->
  boleta_download k reserva_id s
  = (Ok (Back "/dashboard/paciente"),
     site_flashed "Cita no encontrada." "error" s).
Proof.
  intros Hp Hc Hcit He Hid Hno.
  rewrite (boleta_download_sheet k reserva_id s df Hp Hc Hcit He Hid).
  rewrite filter_none; [reflexivity|].
  intros r Hr. unfold has_id.
  destruct (cell_eq (cell r "id") (VInt reserva_id)) eqn:E; [|reflexivity].
  apply cell_eq_true in E. by apply Hno in Hr.
Qed.

Lemma boleta_download_unknown_id_witness :
  boleta_download (desk_of (env_of true true) true true) 42 clinic
  = (Ok (Back "/dashboard/paciente"),
     site_flashed "Cita no encontrada." "error" clinic).
Proof.
  apply (boleta_download_unknown_id (desk_of (env_of true true) true true)
           42 clinic citas_df);
    [reflexivity | reflexivity | reflexivity | reflexivity
    | vm_compute; set_solver
    | intros r Hin; apply list_elem_of_singleton in Hin; subst r;
      vm_compute; discriminate ].
Defined.

Lemma to_dict_get (df : frame) (r : row) (c : string) (dflt : value) :
  c ∈ columns df -> dict_get (to_dict df r) c dflt = cell r c.
Proof.
  intros Hc. unfold dict_get, to_dict, cell. rewrite lookup_union.
  destruct (r !! c) as [v|] eqn:Hr; simpl.
  - by destruct (gset_to_gmap VNaN (columns df) !! c).
  - by rewrite (proj2 (lookup_gset_to_gmap_Some _ _ _ _) (conj Hc eq_refl)).
Qed.



End BoletaTheorems.

(** ** Accounts: [login] and [registro] *)

Section AuthFacts.

Lemma nonempty_true (s : string) : s <> "" -> nonempty s = true.
Proof.
  intros H. unfold nonempty. destruct (String.eqb_spec s ""); done.
Qed.

(** The fallback of [login] on a patients sheet that has the four
    columns it reads: only the first row the identifier selects
    counts. *)
Lemma login_fallback_sheet (k : desk) (identifier password rol : string)
    (w : world) (df : frame) :
  pandas (xl (base (views k))) = true ->
  pati_f (files w) = Sheet df ->
  {["username"; "email"; "password"; "rol"]} ⊆ columns df ->
  identifier <> "" -> password <> "" ->
  login_fallback k identifier password rol w
  = (Ok (match List.filter (identifies identifier) (rows df) with
         | [] => Denied "Credenciales inválidas (fallback)"
         | r :: _ =>
             if py_eq (cell r "password") (VStr password)
                && py_eq (cell r "rol") (VStr rol)
             then Granted (to_dict df r)
             else Denied "Credenciales inválidas (fallback)"
         end), w).
Proof.
  intros Hp Hf Hcols Hi Hpw.
  assert (Hu : "username" ∈ columns df) by set_solver.
  assert (He : "email" ∈ columns df) by set_solver.
  assert (Hpc : "password" ∈ columns df) by set_solver.
  assert (Hr : "rol" ∈ columns df) by set_solver.
  destruct w as [ss f [c p md] m q o]. simpl in Hf. subst p.
  unfold login_fallback, on_files. st_unfold.
  rewrite excel_read_spec, Hp. simpl.
  rewrite (nonempty_true _ Hi), (nonempty_true _ Hpw). simpl.
  rewrite (col_eq_ok _ _ _ Hu), (col_eq_ok _ _ _ He). simpl.
  rewrite (df_filter_empty _ _ _ Hu).
  change (fun r => cell_eq (cell r "username") (VStr identifier)
                   || cell_eq (cell r "email") (VStr identifier))
    with (identifies identifier).
  unfold iloc0, row_getitem, df_filter. simpl.
  destruct (List.filter (identifies identifier) (rows df)) as [|r l];
    [reflexivity|]. simpl.
  rewrite !bool_decide_eq_true_2 by done. simpl.
  destruct (py_eq (cell r "password") (VStr password)); simpl;
    [|reflexivity].
  destruct (py_eq (cell r "rol") (VStr rol)); reflexivity.
Qed.

(** X29.  [login] without [authenticate], on a patients sheet with the
    columns "username", "email", "password" and "rol", for an
    identifier and a password that are not empty.  Only the first row
    whose user name or e-mail is the identifier counts: the session
    gets the user exactly when the "password" cell of that row is the
    text typed and its "rol" cell is the role asked for (a cell that is
    a number or empty equals no password); rows further down are not
    looked at.  A refused login flashes "Credenciales inválidas
    (fallback)" and leaves the session as it was. *)
Theorem login_first_match (k : desk) (req : request) (w : world)
    (df : frame) (before rest : list row) (r : row) :
  authenticate k = None ->
  pandas (xl (base (views k))) = true ->
  pati_f (files w) = Sheet df ->
  {["username"; "email"; "password"; "rol"]} ⊆ columns df ->
  method req = POST ->
  strip k (form_str req "identifier" "") <> "" ->
  form_str req "password" "" <> "" ->
  rows df = (before ++ r :: rest)%list ->
  (forall r0, r0 ∈ before ->
     identifies (strip k (form_str req "identifier" "")) r0 = false) ->
  identifies (strip k (form_str req "identifier" "")) r = true ->
  login k req w
  = if py_eq (cell r "password") (VStr (form_str req "password" ""))
       && py_eq (cell r "rol") (VStr (form_str req "rol" "paciente"))
    then (Ok (Go (home_of (form_str req "rol" "paciente"))),
          set_sess
            (Session
               (Some (UserInfo (cell r "username")
                               (get_or_none (to_dict df r) "nombre")
                               (VStr (form_str req "rol" "paciente"))
                               (cell r "email")))
               (reserva_temp (sess w))) w)
    else (Ok (Show "login.html" CtxPlain),
          flashed "Credenciales inválidas (fallback)" "error" w).
Proof.
  intros Ha Hp Hf Hcols Hm Hi Hpw Hrows Hbefore Hr.
  unfold login. rewrite Hm, Ha.
  unfold mbind at 1. unfold st_bind, St.bind, St.try_except.
  rewrite (login_fallback_sheet k _ _ _ w df Hp Hf Hcols Hi Hpw).
  rewrite Hrows, (filter_first _ _ _ _ Hbefore Hr).
  destruct (py_eq (cell r "password") _ && py_eq (cell r "rol") _).
  - unfold set_session. st_unfold. simpl.
    unfold get_or_none at 1 3.
    rewrite !to_dict_get by set_solver. reflexivity.
  - reflexivity.
Qed.

Lemma login_first_match_witness :
  (login (desk_of (env_of true true) true true) (post login_form)
     (proc clinic)).1
  = Ok (Go "/dashboard/paciente").
Proof.
  rewrite (login_first_match (desk_of (env_of true true) true true)
             (post login_form) (proc clinic) pacientes_df [] [] luis_row);
    [reflexivity | reflexivity | reflexivity | reflexivity
    | unfold pacientes_df, pati_columns; simpl; set_solver
    | reflexivity
    | vm_compute; discriminate
    | vm_compute; discriminate
    | reflexivity
    | intros r0 Hin; inversion Hin
    | reflexivity ].
Defined.

(** X30.  [registro] without [create_user]: with pandas and a patients
    file that can be written, a POST always registers.  The row it
    appends holds the password as it was typed and the role the form
    names, whatever that is; the rows already there are kept and not
    looked at, so a user name that is taken is registered again.
    Without pandas, or when the file cannot be written, nothing is
    stored and the form is shown again with an error. *)
Theorem registro_appends_unchecked (k : desk) (req : request) (w : world) :
  create_user k = None ->
  method req = POST ->
  let row :=
    new_paciente (strip k (form_str req "username" ""))
                 (strip k (form_str req "nombre" ""))
                 (strip k (form_str req "email" ""))
                 (strip k (form_str req "telefono" ""))
                 (form_str req "rol" "paciente")
                 (form_str req "password" "")
                 (form_str req "documento" "") in
  row !! "password" = Some (VStr (form_str req "password" "")) /\
  row !! "rol" = Some (VStr (form_str req "rol" "paciente")) /\
  registro k req w
  = if pandas (xl (base (views k))) && writable (xl (base (views k))) PATI_F
    then (Ok (Go "/login"),
          flashed "Registro exitoso. Por favor inicia sesión." "success"
            (set_pati
               (Sheet (concat_row
                         (frame_or_empty pati_columns (pati_f (files w)))
                         row)) w))
    else (Ok (Show "registro.html" CtxPlain),
          flashed
            ("Error al registrar: " +:+
             exn_text k (if pandas (xl (base (views k)))
                         then OSError else RuntimeError))
            "error" w).
Proof.
  intros Hc Hm row. split; [by vm_compute|]. split; [by vm_compute|].
  unfold registro. rewrite Hm, Hc. fold row.
  destruct w as [ss f d m q o].
  unfold on_files, flash. st_unfold. simpl.
  rewrite excel_append_row_spec.
  destruct (pandas (xl (base (views k)))),
    (writable (xl (base (views k))) PATI_F); reflexivity.
Qed.

Lemma registro_appends_unchecked_witness :
  exists w',
    registro (desk_of (env_of true true) true true) (post registro_form)
      (proc clinic)
    = (Ok (Go "/login"), w') /\
    List.length (stored_rows (pati_f (files w'))) = 2%nat.
Proof.
  destruct (registro_appends_unchecked
              (desk_of (env_of true true) true true) (post registro_form)
              (proc clinic) eq_refl eq_refl) as (_ & _ & E).
  eexists. split; [exact E|reflexivity].
Defined.

End AuthFacts.

(** ** The in-memory list and the other routes *)

Section MemOthers.

(** X3.  The in-memory list belongs to [pago]: no other route embedded
    here appends to it, removes from it or replaces it, whatever the
    request, the files and the functions of [utils_excel] do. *)
Theorem other_routes_keep_memory (k : desk) (d : deps) (e : env)
    (req : request) (cita_id : Z) (w : world) :
  citas_pendientes_mem (logout w).2 = citas_pendientes_mem w /\
  citas_pendientes_mem (registro k req w).2 = citas_pendientes_mem w /\
  citas_pendientes_mem (login k req w).2 = citas_pendientes_mem w /\
  citas_pendientes_mem (seleccionar_medico d req w).2
  = citas_pendientes_mem w /\
  citas_pendientes_mem (seleccionar_hora e req w).2
  = citas_pendientes_mem w /\
  citas_pendientes_mem (confirmar_cita req w).2 = citas_pendientes_mem w /\
  citas_pendientes_mem (citas_pendientes d w).2 = citas_pendientes_mem w /\
  citas_pendientes_mem (dashboard_paciente d w).2 = citas_pendientes_mem w /\
  citas_pendientes_mem (dashboard_medico d w).2 = citas_pendientes_mem w /\
  citas_pendientes_mem (dashboard_secretaria d w).2
  = citas_pendientes_mem w /\
  citas_pendientes_mem (dashboard_farmacia w).2 = citas_pendientes_mem w /\
  citas_pendientes_mem (historial d w).2 = citas_pendientes_mem w /\
  citas_pendientes_mem (marcar_atendido e req cita_id w).2
  = citas_pendientes_mem w.
Proof.
  repeat apply conj; symmetry.
  - revert w. change (mem_rel eq logout). unfold logout. mem_rel_tac.
  - revert w. change (mem_rel eq (registro k req)).
    unfold registro. mem_rel_tac.
  - revert w. change (mem_rel eq (login k req)).
    unfold login, login_fallback. mem_rel_tac.
  - revert w. change (mem_rel eq (seleccionar_medico d req)).
    unfold seleccionar_medico, med_list_of. mem_rel_tac.
  - apply seleccionar_hora_mem.
  - revert w. change (mem_rel eq (confirmar_cita req)).
    unfold confirmar_cita. mem_rel_tac.
  - revert w. change (mem_rel eq (citas_pendientes d)).
    unfold citas_pendientes. mem_rel_tac.
  - revert w. change (mem_rel eq (dashboard_paciente d)).
    unfold dashboard_paciente. mem_rel_tac.
  - revert w. change (mem_rel eq (dashboard_medico d)).
    unfold dashboard_medico, medico_id_of. mem_rel_tac.
  - revert w. change (mem_rel eq (dashboard_secretaria d)).
    unfold dashboard_secretaria. mem_rel_tac.
  - revert w. change (mem_rel eq dashboard_farmacia).
    unfold dashboard_farmacia. mem_rel_tac.
  - revert w. change (mem_rel eq (historial d)).
    unfold historial. mem_rel_tac.
  - apply marcar_atendido_mem.
Qed.

End MemOthers.
